(** * gin-proc: the back-end service (service.py) and its login handler
      (server.py), embedded as state-and-exception passing functions over
      an explicit world: the two remote hosts, the local file system, the
      process environment and the subprocess results. *)

From Stdlib Require Import ZArith String List Bool Lia.
From stdpp Require Import base option list gmap strings pretty.
Import ListNotations.
#[local] Set Warnings "-register-all".
Local Open Scope string_scope.
Local Open Scope Z_scope.

(** ** Python values

    The service works on decoded JSON: every value it reads from a reply
    is one of these.  A dict keeps its items in order. *)

Inductive pyval : Type :=
| PNone
| PBool (b : bool)
| PInt (z : Z)
| PStr (s : string)
| PList (l : list pyval)
| PDict (d : list (string * pyval)).

(** Truth value of an object, as [if x], [not x] and [x and y] take it. *)
Definition truthy (v : pyval) : bool :=
  match v with
  | PNone => false
  | PBool b => b
  | PInt z => negb (z =? 0)
  | PStr s => negb (String.eqb s "")
  | PList l => match l with [] => false | _ => true end
  | PDict d => match d with [] => false | _ => true end
  end.

(** [v == 'literal'] for a string literal on the right. *)
Definition py_eq_str (v : pyval) (s : string) : bool :=
  match v with
  | PStr t => String.eqb t s
  | _ => false
  end.

Definition join (sep : string) (l : list string) : string := String.concat sep l.

(** [repr(v)].  A string is put between single quotes as it is, which is
    Python's output for every string without quotes, backslashes and
    control characters. *)
Fixpoint py_repr (v : pyval) : string :=
  match v with
  | PNone => "None"
  | PBool true => "True"
  | PBool false => "False"
  | PInt z => pretty z
  | PStr s => "'" ++ s ++ "'"
  | PList l => "[" ++ join ", " (List.map py_repr l) ++ "]"
  | PDict d =>
      "{" ++ join ", " (List.map (fun kv => "'" ++ fst kv ++ "': " ++ py_repr (snd kv)) d) ++ "}"
  end.

(** [str(v)], which is what [format] and f-strings insert. *)
Definition py_str (v : pyval) : string :=
  match v with
  | PStr s => s
  | _ => py_repr v
  end.

(** ** Paths

    A path is the list of its components; [os.path.join] appends one.
    The names the service joins are taken as single components: a name
    that is itself absolute or holds a separator is outside the model. *)
Definition path : Type := list string.

Definition os_path_join (p : path) (name : string) : path := (p ++ [name])%list.

Definition path_str (p : path) : string := join "/" p.

(** [under t p]: [p] is [t] or lies below it. *)
Fixpoint under (t p : path) : bool :=
  match t, p with
  | [], _ => true
  | a :: t', b :: p' => String.eqb a b && under t' p'
  | _ :: _, [] => false
  end.

(** ** Exceptions

    Modelled from the spec: the errors module is not among the sources.
    A ServerError is a generic upstream failure that carries a message,
    or the exception it was made from, and an HTTP status hint when one
    is given; a ServiceError is made from the exception that stopped the
    fetch of the repository's metadata. *)

Inductive exn : Type :=
| KeyError (k : string)
| TypeError
| JSONDecodeError
| ConnectionError
| FileNotFoundError (p : path)
| FileExistsError (p : path)
| IsADirectoryError (p : path)
| NotADirectoryError (p : path)
| OSError (what : string)
| ServerError (arg : string + exn) (status : option Z)
| ServiceError (cause : exn)
| HTTPException (status : option Z).

Definition is_ConnectionError (e : exn) : bool :=
  match e with ConnectionError => true | _ => false end.

Definition is_ServerError (e : exn) : bool :=
  match e with ServerError _ _ => true | _ => false end.

Definition is_ServiceError (e : exn) : bool :=
  match e with ServiceError _ => true | _ => false end.

(** [e.status] of a ServerError. *)
Definition status_of (e : exn) : option Z :=
  match e with ServerError _ s => s | _ => None end.

(** http.HTTPStatus *)
Definition OK : Z := 200.
Definition UNAUTHORIZED : Z := 401.
Definition INTERNAL_SERVER_ERROR : Z := 500.
Definition SERVICE_UNAVAILABLE : Z := 503.

(** ** The cryptography package

    Key generation and the serializers are library code: a key is what
    [rsa.generate_private_key] was asked for plus the random material it
    drew, and the two serializers are parameters of the development. *)

Record rsa_key : Type := { public_exponent : Z; key_size : Z; material : N }.

Module Encoding.
Inductive t : Type := PEM | DER | OpenSSH.
End Encoding.

Module PrivateFormat.
Inductive t : Type := PKCS8 | TraditionalOpenSSL.
End PrivateFormat.

Module PublicFormat.
Inductive t : Type := SubjectPublicKeyInfo | PKCS1 | OpenSSH.
End PublicFormat.

Inductive KeySerializationEncryption : Type :=
| NoEncryption
| BestAvailableEncryption (password : string).

(** ** HTTP, as the requests package shows it *)

Inductive verb : Type := GET | POST | PATCH | DELETE.

Inductive payload : Type :=
| NoBody
| Form (data : list (string * pyval))
| Json (json : pyval).

(** A URL is kept as the pieces the service concatenates. *)
Record request : Type := {
  method : verb;
  url : list string;
  headers : list (string * string);
  auth : option (pyval * pyval);
  body : payload
}.

(** The body of a reply: JSON that decodes to a value, or other text. *)
Inductive content : Type :=
| Decodes (v : pyval)
| Plain (s : string).

Record response : Type := {
  status_code : Z;
  body_of : content
}.

Inductive reply : Type :=
| Unreachable
| Answer (r : response).

(** ** The git host (GIN) *)

Record token_entry : Type := { tok_owner : string; tok_name : string; tok_sha1 : string }.

Record key_entry : Type := {
  key_owner : string; key_title : string; key_text : string; key_url : string
}.

Record Gin : Type := {
  accounts : list (string * string);
  tokens : list token_entry;
  keys : list key_entry;
  repositories : list pyval;
  fresh : list string
}.

(** ** The CI host (Drone) *)

Record secret_entry : Type := { sec_name : string; sec_data : string }.

(** What the host does with a request to create a secret whose name is
    taken already. *)
Inductive duplicate_policy : Type := Refuse | Replace | Append.

Record Drone : Type := {
  drone_token : string;
  drone_repos : list pyval;
  secrets : gmap string (list secret_entry);
  activated : list string;
  on_duplicate : duplicate_policy
}.

(** ** The local machine *)

Inductive node : Type :=
| File (content : string) (mode : Z)
| Dir (mode : Z).

(** What a [subprocess.call] comes to: the program could not be started,
    or it ran, left some files and exited with a code. *)
Inductive proc_result : Type :=
| NotStarted (e : exn)
| Exited (code : Z) (written : list (path * node)).

(** What is handed to the logger. *)
Inductive logmsg : Type :=
| Text (s : string)
| Exc (e : exn)
| Val (v : pyval)
| Body (c : content).

(** server.py's [User] object. *)
Record User : Type := { username : pyval; gin_token : pyval }.

Record World : Type := {
  gin : Gin;
  drone : Drone;
  script : list (option reply);
  sent : list request;
  fs : gmap path node;
  umask : Z;
  environ : gmap string string;
  tmp_names : list path;
  entropy : N;
  procs : list proc_result;
  spawned : list (list string * option path);
  logged : list (string * logmsg);
  user : User
}.

Definition with_hosts (g : Gin) (d : Drone) (w : World) : World :=
  {| gin := g; drone := d; script := script w; sent := sent w; fs := fs w;
     umask := umask w; environ := environ w; tmp_names := tmp_names w;
     entropy := entropy w; procs := procs w; spawned := spawned w; logged := logged w; user := user w |}.

Definition with_script (s : list (option reply)) (w : World) : World :=
  {| gin := gin w; drone := drone w; script := s; sent := sent w; fs := fs w;
     umask := umask w; environ := environ w; tmp_names := tmp_names w;
     entropy := entropy w; procs := procs w; spawned := spawned w; logged := logged w; user := user w |}.

Definition with_sent (s : list request) (w : World) : World :=
  {| gin := gin w; drone := drone w; script := script w; sent := s; fs := fs w;
     umask := umask w; environ := environ w; tmp_names := tmp_names w;
     entropy := entropy w; procs := procs w; spawned := spawned w; logged := logged w; user := user w |}.

Definition with_fs (f : gmap path node) (w : World) : World :=
  {| gin := gin w; drone := drone w; script := script w; sent := sent w; fs := f;
     umask := umask w; environ := environ w; tmp_names := tmp_names w;
     entropy := entropy w; procs := procs w; spawned := spawned w; logged := logged w; user := user w |}.

Definition with_environ (e : gmap string string) (w : World) : World :=
  {| gin := gin w; drone := drone w; script := script w; sent := sent w; fs := fs w;
     umask := umask w; environ := e; tmp_names := tmp_names w;
     entropy := entropy w; procs := procs w; spawned := spawned w; logged := logged w; user := user w |}.

Definition with_tmp_names (t : list path) (w : World) : World :=
  {| gin := gin w; drone := drone w; script := script w; sent := sent w; fs := fs w;
     umask := umask w; environ := environ w; tmp_names := t;
     entropy := entropy w; procs := procs w; spawned := spawned w; logged := logged w; user := user w |}.

Definition with_entropy (n : N) (w : World) : World :=
  {| gin := gin w; drone := drone w; script := script w; sent := sent w; fs := fs w;
     umask := umask w; environ := environ w; tmp_names := tmp_names w;
     entropy := n; procs := procs w; spawned := spawned w; logged := logged w; user := user w |}.

Definition with_procs (p : list proc_result) (w : World) : World :=
  {| gin := gin w; drone := drone w; script := script w; sent := sent w; fs := fs w;
     umask := umask w; environ := environ w; tmp_names := tmp_names w;
     entropy := entropy w; procs := p; spawned := spawned w; logged := logged w; user := user w |}.

Definition with_logged (l : list (string * logmsg)) (w : World) : World :=
  {| gin := gin w; drone := drone w; script := script w; sent := sent w; fs := fs w;
     umask := umask w; environ := environ w; tmp_names := tmp_names w;
     entropy := entropy w; procs := procs w; spawned := spawned w; logged := l; user := user w |}.

Definition with_user (u : User) (w : World) : World :=
  {| gin := gin w; drone := drone w; script := script w; sent := sent w; fs := fs w;
     umask := umask w; environ := environ w; tmp_names := tmp_names w;
     entropy := entropy w; procs := procs w; spawned := spawned w; logged := logged w; user := u |}.

Definition with_spawned (c : list (list string * option path)) (w : World) : World :=
  {| gin := gin w; drone := drone w; script := script w; sent := sent w; fs := fs w;
     umask := umask w; environ := environ w; tmp_names := tmp_names w;
     entropy := entropy w; procs := procs w; spawned := c; logged := logged w;
     user := user w |}.

(** ** The monad of the embedding: a world is threaded through, and a
    computation returns a value or raises. *)

Inductive outcome (A : Type) : Type :=
| Return (a : A)
| Raise (e : exn).
Arguments Return {A} a.
Arguments Raise {A} e.

Definition M (A : Type) : Type := World -> outcome A * World.

Definition ret {A} (a : A) : M A := fun w => (Return a, w).

Definition raise {A} (e : exn) : M A := fun w => (Raise e, w).

Definition bind {A B} (c : M A) (k : A -> M B) : M B :=
  fun w =>
    match c w with
    | (Return a, w') => k a w'
    | (Raise e, w') => (Raise e, w')
    end.

(** [try: c except <class> as e: h e], the class given by its test. *)
Definition try_except {A} (c : M A) (caught : exn -> bool) (h : exn -> M A) : M A :=
  fun w =>
    match c w with
    | (Return a, w') => (Return a, w')
    | (Raise e, w') => if caught e then h e w' else (Raise e, w')
    end.

Definition lift {A} (r : outcome A) : M A := fun w => (r, w).

Declare Scope py_scope.
Delimit Scope py_scope with py.
Notation "x ← y ; z" := (bind y (fun x => z))
  (at level 20, y at level 100, z at level 200, only parsing) : py_scope.
Notation "x ;; z" := (bind x (fun _ => z))
  (at level 100, z at level 200, only parsing, right associativity) : py_scope.
Local Open Scope py_scope.

(** [for x in xs: body x], a body that never breaks. *)
Fixpoint for_each {A} (xs : list A) (body : A -> M unit) : M unit :=
  match xs with
  | [] => ret tt
  | x :: rest => body x ;; for_each rest body
  end.

(** [for x in xs: body x] where the body may return from the function:
    [Some b] is that return, [None] goes on with the next item. *)
Fixpoint for_until {A B} (xs : list A) (body : A -> M (option B)) : M (option B) :=
  match xs with
  | [] => ret None
  | x :: rest =>
      r ← body x;
      match r with
      | Some b => ret (Some b)
      | None => for_until rest body
      end
  end.

(** [for x in xs: body x] where the body may [break], over a state that
    the body changes: the boolean is the break. *)
Fixpoint for_break {A S} (xs : list A) (s : S) (body : A -> S -> M (bool * S)) : M S :=
  match xs with
  | [] => ret s
  | x :: rest =>
      r ← body x s;
      if fst r then ret (snd r) else for_break rest (snd r) body
  end.

(** ** Operations on Python values that can raise *)

Fixpoint lookup_item (k : string) (d : list (string * pyval)) : option pyval :=
  match d with
  | [] => None
  | (k', v) :: rest => if String.eqb k' k then Some v else lookup_item k rest
  end.

(** [v[k]] for a string key. *)
Definition getitem (v : pyval) (k : string) : outcome pyval :=
  match v with
  | PDict d =>
      match lookup_item k d with
      | Some x => Return x
      | None => Raise (KeyError k)
      end
  | _ => Raise TypeError
  end.

(** A value used where only a [str] will do. *)
Definition as_str (v : pyval) : outcome string :=
  match v with
  | PStr s => Return s
  | _ => Raise TypeError
  end.

Fixpoint chars (s : string) : list pyval :=
  match s with
  | EmptyString => []
  | String c rest => PStr (String c EmptyString) :: chars rest
  end.

(** The items a [for] loop draws from [v]. *)
Definition py_iter (v : pyval) : outcome (list pyval) :=
  match v with
  | PList l => Return l
  | PDict d => Return (List.map (fun kv => PStr (fst kv)) d)
  | PStr s => Return (chars s)
  | _ => Raise TypeError
  end.

(** ** The local machine's operations *)

(** Modelled from the spec: [logger.log] is not among the sources, and
    the spec gives logging no part in what the service does.  It is taken
    to append the entry to the log and to return. *)
Definition log (level : string) (msg : logmsg) : M unit :=
  fun w => (Return tt, with_logged (logged w ++ [(level, msg)])%list w).

(** [os.environ[k]] *)
Definition environ_get (k : string) : M string :=
  fun w =>
    match environ w !! k with
    | Some v => (Return v, w)
    | None => (Raise (KeyError k), w)
    end.

(** [os.environ[k] = v] *)
Definition environ_set (k v : string) : M unit :=
  fun w => (Return tt, with_environ (<[k := v]> (environ w)) w).

Definition os_path_exists (p : path) : M bool :=
  fun w => (Return (bool_decide (is_Some (fs w !! p))), w).

(** A text file open for reading: what has not been read yet. *)
Record text_file : Type := { unread : string }.

(** [open(p, 'r')] *)
Definition open_r (p : path) : M text_file :=
  fun w =>
    match fs w !! p with
    | Some (File c _) => (Return {| unread := c |}, w)
    | Some (Dir _) => (Raise (IsADirectoryError p), w)
    | None => (Raise (FileNotFoundError p), w)
    end.

(** [f.read()]: everything up to the end of the file, which leaves the
    position at the end. *)
Definition file_read (f : text_file) : string * text_file :=
  (unread f, {| unread := "" |}).

(** File modes, written in octal in the source. *)
Definition o666 : Z := 438.
Definition o777 : Z := 511.
Definition o700 : Z := 448.
Definition o600 : Z := 384.

Definition new_mode (requested : Z) (w : World) : Z :=
  Z.land requested (Z.lnot (umask w)).

(** [with open(p, 'w+') as f: f.write(s)] *)
Definition write_text (p : path) (s : string) : M unit :=
  fun w =>
    match fs w !! p with
    | Some (File _ m) => (Return tt, with_fs (<[p := File s m]> (fs w)) w)
    | Some (Dir _) => (Raise (IsADirectoryError p), w)
    | None =>
        match fs w !! removelast p with
        | Some (Dir _) =>
            (Return tt, with_fs (<[p := File s (new_mode o666 w)]> (fs w)) w)
        | Some (File _ _) => (Raise (NotADirectoryError p), w)
        | None => (Raise (FileNotFoundError p), w)
        end
    end.

Fixpoint makedirs_from (done : path) (rest : list string) (m : Z)
    (f : gmap path node) : exn + gmap path node :=
  match rest with
  | [] => inr f
  | c :: rest' =>
      let q := (done ++ [c])%list in
      match f !! q with
      | Some (Dir _) => makedirs_from q rest' m f
      | Some (File _ _) =>
          inl (match rest' with [] => FileExistsError q | _ => NotADirectoryError q end)
      | None => makedirs_from q rest' m (<[q := Dir m]> f)
      end
  end.

(** [os.makedirs(p, exist_ok=True)] *)
Definition os_makedirs (p : path) : M unit :=
  fun w =>
    match makedirs_from [] p (new_mode o777 w) (fs w) with
    | inr f => (Return tt, with_fs f w)
    | inl e => (Raise e, w)
    end.

(** [os.chmod(p, m)] *)
Definition os_chmod (p : path) (m : Z) : M unit :=
  fun w =>
    match fs w !! p with
    | Some (File c _) => (Return tt, with_fs (<[p := File c m]> (fs w)) w)
    | Some (Dir _) => (Return tt, with_fs (<[p := Dir m]> (fs w)) w)
    | None => (Raise (FileNotFoundError p), w)
    end.

(** [os.remove(p)] *)
Definition os_remove (p : path) : M unit :=
  fun w =>
    match fs w !! p with
    | Some (File _ _) => (Return tt, with_fs (delete p (fs w)) w)
    | Some (Dir _) => (Raise (IsADirectoryError p), w)
    | None => (Raise (FileNotFoundError p), w)
    end.

(** What is left of a file system once [t] and all below it are gone. *)
Definition without_tree (t : path) (f : gmap path node) : gmap path node :=
  filter (fun kv => under t (fst kv) = false) f.

(** [shutil.rmtree(p)] *)
Definition rmtree (p : path) : M unit :=
  fun w =>
    match fs w !! p with
    | Some (Dir _) => (Return tt, with_fs (without_tree p (fs w)) w)
    | Some (File _ _) => (Raise (NotADirectoryError p), w)
    | None => (Raise (FileNotFoundError p), w)
    end.

(** [tempfile.mkdtemp]: random names are tried until one is free; the
    names it would draw are the world's [tmp_names]. *)
Fixpoint pick_free (names : list path) (f : gmap path node) : option (path * list path) :=
  match names with
  | [] => None
  | t :: rest =>
      match f !! t with
      | None => Some (t, rest)
      | Some _ => pick_free rest f
      end
  end.

Definition mkdtemp : M path :=
  fun w =>
    match pick_free (tmp_names w) (fs w) with
    | Some (t, rest) =>
        (Return t, with_tmp_names rest (with_fs (<[t := Dir o700]> (fs w)) w))
    | None => (Raise (FileExistsError []), w)
    end.

(** [with tempfile.TemporaryDirectory() as t: body t]: the directory is
    removed with all it holds when the block is left, by its end or by an
    exception. *)
Definition with_TemporaryDirectory {A} (body : path -> M A) : M A :=
  t ← mkdtemp;
  fun w =>
    match body t w with
    | (r, w') => (r, with_fs (without_tree t (fs w')) w')
    end.

Definition write_all (files : list (path * node)) (f : gmap path node) : gmap path node :=
  fold_left (fun acc pn => <[fst pn := snd pn]> acc) files f.

(** [subprocess.call(argv, cwd=cwd)]: the exit code, unless the program
    cannot be started.  With no result left in [procs] the program does
    nothing and exits with 0. *)
Definition call (argv : list string) (cwd : option path) : M Z :=
  fun w =>
    let w1 := with_spawned (spawned w ++ [(argv, cwd)])%list w in
    match procs w1 with
    | [] => (Return 0, w1)
    | NotStarted e :: rest => (Raise e, with_procs rest w1)
    | Exited code files :: rest =>
        (Return code, with_procs rest (with_fs (write_all files (fs w1)) w1))
    end.

(** [rsa.generate_private_key(backend, public_exponent, key_size)] *)
Definition rsa_generate_private_key (e bits : Z) : M rsa_key :=
  fun w =>
    (Return {| public_exponent := e; key_size := bits; material := entropy w |},
     with_entropy (N.succ (entropy w)) w).

(** ** What the service is given from outside

    The addresses and the home directory are read from the process
    environment when service.py is imported; the serializers belong to the
    cryptography package; [config.create_drone_file] is not among the
    sources, and the name and the text of the file it writes are taken as
    given. *)
Class Platform : Type := {
  GIN_ADDR : string;
  DRONE_ADDR : string;
  HOME : string;
  private_bytes :
    rsa_key -> Encoding.t -> PrivateFormat.t -> KeySerializationEncryption -> string;
  public_bytes : rsa_key -> Encoding.t -> PublicFormat.t -> string;
  drone_file_name : string;
  drone_file_text : pyval -> pyval -> pyval -> pyval -> pyval -> string
}.

Fixpoint assoc (k : string) (l : list (string * string)) : option string :=
  match l with
  | [] => None
  | (k', v) :: rest => if String.eqb k' k then Some v else assoc k rest
  end.

Definition message (st : Z) (m : string) : response :=
  {| status_code := st; body_of := Decodes (PDict [("message", PStr m)]) |}.

Definition not_found : response := {| status_code := 404; body_of := Plain "" |}.

Definition json_reply (st : Z) (v : pyval) : response :=
  {| status_code := st; body_of := Decodes v |}.

Section Hosts.
Context {P : Platform}.

(** *** The reference git host *)

Definition basic_user (g : Gin) (req : request) : option string :=
  match auth req with
  | Some (PStr u, PStr p) =>
      if existsb (fun a => String.eqb (fst a) u && String.eqb (snd a) p) (accounts g)
      then Some u else None
  | _ => None
  end.

Definition bearer_of (t : token_entry) : string := "token " ++ tok_sha1 t.

Definition token_user (g : Gin) (req : request) : option string :=
  match assoc "Authorization" (headers req) with
  | Some h =>
      match List.find (fun t => String.eqb (bearer_of t) h) (tokens g) with
      | Some t => Some (tok_owner t)
      | None => None
      end
  | None => None
  end.

Definition token_json (t : token_entry) : pyval :=
  PDict [("name", PStr (tok_name t)); ("sha1", PStr (tok_sha1 t))].

Definition key_json (k : key_entry) : pyval :=
  PDict [("title", PStr (key_title k)); ("key", PStr (key_text k));
         ("url", PStr (key_url k))].

Definition owned_tokens (u : string) (g : Gin) : list token_entry :=
  List.filter (fun t => String.eqb (tok_owner t) u) (tokens g).

Definition owned_keys (u : string) (g : Gin) : list key_entry :=
  List.filter (fun k => String.eqb (key_owner k) u) (keys g).

Definition with_tokens (ts : list token_entry) (fr : list string) (g : Gin) : Gin :=
  {| accounts := accounts g; tokens := ts; keys := keys g;
     repositories := repositories g; fresh := fr |}.

Definition with_keys (ks : list key_entry) (fr : list string) (g : Gin) : Gin :=
  {| accounts := accounts g; tokens := tokens g; keys := ks;
     repositories := repositories g; fresh := fr |}.

Definition gin_tokens_route (u : string) (req : request) (g : Gin) : response * Gin :=
  match basic_user g req with
  | None => (message 401 "Unauthorized", g)
  | Some a =>
      if negb (String.eqb a u) then (message 403 "Forbidden", g) else
      match method req, body req with
      | GET, _ => (json_reply 200 (PList (List.map token_json (owned_tokens u g))), g)
      | POST, Form data =>
          match lookup_item "name" data, fresh g with
          | Some (PStr n), s :: rest =>
              let t := {| tok_owner := u; tok_name := n; tok_sha1 := s |} in
              (json_reply 201 (token_json t), with_tokens (tokens g ++ [t])%list rest g)
          | Some (PStr n), [] => (message 500 "Internal Server Error", g)
          | _, _ => (message 422 "Unprocessable Entity", g)
          end
      | _, _ => (message 405 "Method Not Allowed", g)
      end
  end.

Definition gin_keys_route (req : request) (g : Gin) : response * Gin :=
  match token_user g req with
  | None => (message 401 "Unauthorized", g)
  | Some o =>
      match method req, body req with
      | GET, _ => (json_reply 200 (PList (List.map key_json (owned_keys o g))), g)
      | POST, Form data =>
          match lookup_item "title" data, lookup_item "key" data, fresh g with
          | Some (PStr t), Some (PStr k), i :: rest =>
              if existsb (fun e => String.eqb (key_title e) t) (owned_keys o g)
              then (message 422 "Key title has been used", g)
              else
                let e := {| key_owner := o; key_title := t; key_text := k;
                            key_url := GIN_ADDR ++ "/api/v1/user/keys/" ++ i |} in
                (json_reply 201 (key_json e), with_keys (keys g ++ [e])%list rest g)
          | Some (PStr t), Some (PStr k), [] => (message 500 "Internal Server Error", g)
          | _, _, _ => (message 422 "Unprocessable Entity", g)
          end
      | _, _ => (message 405 "Method Not Allowed", g)
      end
  end.

Fixpoint remove_key (o u : string) (ks : list key_entry) : option (list key_entry) :=
  match ks with
  | [] => None
  | k :: rest =>
      if String.eqb (key_owner k) o && String.eqb (key_url k) u then Some rest
      else option_map (cons k) (remove_key o u rest)
  end.

Definition gin_key_route (u : string) (req : request) (g : Gin) : response * Gin :=
  match token_user g req with
  | None => (message 401 "Unauthorized", g)
  | Some o =>
      match method req, remove_key o u (keys g) with
      | DELETE, Some ks =>
          ({| status_code := 204; body_of := Plain "" |}, with_keys ks (fresh g) g)
      | _, _ => (not_found, g)
      end
  end.

Definition named_repo (full : string) (r : pyval) : bool :=
  match getitem r "full_name" with
  | Return v => py_eq_str v full
  | Raise _ => false
  end.

Definition gin_repo_route (u r : string) (req : request) (g : Gin) : response * Gin :=
  match token_user g req with
  | None => (message 401 "Unauthorized", g)
  | Some _ =>
      match method req, List.find (named_repo (u ++ "/" ++ r)) (repositories g) with
      | GET, Some d => (json_reply 200 d, g)
      | _, _ => (not_found, g)
      end
  end.

(** Routing: [None] for a URL that is not one of this host. *)
Definition gin_answer (req : request) (g : Gin) : option (response * Gin) :=
  match url req with
  | [b; p] =>
      if String.eqb b GIN_ADDR && String.eqb p "/api/v1/user/keys"
      then Some (gin_keys_route req g) else None
  | [b; p; u; q] =>
      if String.eqb b GIN_ADDR && String.eqb p "/api/v1/users/" && String.eqb q "/tokens"
      then Some (gin_tokens_route u req g) else None
  | [b; p; u; q; r] =>
      if String.eqb b GIN_ADDR && String.eqb p "/api/v1/repos/" && String.eqb q "/"
      then Some (gin_repo_route u r req g) else None
  | [u] =>
      if existsb (fun k => String.eqb (key_url k) u) (keys g)
      then Some (gin_key_route u req g) else None
  | _ => None
  end.

End Hosts.

Section CI.
Context {P : Platform}.

(** *** The reference CI host *)

Definition bearer_ok (d : Drone) (req : request) : bool :=
  match assoc "Authorization" (headers req) with
  | Some h => String.eqb h ("Bearer " ++ drone_token d)
  | None => false
  end.

Definition secret_json (s : secret_entry) : pyval :=
  PDict [("name", PStr (sec_name s)); ("pull_request", PBool false)].

Definition has_secret (n : string) (l : list secret_entry) : bool :=
  existsb (fun s => String.eqb (sec_name s) n) l.

Fixpoint set_secret (n v : string) (l : list secret_entry) : list secret_entry :=
  match l with
  | [] => []
  | s :: rest =>
      if String.eqb (sec_name s) n
      then {| sec_name := n; sec_data := v |} :: rest
      else s :: set_secret n v rest
  end.

Definition with_secrets (m : gmap string (list secret_entry)) (d : Drone) : Drone :=
  {| drone_token := drone_token d; drone_repos := drone_repos d; secrets := m;
     activated := activated d; on_duplicate := on_duplicate d |}.

Definition with_activated (a : list string) (m : gmap string (list secret_entry))
    (d : Drone) : Drone :=
  {| drone_token := drone_token d; drone_repos := drone_repos d; secrets := m;
     activated := a; on_duplicate := on_duplicate d |}.

(** POST /api/repos/{slug}/secrets and GET of the same. *)
Definition drone_secrets_route (slug : string) (req : request) (d : Drone) : response * Drone :=
  match secrets d !! slug with
  | None => (message 404 "Not Found", d)
  | Some l =>
      match method req, body req with
      | GET, _ => (json_reply 200 (PList (List.map secret_json l)), d)
      | POST, Json (PDict j) =>
          match lookup_item "name" j, lookup_item "data" j with
          | Some (PStr n), Some (PStr v) =>
              let s := {| sec_name := n; sec_data := v |} in
              if has_secret n l then
                match on_duplicate d with
                | Refuse => (message 500 "secret name is taken", d)
                | Replace =>
                    (json_reply 200 (secret_json s),
                     with_secrets (<[slug := set_secret n v l]> (secrets d)) d)
                | Append =>
                    (json_reply 200 (secret_json s),
                     with_secrets (<[slug := (l ++ [s])%list]> (secrets d)) d)
                end
              else
                (json_reply 200 (secret_json s),
                 with_secrets (<[slug := (l ++ [s])%list]> (secrets d)) d)
          | _, _ => (message 400 "Invalid secret", d)
          end
      | _, _ => (message 405 "Method Not Allowed", d)
      end
  end.

(** PATCH /api/repos/{slug}/secrets/{name} *)
Definition drone_secret_route (slug n : string) (req : request) (d : Drone) : response * Drone :=
  match secrets d !! slug, method req, body req with
  | Some l, PATCH, Json (PDict j) =>
      match lookup_item "data" j with
      | Some (PStr v) =>
          if has_secret n l
          then (json_reply 200 (secret_json {| sec_name := n; sec_data := v |}),
                with_secrets (<[slug := set_secret n v l]> (secrets d)) d)
          else (message 404 "Not Found", d)
      | _ => (message 400 "Invalid secret", d)
      end
  | _, _, _ => (message 404 "Not Found", d)
  end.

(** POST /api/repos/{slug}: the repository is activated and gets a
    store for its secrets if it has none. *)
Definition drone_repo_route (slug : string) (req : request) (d : Drone) : response * Drone :=
  match method req with
  | POST =>
      let m := match secrets d !! slug with
               | Some _ => secrets d
               | None => <[slug := []]> (secrets d)
               end in
      (json_reply 200 (PDict [("slug", PStr slug); ("active", PBool true)]),
       with_activated (activated d ++ [slug])%list m d)
  | _ => (message 405 "Method Not Allowed", d)
  end.

Definition drone_answer (req : request) (d : Drone) : option (response * Drone) :=
  let guarded (r : response * Drone) :=
    if bearer_ok d req then r else (message 401 "Unauthorized", d) in
  match url req with
  | [b; p] =>
      if String.eqb b DRONE_ADDR && String.eqb p "/api/user/repos"
      then Some (guarded (match method req with
                          | GET => (json_reply 200 (PList (drone_repos d)), d)
                          | _ => (message 405 "Method Not Allowed", d)
                          end))
      else None
  | [b; p; slug] =>
      if String.eqb b DRONE_ADDR && String.eqb p "/api/repos/"
      then Some (guarded (drone_repo_route slug req d)) else None
  | [b; p; slug; q] =>
      if String.eqb b DRONE_ADDR && String.eqb p "/api/repos/" && String.eqb q "/secrets"
      then Some (guarded (drone_secrets_route slug req d)) else None
  | [b; p; slug; q; n] =>
      if String.eqb b DRONE_ADDR && String.eqb p "/api/repos/" && String.eqb q "/secrets/"
      then Some (guarded (drone_secret_route slug n req d)) else None
  | _ => None
  end.

(** *** The network

    A request is answered by the next entry of the world's script when
    that entry holds a reply (the request then reaches no host), and by
    the reference hosts otherwise. *)
Definition answer (req : request) (g : Gin) (d : Drone) : response * Gin * Drone :=
  match gin_answer req g with
  | Some (r, g') => (r, g', d)
  | None =>
      match drone_answer req d with
      | Some (r, d') => (r, g, d')
      | None => (not_found, g, d)
      end
  end.

Definition exchange (req : request) (w : World) : reply * World :=
  match script w with
  | Some r :: rest => (r, with_script rest w)
  | rest =>
      match answer req (gin w) (drone w) with
      | (r, g, d) => (Answer r, with_hosts g d (with_script (tl rest) w))
      end
  end.

(** [requests.get], [requests.post], [requests.patch], [requests.delete] *)
Definition requests (req : request) : M response :=
  fun w =>
    match exchange req (with_sent (sent w ++ [req])%list w) with
    | (Unreachable, w') => (Raise ConnectionError, w')
    | (Answer r, w') => (Return r, w')
    end.

(** [res.json()] *)
Definition json_of (r : response) : M pyval :=
  match body_of r with
  | Decodes v => ret v
  | Plain _ => raise JSONDecodeError
  end.

End CI.

(** * service.py *)

Section Service.
Context {P : Platform}.

Definition PRIV_KEY : string := "gin-proc".
Definition PUB_KEY : string := PRIV_KEY ++ ".pub".
Definition SSH_PATH : path := [HOME; "gin-proc"; "ssh"].

Definition token_header (token : pyval) : list (string * string) :=
  [("Authorization", "token " ++ py_str token)].

(** *** The requests the service sends *)

Definition tokens_request (m : verb) (username password : pyval) (b : payload) : request :=
  {| method := m; url := [GIN_ADDR; "/api/v1/users/"; py_str username; "/tokens"];
     headers := []; auth := Some (username, password); body := b |}.

Definition token_get (username password : pyval) : request :=
  tokens_request GET username password NoBody.

Definition token_post (username password : pyval) : request :=
  tokens_request POST username password (Form [("name", PStr "gin-proc")]).

Definition repos_request (t : string) : request :=
  {| method := GET; url := [DRONE_ADDR; "/api/user/repos"];
     headers := [("Authorization", "Bearer " ++ t)]; auth := None; body := NoBody |}.

Definition enable_post (t : string) (repopath : pyval) : request :=
  {| method := POST; url := [DRONE_ADDR; "/api/repos/"; py_str repopath];
     headers := [("Authorization", "Bearer " ++ t); ("Content-Type", "application/json")];
     auth := None; body := NoBody |}.

Definition secrets_get (t : string) (repopath : pyval) : request :=
  {| method := GET; url := [DRONE_ADDR; "/api/repos/"; py_str repopath; "/secrets"];
     headers := [("Authorization", "Bearer " ++ t)]; auth := None; body := NoBody |}.

Definition secret_post (t : string) (repopath : pyval) (key : string) : request :=
  {| method := POST;
     url := [DRONE_ADDR; "/api/repos/"; py_str repopath; "/secrets"];
     headers := [("Authorization", "Bearer " ++ t); ("Content-Type", "application/json")];
     auth := None;
     body := Json (PDict [("name", PStr "DRONE_PRIVATE_SSH_KEY"); ("data", PStr key);
                          ("pull_request", PBool false)]) |}.

Definition secret_patch (t : string) (repopath secret : pyval) (data : string) : request :=
  {| method := PATCH;
     url := [DRONE_ADDR; "/api/repos/"; py_str repopath; "/secrets/"; py_str secret];
     headers := [("Authorization", "Bearer " ++ t)];
     auth := None;
     body := Json (PDict [("data", PStr data); ("pull_request", PBool false)]) |}.

Definition keys_get (token : pyval) : request :=
  {| method := GET; url := [GIN_ADDR; "/api/v1/user/keys"];
     headers := token_header token; auth := None; body := NoBody |}.

Definition key_delete (token u : pyval) : request :=
  {| method := DELETE; url := [py_str u];
     headers := token_header token; auth := None; body := NoBody |}.

Definition key_post (token : pyval) (public_key : string) : request :=
  {| method := POST; url := [GIN_ADDR; "/api/v1/user/keys"];
     headers := token_header token; auth := None;
     body := Form [("title", PStr PRIV_KEY); ("key", PStr public_key)] |}.

Definition repo_request (user repo token : pyval) : request :=
  {| method := GET;
     url := [GIN_ADDR; "/api/v1/repos/"; py_str user; "/"; py_str repo];
     headers := token_header token; auth := None; body := NoBody |}.

(** *** The functions *)

(** The body of the loop of [gin_ensure_token]: [Some] is its return. *)
Definition token_loop (token : pyval) : M (option pyval) :=
  n ← lift (getitem token "name");
  if py_eq_str n "gin-proc"
  then (s ← lift (getitem token "sha1"); ret (Some s))
  else ret None.

Definition gin_ensure_token (username password : pyval) : M pyval :=
  try_except
    (r ← requests (token_get username password);
     res ← json_of r;
     items ← lift (py_iter res);
     found ← for_until items token_loop;
     match found with
     | Some s => ret s
     | None =>
         r ← requests (token_post username password);
         res ← json_of r;
         lift (getitem res "sha1")
     end)
    is_ConnectionError
    (fun e => raise (ServerError (inr e) None)).

Definition drone_enable_repo (repo : pyval) : M unit :=
  repopath ← lift (getitem repo "full_name");
  t ← environ_get "DRONE_TOKEN";
  res ← requests (enable_post t repopath);
  if negb (status_code res =? OK)
  then raise (ServerError (inl ("Failed to enable hook for " ++ py_str repopath))
                          (Some INTERNAL_SERVER_ERROR))
  else ret tt.

Definition drone_write_secret (key : string) (repo : pyval) : M pyval :=
  repopath ← lift (getitem repo "full_name");
  res ← try_except
          (t ← environ_get "DRONE_TOKEN";
           requests (secret_post t repopath key))
          is_ConnectionError
          (fun e => raise (ServerError (inr e) None));
  if status_code res =? OK
  then
    log "debug" (Text ("Secret installed in `" ++ py_str repo ++ "`"));;
    ret (PBool true)
  else
    j ← json_of res;
    m ← lift (getitem j "message");
    log "critical" (Val m);;
    raise (ServerError (inl ("Secret could not be installed in `" ++ py_str repo ++ "`"))
                       (Some INTERNAL_SERVER_ERROR)).

Definition drone_update_secret (secret : pyval) (data : string) (repopath : pyval) : M pyval :=
  t ← environ_get "DRONE_TOKEN";
  res ← requests (secret_patch t repopath secret data);
  if status_code res =? OK
  then
    log "debug" (Text ("Secret updated in '" ++ py_str repopath ++ "'"));;
    ret (PBool true)
  else
    raise (ServerError (inl ("Secret could not be updated in '" ++ py_str repopath ++ "'"))
                       (Some INTERNAL_SERVER_ERROR)).

(** The body of the loop of [drone_ensure_secrets] up to the last call:
    [None] for a repository that is skipped, and otherwise the result of
    the [key.read()] that is the argument of [drone_write_secret]. *)
Definition prepare_secret (repo : pyval) : M (option string) :=
  active ← lift (getitem repo "active");
  if negb (truthy active) then ret None else
  repopath ← lift (getitem repo "slug");
  t ← environ_get "DRONE_TOKEN";
  r ← requests (secrets_get t repopath);
  secrets ← json_of r;
  key ← open_r (os_path_join SSH_PATH PRIV_KEY);
  items ← lift (py_iter secrets);
  key ← for_break items key (fun secret key =>
    n ← lift (getitem secret "name");
    if py_eq_str n "DRONE_PRIVATE_SSH_KEY"
    then
      log "debug" (Text ("Secret found in repo '" ++ py_str repopath ++ "'"));;
      n ← lift (getitem secret "name");
      drone_update_secret n (fst (file_read key)) repopath;;
      ret (true, snd (file_read key))
    else ret (false, key));
  name ← lift (getitem repo "name");
  log "debug" (Text ("Secret not found in `" ++ py_str name ++ "`"));;
  ret (Some (fst (file_read key))).

Definition ensure_repo_secret (repo : pyval) : M unit :=
  d ← prepare_secret repo;
  match d with
  | None => ret tt
  | Some data => drone_write_secret data repo;; ret tt
  end.

Definition drone_ensure_secrets (user : pyval) : M pyval :=
  t ← environ_get "DRONE_TOKEN";
  r ← requests (repos_request t);
  repos ← json_of r;
  items ← lift (py_iter repos);
  for_each items ensure_repo_secret;;
  ret (PBool true).

Definition gin_get_keys (token : pyval) : M pyval :=
  r ← requests (keys_get token);
  json_of r.

(** Falls off the end of the loop, hence returns [None], when no key has
    the title. *)
Definition gin_ensure_key (token : pyval) : M pyval :=
  ks ← gin_get_keys token;
  items ← lift (py_iter ks);
  found ← for_until items (fun key =>
    t ← lift (getitem key "title");
    if py_eq_str t PRIV_KEY then ret (Some (PBool true)) else ret None);
  match found with
  | Some v => ret v
  | None => ret PNone
  end.

Definition gin_delete_key (token : pyval) : M pyval :=
  ks ← gin_get_keys token;
  items ← lift (py_iter ks);
  found ← for_until items (fun key =>
    t ← lift (getitem key "title");
    if py_eq_str t PRIV_KEY
    then
      u ← lift (getitem key "url");
      response ← requests (key_delete token u);
      if status_code response =? 204
      then log "warning" (Text "Deleted keys from server.");; ret (Some (PBool true))
      else
        log "error" (Body (body_of response));;
        raise (ServerError (inl "You'll have to manually delete the keys from the server.")
                           (Some SERVICE_UNAVAILABLE))
    else ret None);
  match found with
  | Some v => ret v
  | None => ret PNone
  end.

Definition proc_ensure_key (p : path) : M bool :=
  os_path_exists (os_path_join p PRIV_KEY).

Definition install_key (ssh_path : path) (token : pyval) : M unit :=
  key ← rsa_generate_private_key 65537 2048;
  let private_key :=
    private_bytes key Encoding.PEM PrivateFormat.PKCS8 NoEncryption in
  let public_key := public_bytes key Encoding.OpenSSH PublicFormat.OpenSSH in
  os_makedirs ssh_path;;
  write_text (os_path_join ssh_path PRIV_KEY) private_key;;
  write_text (os_path_join ssh_path PUB_KEY) public_key;;
  os_chmod ssh_path o700;;
  os_chmod (os_path_join ssh_path PRIV_KEY) o600;;
  os_chmod (os_path_join ssh_path PUB_KEY) o600;;
  requests (key_post token public_key);;
  log "info" (Text ("Fresh key pair installed with pub key " ++ PUB_KEY)).

(** [a and b] on conditions: [b] is evaluated only when [a] holds. *)
Definition and_then (a b : M bool) : M bool :=
  x ← a;
  if x then b else ret false.

Definition holds (c : M pyval) : M bool := v ← c; ret (truthy v).

Definition not_ (c : M bool) : M bool := b ← c; ret (negb b).

(** The first condition of [ensure_key]: a key titled gin-proc is on the
    git host and the private key file is on this machine. *)
Definition keys_in_place (token : pyval) : M bool :=
  and_then (holds (gin_ensure_key token)) (proc_ensure_key SSH_PATH).

Definition ensure_key (token : pyval) : M pyval :=
  try_except
    (both ← keys_in_place token;
     if both
     then
       log "debug" (Text "Keys ensured both on server and locally.");;
       ret (PBool true)
     else
       (only_server ← and_then (holds (gin_ensure_key token))
                                (not_ (proc_ensure_key SSH_PATH));
        if only_server
        then
          log "debug" (Text "Key is installed on the server but not locally.");;
          gin_delete_key token;;
          ret tt
        else
          only_local ← and_then (not_ (holds (gin_ensure_key token)))
                                (proc_ensure_key SSH_PATH);
          if only_local
          then
            log "debug" (Text "Key is installed locally but not on the server.");;
            os_remove (os_path_join SSH_PATH PRIV_KEY);;
            os_remove (os_path_join SSH_PATH PUB_KEY);;
            log "warning" (Text "Removed local keys.")
          else ret tt);;
       install_key SSH_PATH token;;
       ret PNone)
    (fun _ => true)
    (fun _ =>
       log "critical" (Text "Failed to ensure keys.");;
       raise (ServerError (inl "Cannot ensure keys.") (Some INTERNAL_SERVER_ERROR))).

Definition gin_get_repo_data (user repo token : pyval) : M pyval :=
  r ← requests (repo_request user repo token);
  json_of r.

Definition gin_clone (repo author : pyval) (p : path) : M path :=
  name ← lift (getitem repo "name");
  a ← lift (as_str author);
  n ← lift (as_str name);
  let clone_path := os_path_join (os_path_join p a) n in
  os_makedirs clone_path;;
  u ← lift (getitem repo "clone_url");
  u ← lift (as_str u);
  call ["git"; "clone"; "--depth=1"; u; path_str clone_path] None;;
  log "debug" (Text ("Repo cloned at " ++ path_str clone_path));;
  ret clone_path.

Definition push (p : path) (commit_message : pyval) : M pyval :=
  call ["git"; "add"; "."] (Some p);;
  m ← lift (as_str commit_message);
  call ["git"; "commit"; "-m"; m] (Some p);;
  call ["git"; "push"] (Some p);;
  log "info" (Text ("Updates pushed from " ++ path_str p));;
  ret PNone.

Definition clean (p : path) : M unit :=
  rmtree p;;
  log "debug" (Text ("Repo cleaned from " ++ path_str p)).

(** Modelled from the spec: [config.create_drone_file] is not among the
    sources.  It takes the path of the clone and the fields of the
    request and writes exactly one file there, the same for the same
    arguments. *)
Definition create_drone_file (config_path : path)
    (workflow user_commands input_files output_files notifications : pyval) : M unit :=
  write_text (os_path_join config_path drone_file_name)
    (drone_file_text workflow user_commands input_files output_files notifications).

(** The value [configure] gives to GIT_SSH_COMMAND. *)
Definition GIT_SSH_COMMAND : string :=
  "ssh -i " ++ path_str (os_path_join SSH_PATH PRIV_KEY).

Definition configure (repo_name user_commands output_files input_files commit_message
    notifications token username workflow : pyval) : M unit :=
  repo ← try_except (gin_get_repo_data username repo_name token)
           (fun _ => true)
           (fun e => log "error" (Exc e);; raise (ServiceError e));
  let keypath := os_path_join SSH_PATH PRIV_KEY in
  environ_set "GIT_SSH_COMMAND" GIT_SSH_COMMAND;;
  with_TemporaryDirectory (fun temp_clone_path =>
    clone_path ← gin_clone repo username temp_clone_path;
    create_drone_file clone_path workflow user_commands input_files output_files
      notifications;;
    push clone_path commit_message;;
    clean clone_path);;
  drone_enable_repo repo;;
  key ← open_r keypath;
  drone_write_secret (fst (file_read key)) repo;;
  ret tt.

End Service.

(** * server.py *)

Section Server.
Context {P : Platform}.

(** What a view function returns: a body and a status. *)
Inductive view_body : Type :=
| Shown (v : pyval)
| ShownError (e : exn).

Definition set_username (v : pyval) : M unit :=
  fun w => (Return tt, with_user {| username := v; gin_token := gin_token (user w) |} w).

Definition set_gin_token (v : pyval) : M unit :=
  fun w => (Return tt, with_user {| username := username (user w); gin_token := v |} w).

Definition get_user : M User := fun w => (Return (user w), w).

(** [User.login], on the decoded body of the request. *)
Definition User_login (request_json : pyval) : M (view_body * Z) :=
  u ← lift (getitem request_json "username");
  set_username u;;
  password ← lift (getitem request_json "password");
  failed ← try_except
             (me ← get_user;
              t ← gin_ensure_token (username me) password;
              set_gin_token t;;
              log "debug" (Text "GIN token ensured.");;
              ret None)
             is_ServerError
             (fun e => log "critical" (Exc e);;
                       ret (Some (ShownError e, INTERNAL_SERVER_ERROR)));
  match failed with
  | Some r => ret r
  | None =>
      me ← get_user;
      good ← and_then (holds (ensure_key (gin_token me)))
                      (holds (drone_ensure_secrets (username me)));
      if good
      then ret (Shown (PDict [("token", gin_token me)]), OK)
      else ret (Shown (PStr "login failed"), UNAUTHORIZED)
  end.

(** [User.logout] *)
Definition User_logout : M (view_body * Z) :=
  set_username PNone;;
  set_gin_token PNone;;
  ret (Shown (PStr "logged out"), OK).

(** The view of POST /auth/login: [abort] raises the HTTP error. *)
Definition login (request_json : pyval) : M (view_body * Z) :=
  try_except (User_login request_json)
    is_ServerError
    (fun e => raise (HTTPException (status_of e))).

End Server.

(** * Words for the statements *)

(** [preserves f c]: the observation [f] of the world is the same after
    [c] as before it, whether [c] returns or raises. *)
Definition preserves {A T} (f : World -> T) (c : M A) : Prop :=
  forall w, f (snd (c w)) = f w.


(** The secrets of repository [s] on the CI host. *)
Definition secrets_at (s : string) (w : World) : option (list secret_entry) :=
  secrets (drone w) !! s.

(** The text of the keys titled gin-proc on the git host. *)
Definition remote_keys (w : World) : list string :=
  List.map key_text (List.filter (fun k => String.eqb (key_title k) "gin-proc") (keys (gin w))).

(** The key that [install_key] draws in world [w]. *)
Definition fresh_key (w : World) : rsa_key :=
  {| public_exponent := 65537; key_size := 2048; material := entropy w |}.

(** The world in which [User.login] calls [ensure_key]: the token is in
    the session and the log says so. *)
Definition token_ensured (t : pyval) (w : World) : World :=
  with_logged (logged w ++ [("debug", Text "GIN token ensured.")])%list
    (with_user {| username := username (user w); gin_token := t |} w).

Definition is_gin_proc (t : token_entry) : bool := String.eqb (tok_name t) "gin-proc".

(** The token the git host registers for [username] with value [s]. *)
Definition new_token (username : pyval) (s : string) : token_entry :=
  {| tok_owner := py_str username; tok_name := "gin-proc"; tok_sha1 := s |}.

(** The world once the reference git host has answered [req] and is
    left in state [g]. *)
Definition answered (req : request) (g : Gin) (w : World) : World :=
  with_hosts g (drone w) (with_script [] (with_sent (sent w ++ [req])%list w)).

(** The exception of [drone_write_secret] for a repository. *)
Definition not_installed (repo : pyval) : exn :=
  ServerError (inl ("Secret could not be installed in `" ++ py_str repo ++ "`"))
              (Some INTERNAL_SERVER_ERROR).


Section Steps.
Context {P : Platform}.

(** What [configure] does once it holds the repository's metadata and
    has set the environment. *)
Definition steps_3_to_8 (user_commands output_files input_files commit_message
    notifications username workflow repo : pyval) : M unit :=
  with_TemporaryDirectory (fun temp_clone_path =>
    clone_path ← gin_clone repo username temp_clone_path;
    create_drone_file clone_path workflow user_commands input_files output_files
      notifications;;
    push clone_path commit_message;;
    clean clone_path);;
  drone_enable_repo repo;;
  key ← open_r (os_path_join SSH_PATH PRIV_KEY);
  drone_write_secret (fst (file_read key)) repo;;
  ret tt.

End Steps.

(** * A concrete installation, for running the service *)

Module Demo.

(** The addresses are those given at the head of service.py. *)
Definition demo : Platform := {|
  GIN_ADDR := "http://172.19.0.2:3000";
  DRONE_ADDR := "http://172.19.0.3";
  HOME := "/home/proc";
  private_bytes := fun k _ _ _ => "PRIVATE KEY " ++ pretty (material k);
  public_bytes := fun k _ _ => "ssh-rsa " ++ pretty (material k);
  drone_file_name := ".drone.yml";
  drone_file_text := fun _ _ _ _ _ => "kind: pipeline"
|}.
#[local] Existing Instance demo.

Definition alice_token : token_entry :=
  {| tok_owner := "alice"; tok_name := "gin-proc"; tok_sha1 := "5ha1" |}.

Definition old_key : key_entry :=
  {| key_owner := "alice"; key_title := "gin-proc"; key_text := "ssh-rsa 0";
     key_url := "http://172.19.0.2:3000/api/v1/user/keys/1" |}.

Definition proj : pyval :=
  PDict [("name", PStr "proj"); ("full_name", PStr "alice/proj");
         ("clone_url", PStr "http://172.19.0.2:3000/alice/proj.git")].

Definition git_host (ts : list token_entry) (ks : list key_entry) : Gin :=
  {| accounts := [("alice", "secret")]; tokens := ts; keys := ks;
     repositories := [proj]; fresh := ["f1"; "f2"; "f3"] |}.

(** A repository as the CI host lists it. *)
Definition ci_repo (slug name : string) (active : bool) : pyval :=
  PDict [("active", PBool active); ("slug", PStr slug); ("name", PStr name);
         ("full_name", PStr slug)].

Definition the_secret (data : string) : secret_entry :=
  {| sec_name := "DRONE_PRIVATE_SSH_KEY"; sec_data := data |}.

Definition ci_host (repos : list pyval) (store : gmap string (list secret_entry))
    (pol : duplicate_policy) : Drone :=
  {| drone_token := "dr0ne"; drone_repos := repos; secrets := store;
     activated := []; on_duplicate := pol |}.

Definition key_files : gmap path node :=
  {[ [HOME] := Dir o700;
     [HOME; "gin-proc"] := Dir o700;
     SSH_PATH := Dir o700;
     os_path_join SSH_PATH PRIV_KEY := File "PRIVATE KEY 0" o600;
     os_path_join SSH_PATH PUB_KEY := File "ssh-rsa 0" o600 ]}.

Definition world (g : Gin) (d : Drone) (files : gmap path node) : World :=
  {| gin := g; drone := d; script := []; sent := [];
     fs := <[ ["/tmp"] := Dir 1023 ]> files; umask := 18;
     environ := {[ "DRONE_TOKEN" := "dr0ne" ]};
     tmp_names := [["/tmp"; "tmpk3x9"]; ["/tmp"; "tmpq7wz"]];
     entropy := 41%N;
     procs := []; spawned := []; logged := [];
     user := {| username := PNone; gin_token := PNone |} |}.

(** One active repository that holds the secret already. *)
Definition has_secret_already (pol : duplicate_policy) : World :=
  world (git_host [alice_token] [old_key])
        (ci_host [ci_repo "alice/proj" "proj" true]
                 {[ "alice/proj" := [the_secret "PRIVATE KEY old"] ]} pol)
        key_files.

(** The four states of the key pair: on this machine, on the git host. *)
Definition key_state (locally remotely : bool) : World :=
  world (git_host [alice_token] (if remotely then [old_key] else []))
        (ci_host [] ∅ Refuse)
        (if locally then key_files else ∅).

(** A first login: no token, no key, one active repository without the
    secret. *)
Definition first_login : World :=
  world (git_host [] [])
        (ci_host [ci_repo "alice/proj" "proj" true] {[ "alice/proj" := [] ]} Refuse)
        ∅.

Definition credentials : pyval :=
  PDict [("username", PStr "alice"); ("password", PStr "secret")].

(** Ready for a workflow: token and keys in place, the clone leaves one
    file and the three git commands of [push] exit with 0, 1 and 128. *)
Definition ready : World :=
  with_procs [Exited 0 [([ "/tmp"; "tmpk3x9"; "alice"; "proj"; "README" ], File "read me" 420)];
              Exited 0 []; Exited 1 []; Exited 128 []]
    (world (git_host [alice_token] [old_key])
           (ci_host [] {[ "alice/proj" := [] ]} Refuse)
           key_files).

Definition workflow (repo_name : string) : M unit :=
  configure (PStr repo_name) (PList []) (PList []) (PList []) (PStr "add workflow")
    (PList []) (PStr "5ha1") (PStr "alice") (PStr "wf1").


(** The public key file on this machine. *)
Definition local_public_key (w : World) : option node :=
  fs w !! ["/home/proc"; "gin-proc"; "ssh"; "gin-proc.pub"].

End Demo.

(** * More words for the statements *)

(** The one exception [ensure_key] lets out. *)
Definition cannot_ensure_keys : exn :=
  ServerError (inl "Cannot ensure keys.") (Some INTERNAL_SERVER_ERROR).

(** What [gin_ensure_token] makes of a lost connection. *)
Definition unreachable : exn := ServerError (inr ConnectionError) None.

(** The session as [User.login] sets it before it asks for the token. *)
Definition named (u : pyval) (w : World) : World :=
  with_user {| username := u; gin_token := gin_token (user w) |} w.

(** A repository that [drone_ensure_secrets] passes over. *)
Definition inactive (repo : pyval) : Prop :=
  exists a, getitem repo "active" = Return a /\ truthy a = false.

(** The world once the reference hosts have answered [req] and are left
    in states [g] and [d]. *)
Definition served (req : request) (g : Gin) (d : Drone) (w : World) : World :=
  with_hosts g d (with_script [] (with_sent (sent w ++ [req])%list w)).




(** A key titled gin-proc is among [l]. *)
Definition has_title (l : list key_entry) : bool :=
  existsb (fun k => String.eqb (key_title k) "gin-proc") l.

Section More_words.
Context {P : Platform}.


(** The user the git host takes a token for. *)
Definition token_owner (g : Gin) (token : pyval) : option string :=
  token_user g (keys_get token).

(** The key the git host stores for [o] when [public_key] is posted and
    [i] is the next fresh identifier. *)
Definition stored_key (o public_key i : string) : key_entry :=
  {| key_owner := o; key_title := PRIV_KEY; key_text := public_key;
     key_url := GIN_ADDR ++ "/api/v1/user/keys/" ++ i |}.

(** The public key text of the pair that [install_key] draws in [w]. *)
Definition fresh_public_key (w : World) : string :=
  public_bytes (fresh_key w) Encoding.OpenSSH PublicFormat.OpenSSH.

End More_words.

(** * The rest of service.py and server.py *)

(** [[body x for x in xs]] *)
Fixpoint for_list {A B} (xs : list A) (body : A -> M B) : M (list B) :=
  match xs with
  | [] => ret []
  | x :: rest =>
      b ← body x;
      bs ← for_list rest body;
      ret (b :: bs)
  end.

Section Service_queries.
Context {P : Platform}.

Definition user_request (token : pyval) : request :=
  {| method := GET; url := [GIN_ADDR; "/api/v1/user"];
     headers := token_header token; auth := None; body := NoBody |}.

Definition user_repos_request (user token : pyval) : request :=
  {| method := GET; url := [GIN_ADDR; "/api/v1/users/"; py_str user; "/repos"];
     headers := token_header token; auth := None; body := NoBody |}.

(** Returns the reply itself, not its JSON. *)
Definition gin_get_user_data (token : pyval) : M response :=
  requests (user_request token).

Definition gin_get_repos (user token : pyval) : M pyval :=
  r ← requests (user_repos_request user token);
  json_of r.

End Service_queries.

(** [res.ok]: the status is no client error and no server error. *)
Definition ok (res : response) : bool :=
  negb ((400 <=? status_code res) && (status_code res <? 600)).

(** What GET /auth/user returns: the decoded JSON of the git host's
    reply, or the body and the status of that reply as they came. *)
Inductive user_view : Type :=
| Decoded (v : pyval)
| As_received (text : content) (status : Z).

Section Views.
Context {P : Platform}.

(** [dict.values()]; on a value that is not a dict the attribute is
    missing.  AttributeError is not among the exceptions the rest of the
    code meets and is a parameter here; the handlers of [User.run] and of
    [execute_workflow] are for other classes. *)
Variable AttributeError : exn.

Definition values (v : pyval) : outcome (list pyval) :=
  match v with
  | PDict d => Return (List.map snd d)
  | _ => Raise AttributeError
  end.

(** [list(filter(None, list(v.values())))] *)
Definition filled (v : pyval) : outcome pyval :=
  match values v with
  | Return l => Return (PList (List.filter truthy l))
  | Raise e => Raise e
  end.

(** [User.details] *)
Definition User_details : M response :=
  me ← get_user;
  gin_get_user_data (gin_token me).

(** [User.run], on the decoded body of the request. *)
Definition User_run (request_json : pyval) : M (view_body * Z) :=
  try_except
    (repo_name ← lift (getitem request_json "repo");
     notifications ← lift (getitem request_json "notifications");
     commit_message ← lift (getitem request_json "commitMessage");
     inputs ← lift (getitem request_json "userInputs");
     user_commands ← lift (filled inputs);
     workflow ← lift (getitem request_json "workflow");
     annex ← lift (getitem request_json "annexFiles");
     input_files ← lift (filled annex);
     backpush ← lift (getitem request_json "backpushFiles");
     output_files ← lift (filled backpush);
     me ← get_user;
     configure repo_name user_commands output_files input_files commit_message
       notifications (gin_token me) (username me) workflow;;
     repo ← lift (getitem request_json "repo");
     ret (Shown (PStr ("Success: workflow pushed to " ++ py_str repo)), OK))
    is_ServiceError
    (fun e => ret (ShownError e, INTERNAL_SERVER_ERROR)).

(** One entry of the list of [User.repos]. *)
Definition repo_entry (repo : pyval) : M pyval :=
  value ← lift (getitem repo "name");
  me ← get_user;
  u ← lift (as_str (username me));
  name ← lift (getitem repo "name");
  n ← lift (as_str name);
  ret (PDict [("value", value); ("text", PStr (u ++ "/" ++ n))]).

(** [User.repos] *)
Definition User_repos : M (view_body * Z) :=
  me ← get_user;
  repos ← gin_get_repos (username me) (gin_token me);
  items ← lift (py_iter repos);
  l ← for_list items repo_entry;
  ret (Shown (PList l), OK).

End Views.

(** The views of the blueprint auth, besides [login]. *)
Module Auth.
Section Views.
Context {P : Platform}.

(** POST /auth/logout *)
Definition logout : M (view_body * Z) := User_logout.

(** GET /auth/user *)
Definition get_user : M user_view :=
  res ← User_details;
  if ok res
  then (j ← json_of res; ret (Decoded j))
  else ret (As_received (body_of res) (status_code res)).

End Views.
End Auth.

(** The views of the blueprint api. *)
Module Api.
Section Views.
Context {P : Platform}.
Variable AttributeError : exn.

(** POST /api/execute *)
Definition execute_workflow (request_json : pyval) : M (view_body * Z) :=
  try_except (User_run AttributeError request_json)
    is_ServerError
    (fun e => raise (HTTPException (status_of e))).

(** GET /api/repos *)
Definition repositories : M (view_body * Z) := User_repos.

End Views.
End Api.

(** * Words for the statements on the views *)

(** The repository has the name [n]. *)
Definition has_name (repo : pyval) (n : string) : Prop :=
  getitem repo "name" = Return (PStr n).

(** The entry of GET /api/repos for the repository [n] of user [u]. *)
Definition listed (u n : string) : pyval :=
  PDict [("value", PStr n); ("text", PStr (u ++ "/" ++ n))].

(** The world once the connection was lost on [req]. *)
Definition lost (req : request) (rest : list (option reply)) (w : World) : World :=
  with_script rest (with_sent (sent w ++ [req])%list w).

(** The fields of the body of POST /api/execute. *)
Definition asks_for (request_json repo notifications commit_message workflow : pyval)
    (inputs annex backpush : list (string * pyval)) : Prop :=
  getitem request_json "repo" = Return repo /\
  getitem request_json "notifications" = Return notifications /\
  getitem request_json "commitMessage" = Return commit_message /\
  getitem request_json "userInputs" = Return (PDict inputs) /\
  getitem request_json "workflow" = Return workflow /\
  getitem request_json "annexFiles" = Return (PDict annex) /\
  getitem request_json "backpushFiles" = Return (PDict backpush).

(** The programs [configure] starts for a clone of [u] at [p] and the
    commit message [m], with their working directories. *)
Definition git_commands (u : string) (p : path) (m : string)
    : list (list string * option path) :=
  [(["git"; "clone"; "--depth=1"; u; path_str p], None);
   (["git"; "add"; "."], Some p);
   (["git"; "commit"; "-m"; m], Some p);
   (["git"; "push"], Some p)].

Section More_steps.
Context {P : Platform}.

(** Steps 3 to 7 of [configure]: the clone, the file, the push and the
    cleaning, in a temporary directory. *)
Definition clone_and_push (user_commands output_files input_files commit_message
    notifications username workflow repo : pyval) : M unit :=
  with_TemporaryDirectory (fun temp_clone_path =>
    clone_path ← gin_clone repo username temp_clone_path;
    create_drone_file clone_path workflow user_commands input_files output_files
      notifications;;
    push clone_path commit_message;;
    clean clone_path).

(** The world in which [configure] goes on after step 2. *)
Definition git_set_up (w : World) : World :=
  with_environ (<["GIT_SSH_COMMAND" := GIT_SSH_COMMAND]> (environ w)) w.

End More_steps.

(** A key of the git host's listing whose title is not gin-proc. *)
Definition other_title (key : pyval) : Prop :=
  exists t, getitem key "title" = Return t /\ py_eq_str t PRIV_KEY = false.

(** What [gin_delete_key] raises when the git host does not delete. *)
Definition delete_by_hand : exn :=
  ServerError (inl "You'll have to manually delete the keys from the server.")
              (Some SERVICE_UNAVAILABLE).

(** A computation on this machine runs the same whatever the script of
    replies is, and leaves the script alone. *)
Definition script_blind {A} (c : M A) : Prop :=
  forall s w, c (with_script s w) = (fst (c w), with_script s (snd (c w))).

(** The worlds differ in the script at most. *)
Definition same_but_script (w1 w2 : World) : Prop := with_script [] w1 = with_script [] w2.

(** [c] runs alike under the scripts [s1] and [s2]. *)
Definition indifferent {A} (s1 s2 : list (option reply)) (c : M A) : Prop :=
  forall w,
    fst (c (with_script s1 w)) = fst (c (with_script s2 w)) /\
    same_but_script (snd (c (with_script s1 w))) (snd (c (with_script s2 w))).

(** The keys of [o] among [l]. *)
Definition keys_of (o : string) (l : list key_entry) : list key_entry :=
  List.filter (fun k => String.eqb (key_owner k) o) l.

(** Among the keys [a ++ k :: b] of the git host, [k] is the one key of
    [o] that is titled gin-proc, and no key before it has its URL. *)
Definition the_one_key (o : string) (a : list key_entry) (k : key_entry)
    (b : list key_entry) : Prop :=
  key_owner k = o /\ key_title k = PRIV_KEY /\
  has_title (keys_of o a) = false /\ has_title (keys_of o b) = false /\
  Forall (fun k' => key_url k' <> key_url k) a.

(** * More states of the installation of [Demo] *)

Module Cases.
Import Demo.
#[local] Existing Instance demo.

(** The session of alice once she has logged in. *)
Definition logged_in (w : World) : World :=
  with_user {| username := PStr "alice"; gin_token := PStr "5ha1" |} w.

(** The next replies are forced: [None] leaves a request to the hosts. *)
Definition scripted (s : list (option reply)) (w : World) : World := with_script s w.

Definition wrong_password : pyval :=
  PDict [("username", PStr "alice"); ("password", PStr "guess")].

(** The only repository on the CI host is not active. *)
Definition nothing_active : World :=
  world (git_host [alice_token] [old_key])
        (ci_host [ci_repo "alice/proj" "proj" false] {[ "alice/proj" := [] ]} Refuse)
        key_files.


(** The private key file is there and the public one is not; the git
    host has no key. *)
Definition half_a_pair : World :=
  world (git_host [alice_token] [])
        (ci_host [] ∅ Refuse)
        (delete (os_path_join SSH_PATH PUB_KEY) key_files).

(** A key of alice with another title. *)
Definition laptop_key : key_entry :=
  {| key_owner := "alice"; key_title := "laptop"; key_text := "ssh-rsa 7";
     key_url := "http://172.19.0.2:3000/api/v1/user/keys/7" |}.

Definition other_keys : World :=
  world (git_host [alice_token] [laptop_key]) (ci_host [] ∅ Refuse) ∅.

Definition both_keys : World :=
  world (git_host [alice_token] [laptop_key; old_key]) (ci_host [] ∅ Refuse) ∅.

(** The body of a POST /api/execute. *)
Definition execute_request (repo : string) : pyval :=
  PDict [("repo", PStr repo); ("notifications", PList []);
         ("commitMessage", PStr "add workflow");
         ("userInputs", PDict [("0", PStr "make"); ("1", PStr "")]);
         ("workflow", PStr "wf1");
         ("annexFiles", PDict []);
         ("backpushFiles", PDict [("0", PStr "out.txt")])].



End Cases.

(** * Properties *)

(** ** What a computation leaves alone *)

Lemma preserves_ret {A T} (f : World -> T) (a : A) : preserves f (ret a).
Proof. intros w. reflexivity. Qed.

Lemma preserves_raise {A T} (f : World -> T) (e : exn) : preserves f (@raise A e).
Proof. intros w. reflexivity. Qed.

Lemma preserves_lift {A T} (f : World -> T) (r : outcome A) : preserves f (lift r).
Proof. intros w. reflexivity. Qed.

Lemma preserves_bind {A B T} (f : World -> T) (c : M A) (k : A -> M B) :
  preserves f c -> (forall a, preserves f (k a)) -> preserves f (bind c k).
Proof.
  intros Hc Hk w. unfold bind. specialize (Hc w).
  destruct (c w) as [[a|e] w']; simpl in *.
  - rewrite Hk. exact Hc.
  - exact Hc.
Qed.

Lemma preserves_try_except {A T} (f : World -> T) (c : M A) caught (h : exn -> M A) :
  preserves f c -> (forall e, preserves f (h e)) -> preserves f (try_except c caught h).
Proof.
  intros Hc Hh w. unfold try_except. specialize (Hc w).
  destruct (c w) as [[a|e] w']; simpl in *; [exact Hc|].
  destruct (caught e); simpl; [rewrite Hh|]; exact Hc.
Qed.

Lemma preserves_for_each {A T} (f : World -> T) (xs : list A) (body : A -> M unit) :
  (forall x, preserves f (body x)) -> preserves f (for_each xs body).
Proof.
  intros Hb. induction xs as [|x xs IH]; simpl.
  - apply preserves_ret.
  - apply preserves_bind; [apply Hb | intros _; exact IH].
Qed.

Lemma preserves_for_until {A B T} (f : World -> T) (xs : list A)
    (body : A -> M (option B)) :
  (forall x, preserves f (body x)) -> preserves f (for_until xs body).
Proof.
  intros Hb. induction xs as [|x xs IH]; simpl.
  - apply preserves_ret.
  - apply preserves_bind; [apply Hb | intros [b|]; [apply preserves_ret | exact IH]].
Qed.

Lemma preserves_for_break {A S T} (f : World -> T) (xs : list A) (s : S)
    (body : A -> S -> M (bool * S)) :
  (forall x s, preserves f (body x s)) -> preserves f (for_break xs s body).
Proof.
  intros Hb. revert s. induction xs as [|x xs IH]; intros s; simpl.
  - apply preserves_ret.
  - apply preserves_bind; [apply Hb |].
    intros [[|] s']; simpl; [apply preserves_ret | apply IH].
Qed.

Lemma preserves_json_of {T} (f : World -> T) (r : response) : preserves f (json_of r).
Proof. intros w. unfold json_of. destruct (body_of r); reflexivity. Qed.

Lemma preserves_and_then {T} (f : World -> T) (a b : M bool) :
  preserves f a -> preserves f b -> preserves f (and_then a b).
Proof.
  intros Ha Hb. unfold and_then. apply preserves_bind; [exact Ha|].
  intros [|]; [exact Hb | apply preserves_ret].
Qed.

(** Steps that take one field of the world to another value leave every
    other field alone: this is by computation once the step is unfolded. *)
Ltac step_by_cases :=
  let w := fresh "w" in
  intros w;
  repeat match goal with
         | |- context [match ?x with _ => _ end] => destruct x; simpl
         end;
  reflexivity.

Section Frames.
Context {P : Platform}.

Lemma exchange_local (req : request) (w : World) :
  let w' := snd (exchange req w) in
  fs w' = fs w /\ environ w' = environ w /\ tmp_names w' = tmp_names w /\
  procs w' = procs w /\ spawned w' = spawned w /\ logged w' = logged w /\
  user w' = user w /\ entropy w' = entropy w /\ umask w' = umask w /\ sent w' = sent w.
Proof.
  unfold exchange.
  destruct (script w) as [|[r|] rest]; simpl;
    try destruct (answer req (gin w) (drone w)) as [[r' g] d]; simpl; repeat split.
Qed.

Lemma requests_local (req : request) (w : World) :
  let w' := snd (requests req w) in
  fs w' = fs w /\ environ w' = environ w /\ tmp_names w' = tmp_names w /\
  procs w' = procs w /\ spawned w' = spawned w /\ logged w' = logged w /\
  user w' = user w /\ entropy w' = entropy w /\ umask w' = umask w /\
  sent w' = (sent w ++ [req])%list.
Proof.
  unfold requests.
  pose proof (exchange_local req (with_sent (sent w ++ [req])%list w)) as H.
  destruct (exchange req (with_sent (sent w ++ [req])%list w)) as [[|r] w']; exact H.
Qed.

Lemma requests_fs req : preserves fs (requests req).
Proof. intros w. apply (requests_local req w). Qed.

Lemma requests_environ req : preserves environ (requests req).
Proof. intros w. apply (requests_local req w). Qed.

Lemma requests_tmp_names req : preserves tmp_names (requests req).
Proof. intros w. apply (requests_local req w). Qed.

Lemma requests_spawned req : preserves spawned (requests req).
Proof. intros w. apply (requests_local req w). Qed.

End Frames.

(** ** Step 1 of [configure] *)

Section Configure_step1.
Context {P : Platform}.


Lemma gin_get_repo_data_world (user repo token : pyval) (w : World) :
  snd (gin_get_repo_data user repo token w) = snd (requests (repo_request user repo token) w).
Proof.
  unfold gin_get_repo_data, bind. fold (repo_request user repo token).
  destruct (requests (repo_request user repo token) w) as [[r|e] w']; [|reflexivity].
  unfold json_of. destruct (body_of r); reflexivity.
Qed.


End Configure_step1.


(** ** Frames of the service's functions *)

Ltac primitive_step :=
  unfold preserves, log, environ_get, environ_set, os_path_exists, open_r, write_text,
    os_makedirs, os_chmod, os_remove, rmtree, mkdtemp, call, rsa_generate_private_key,
    new_mode;
  step_by_cases.

Ltac frame :=
  lazymatch goal with
  | |- preserves _ (bind _ _) => apply preserves_bind; [frame | intros ?; frame]
  | |- preserves _ (ret _) => apply preserves_ret
  | |- preserves _ (raise _) => apply preserves_raise
  | |- preserves _ (lift _) => apply preserves_lift
  | |- preserves _ (json_of _) => apply preserves_json_of
  | |- preserves _ (try_except _ _ _) =>
      apply preserves_try_except; [frame | intros ?; frame]
  | |- preserves _ (and_then _ _) => apply preserves_and_then; frame
  | |- preserves _ (for_each _ _) => apply preserves_for_each; intros ?; frame
  | |- preserves _ (for_until _ _) => apply preserves_for_until; intros ?; frame
  | |- preserves _ (for_break _ _ _) => apply preserves_for_break; intros ? ?; frame
  | |- preserves _ (if ?b then _ else _) => destruct b; frame
  | |- preserves _ (match ?x with _ => _ end) => destruct x; frame
  | |- preserves fs (requests _) => apply requests_fs
  | |- preserves environ (requests _) => apply requests_environ
  | |- preserves tmp_names (requests _) => apply requests_tmp_names
  | |- preserves spawned (requests _) => apply requests_spawned
  | |- _ => first [ solve [auto with frames] | solve [primitive_step] ]
  end.

Create HintDb frames.

Section Service_frames.
Context {P : Platform}.

Lemma drone_update_secret_fs s d r : preserves fs (drone_update_secret s d r).
Proof. unfold drone_update_secret. frame. Qed.

Lemma drone_write_secret_fs k r : preserves fs (drone_write_secret k r).
Proof. unfold drone_write_secret. frame. Qed.

Lemma drone_enable_repo_fs r : preserves fs (drone_enable_repo r).
Proof. unfold drone_enable_repo. frame. Qed.

Lemma drone_write_secret_environ k r : preserves environ (drone_write_secret k r).
Proof. unfold drone_write_secret. frame. Qed.

Lemma drone_enable_repo_environ r : preserves environ (drone_enable_repo r).
Proof. unfold drone_enable_repo. frame. Qed.

Lemma gin_clone_environ r a p : preserves environ (gin_clone r a p).
Proof. unfold gin_clone. frame. Qed.

Lemma create_drone_file_environ p a b c d e :
  preserves environ (create_drone_file p a b c d e).
Proof. unfold create_drone_file. frame. Qed.

Lemma push_environ p m : preserves environ (push p m).
Proof. unfold push. frame. Qed.

Lemma clean_environ p : preserves environ (clean p).
Proof. unfold clean. frame. Qed.

Lemma with_TemporaryDirectory_environ {A} (body : path -> M A) :
  (forall t, preserves environ (body t)) -> preserves environ (with_TemporaryDirectory body).
Proof.
  intros Hb. unfold with_TemporaryDirectory. apply preserves_bind; [frame|].
  intros t w. specialize (Hb t w). destruct (body t w) as [r w']. exact Hb.
Qed.

Lemma gin_get_repo_data_fs u r t : preserves fs (gin_get_repo_data u r t).
Proof. unfold gin_get_repo_data. frame. Qed.

Lemma gin_get_repo_data_tmp_names u r t : preserves tmp_names (gin_get_repo_data u r t).
Proof. unfold gin_get_repo_data. frame. Qed.

Lemma gin_get_repo_data_environ u r t : preserves environ (gin_get_repo_data u r t).
Proof. unfold gin_get_repo_data. frame. Qed.

End Service_frames.

#[export] Hint Resolve drone_update_secret_fs drone_write_secret_fs drone_enable_repo_fs
  drone_write_secret_environ drone_enable_repo_environ gin_clone_environ
  create_drone_file_environ push_environ clean_environ gin_get_repo_data_fs
  gin_get_repo_data_tmp_names gin_get_repo_data_environ : frames.

(** ** Steps 2 to 8 of [configure] *)

Lemma under_refl (t : path) : under t t = true.
Proof. induction t as [|a t IH]; simpl; [reflexivity|]. rewrite String.eqb_refl. exact IH. Qed.

Lemma without_tree_gone (t p : path) (f : gmap path node) :
  under t p = true -> without_tree t f !! p = None.
Proof.
  intros Hp. unfold without_tree. apply map_lookup_filter_None. right.
  intros x _. simpl. rewrite Hp. discriminate.
Qed.

Lemma with_TemporaryDirectory_gone {A} (body : path -> M A) (w : World) t rest p :
  pick_free (tmp_names w) (fs w) = Some (t, rest) ->
  under t p = true ->
  fs (snd (with_TemporaryDirectory body w)) !! p = None.
Proof.
  intros Hpick Hp. unfold with_TemporaryDirectory, bind, mkdtemp. rewrite Hpick.
  destruct (body t _) as [r w']. simpl. apply without_tree_gone, Hp.
Qed.

Lemma bind_then_preserved {A B T} (f : World -> T) (c : M A) (k : A -> M B) (w : World) :
  (forall a, preserves f (k a)) -> f (snd (bind c k w)) = f (snd (c w)).
Proof.
  intros Hk. unfold bind. destruct (c w) as [[a|e] w']; simpl; [apply Hk | reflexivity].
Qed.

Section Configure_pipeline.
Context {P : Platform}.
Variables repo_name user_commands output_files input_files commit_message notifications
  token username workflow : pyval.

Local Abbreviation steps repo :=
  (steps_3_to_8 user_commands output_files input_files commit_message notifications
     username workflow repo).

Lemma configure_after_step1 (w w1 : World) (repo : pyval) :
  gin_get_repo_data username repo_name token w = (Return repo, w1) ->
  configure repo_name user_commands output_files input_files commit_message notifications
    token username workflow w
  = steps repo (with_environ (<["GIT_SSH_COMMAND" := GIT_SSH_COMMAND]> (environ w1)) w1).
Proof.
  intros H. unfold configure, bind at 1, try_except. rewrite H. reflexivity.
Qed.

Lemma steps_3_to_8_environ (repo : pyval) : preserves environ (steps repo).
Proof.
  unfold steps_3_to_8. apply preserves_bind.
  - apply with_TemporaryDirectory_environ. intros t. frame.
  - intros _. frame.
Qed.

(** C4: once the metadata is fetched and [tempfile] has a free name [t]
    to give, nothing at or below [t] exists when [configure] is over,
    whatever its outcome. *)
Theorem temporary_directory_never_outlives_configure (w w1 : World) (repo : pyval)
    (t : path) (rest : list path) (p : path) :
  gin_get_repo_data username repo_name token w = (Return repo, w1) ->
  pick_free (tmp_names w) (fs w) = Some (t, rest) ->
  under t p = true ->
  fs (snd (configure repo_name user_commands output_files input_files commit_message
             notifications token username workflow w)) !! p = None.
Proof.
  intros H1 Hpick Hp.
  pose proof (gin_get_repo_data_fs username repo_name token w) as Hfs.
  pose proof (gin_get_repo_data_tmp_names username repo_name token w) as Htmp.
  rewrite H1 in Hfs, Htmp. simpl in Hfs, Htmp.
  rewrite (configure_after_step1 w w1 repo H1). unfold steps_3_to_8.
  rewrite bind_then_preserved by (intros _; frame).
  apply with_TemporaryDirectory_gone with (t := t) (rest := rest); [|exact Hp].
  simpl. rewrite Hfs, Htmp. exact Hpick.
Qed.

(** C8, as the code has it: once the metadata is fetched, GIT_SSH_COMMAND
    names the private key in the process environment when [configure] is
    over, whatever its outcome, and every other variable is as it was:
    the setting is not taken back. *)
Theorem git_ssh_command_stays_set (w w1 : World) (repo : pyval) :
  gin_get_repo_data username repo_name token w = (Return repo, w1) ->
  environ (snd (configure repo_name user_commands output_files input_files commit_message
                  notifications token username workflow w))
  = <["GIT_SSH_COMMAND" := GIT_SSH_COMMAND]> (environ w).
Proof.
  intros H1.
  pose proof (gin_get_repo_data_environ username repo_name token w) as Henv.
  rewrite H1 in Henv. simpl in Henv.
  rewrite (configure_after_step1 w w1 repo H1), steps_3_to_8_environ. simpl.
  rewrite Henv. reflexivity.
Qed.

End Configure_pipeline.

Section Configure_examples.
Import Demo.
#[local] Existing Instance demo.

Lemma temporary_directory_never_outlives_configure_witness :
  fs (snd (workflow "proj" ready)) !! ["/tmp"; "tmpk3x9"] = None.
Proof.
  apply (temporary_directory_never_outlives_configure (P := demo)
           (PStr "proj") (PList []) (PList []) (PList []) (PStr "add workflow") (PList [])
           (PStr "5ha1") (PStr "alice") (PStr "wf1") ready
           (snd (gin_get_repo_data (P := demo) (PStr "alice") (PStr "proj") (PStr "5ha1")
                   ready))
           proj ["/tmp"; "tmpk3x9"] [["/tmp"; "tmpq7wz"]]).
  - vm_compute. reflexivity.
  - vm_compute. reflexivity.
  - vm_compute. reflexivity.
Defined.

(** The same when git cannot be started: [configure] raises from inside
    the block, and the directory is gone all the same. *)
Example temporary_directory_removed_on_error :
  let run := workflow "proj" (with_procs [NotStarted (OSError "git")] ready) in
  fst run = Raise (OSError "git") /\
  fs (snd run) !! ["/tmp"; "tmpk3x9"] = None /\
  spawned (snd run) =
    [(["git"; "clone"; "--depth=1"; "http://172.19.0.2:3000/alice/proj.git";
       "/tmp/tmpk3x9/alice/proj"], None)].
Proof. vm_compute. repeat split. Qed.

(** A reply with an error status and a JSON body is no failure of step
    1 for the code: with a token the git host does not know, the answer
    is 401 with a message, [gin_get_repo_data] returns that message as
    the repository, and [configure] goes on until [gin_clone] looks for
    the repository's name. *)
Example configure_goes_on_after_an_error_reply :
  let run := configure (PStr "proj") (PList []) (PList []) (PList []) (PStr "add workflow")
               (PList []) (PStr "unknown") (PStr "alice") (PStr "wf1") ready in
  fst run = Raise (KeyError "name") /\
  environ (snd run) !! "GIT_SSH_COMMAND" = Some "ssh -i /home/proc/gin-proc/ssh/gin-proc" /\
  fs (snd run) !! ["/tmp"; "tmpk3x9"] = None /\
  tmp_names (snd run) = [["/tmp"; "tmpq7wz"]].
Proof. vm_compute. repeat split. Qed.


Lemma git_ssh_command_stays_set_witness :
  environ (snd (workflow "proj" ready))
  = <["GIT_SSH_COMMAND" := "ssh -i /home/proc/gin-proc/ssh/gin-proc"]> (environ ready).
Proof.
  apply (git_ssh_command_stays_set (P := demo)
           (PStr "proj") (PList []) (PList []) (PList []) (PStr "add workflow") (PList [])
           (PStr "5ha1") (PStr "alice") (PStr "wf1") ready
           (snd (gin_get_repo_data (P := demo) (PStr "alice") (PStr "proj") (PStr "5ha1")
                   ready))
           proj).
  vm_compute. reflexivity.
Defined.

(** C8 as the spec has it fails: a run of [configure] that returns leaves
    GIT_SSH_COMMAND set in an environment that did not have it. *)
Lemma git_ssh_command_not_restored :
  let run := workflow "proj" ready in
  fst run = Return tt /\
  environ ready !! "GIT_SSH_COMMAND" = None /\
  environ (snd run) !! "GIT_SSH_COMMAND" = Some "ssh -i /home/proc/gin-proc/ssh/gin-proc" /\
  environ (snd run) <> environ ready.
Proof.
  assert (H : environ (snd (workflow "proj" ready)) !! "GIT_SSH_COMMAND"
              = Some "ssh -i /home/proc/gin-proc/ssh/gin-proc")
    by (vm_compute; reflexivity).
  split; [|split; [|split]].
  - vm_compute. reflexivity.
  - vm_compute. reflexivity.
  - exact H.
  - intros E. rewrite E in H. vm_compute in H. discriminate H.
Qed.

End Configure_examples.

(** ** The git subprocesses *)

Section Git.

(** C9: the exit codes of git are not looked at.  Where git exits with
    code [c], [gin_clone] gives what it gives where git exits with 0, and
    it returns whenever it got as far as starting git; where the three
    commands of [push] exit with [c1], [c2] and [c3], [push] returns None
    and leaves the very world it leaves where they all exit with 0. *)
Theorem git_exit_codes_are_not_checked
    (w : World) (repo author : pyval) (p cwd : path) (m : string)
    (c c1 c2 c3 : Z) (files files1 files2 files3 : list (path * node))
    (rest rest3 : list proc_result) :
  (procs w = Exited c files :: rest ->
   fst (gin_clone repo author p w)
     = fst (gin_clone repo author p (with_procs (Exited 0 files :: rest) w))) /\
  (procs w = Exited c files :: rest ->
   spawned (snd (gin_clone repo author p w)) <> spawned w ->
   exists clone_path, fst (gin_clone repo author p w) = Return clone_path) /\
  (procs w = Exited c1 files1 :: Exited c2 files2 :: Exited c3 files3 :: rest3 ->
   fst (push cwd (PStr m) w) = Return PNone /\
   push cwd (PStr m) w
     = push cwd (PStr m)
         (with_procs (Exited 0 files1 :: Exited 0 files2 :: Exited 0 files3 :: rest3) w)).
Proof.
  split; [|split].
  - intros Hp. unfold gin_clone, bind, lift.
    destruct (getitem repo "name") as [name|e]; simpl; [|reflexivity].
    destruct (as_str author) as [a|e]; simpl; [|reflexivity].
    destruct (as_str name) as [n|e]; simpl; [|reflexivity].
    unfold os_makedirs. simpl.
    destruct (makedirs_from _ _ _ _) as [e|f]; simpl; [reflexivity|].
    destruct (getitem repo "clone_url") as [u|e]; simpl; [|reflexivity].
    destruct (as_str u) as [u'|e]; simpl; [|reflexivity].
    unfold call. simpl. rewrite Hp. reflexivity.
  - intros Hp. unfold gin_clone, bind, lift.
    destruct (getitem repo "name") as [name|e]; simpl; [|intros N; contradiction N; reflexivity].
    destruct (as_str author) as [a|e]; simpl; [|intros N; contradiction N; reflexivity].
    destruct (as_str name) as [n|e]; simpl; [|intros N; contradiction N; reflexivity].
    unfold os_makedirs. simpl.
    destruct (makedirs_from _ _ _ _) as [e|f]; simpl;
      [intros N; contradiction N; reflexivity|].
    destruct (getitem repo "clone_url") as [u|e]; simpl;
      [|intros N; contradiction N; reflexivity].
    destruct (as_str u) as [u'|e]; simpl; [|intros N; contradiction N; reflexivity].
    intros _. unfold call. simpl. rewrite Hp. simpl. eexists. reflexivity.
  - intros Hp. unfold push, bind, lift, call. simpl. rewrite Hp. simpl. split; reflexivity.
Qed.

End Git.

(** git fails at every step: the clone exits with 128, the commands of
    [push] with 128, 1 and 1. *)
Lemma git_exit_codes_are_not_checked_witness :
  let w := with_procs [Exited 128 []; Exited 1 []; Exited 1 []] Demo.ready in
  let ok := with_procs [Exited 0 []; Exited 1 []; Exited 1 []] Demo.ready in
  fst (gin_clone Demo.proj (PStr "alice") ["/tmp"; "t"] w)
    = fst (gin_clone Demo.proj (PStr "alice") ["/tmp"; "t"] ok) /\
  (exists clone_path,
     fst (gin_clone Demo.proj (PStr "alice") ["/tmp"; "t"] w)
       = Return clone_path) /\
  fst (push ["/tmp"; "t"] (PStr "add workflow") w) = Return PNone /\
  push ["/tmp"; "t"] (PStr "add workflow") w
    = push ["/tmp"; "t"] (PStr "add workflow")
        (with_procs [Exited 0 []; Exited 0 []; Exited 0 []] w).
Proof.
  intros w ok.
  destruct (git_exit_codes_are_not_checked w Demo.proj (PStr "alice")
              ["/tmp"; "t"] ["/tmp"; "t"] "add workflow" 128 128 1 1 [] [] [] []
              [Exited 1 []; Exited 1 []] []) as (A & B & C).
  split; [exact (A eq_refl)|]. split; [|exact (C eq_refl)].
  apply B; [reflexivity|]. vm_compute. discriminate.
Defined.

(** ** Running a computation step by step *)

Lemma bind_returns {A B} (c : M A) (k : A -> M B) (w w' : World) (b : B) :
  bind c k w = (Return b, w') ->
  exists a w1, c w = (Return a, w1) /\ k a w1 = (Return b, w').
Proof.
  unfold bind. destruct (c w) as [[a|e] w1]; intros H; [|discriminate].
  exists a, w1. split; [reflexivity | exact H].
Qed.

Lemma write_text_returns (p : path) (s : string) (w w' : World) :
  write_text p s w = (Return tt, w') ->
  exists m, fs w' = <[p := File s m]> (fs w).
Proof.
  unfold write_text. intros H.
  destruct (fs w !! p) as [[c m|m]|].
  - inversion H. exists m. reflexivity.
  - discriminate.
  - destruct (fs w !! removelast p) as [[c m|m]|]; try discriminate.
    inversion H. eexists. reflexivity.
Qed.

Lemma os_chmod_returns (p : path) (m : Z) (w w' : World) :
  os_chmod p m w = (Return tt, w') ->
  match fs w !! p with
  | Some (File c _) => fs w' = <[p := File c m]> (fs w)
  | Some (Dir _) => fs w' = <[p := Dir m]> (fs w)
  | None => False
  end.
Proof.
  unfold os_chmod. intros H.
  destruct (fs w !! p) as [[c m0|m0]|]; inversion H; reflexivity.
Qed.

Lemma makedirs_from_dir (rest : list string) :
  forall (done : path) (m : Z) (f f' : gmap path node),
    makedirs_from done rest m f = inr f' ->
    rest <> [] ->
    exists m', f' !! (done ++ rest)%list = Some (Dir m').
Proof.
  induction rest as [|c rest IH]; intros done m f f' H Hne; [contradiction|].
  simpl in H.
  destruct rest as [|c' rest'].
  - destruct (f !! (done ++ [c])%list) as [[x y|y]|] eqn:E; simpl in H.
    + discriminate.
    + inversion H; subst. eauto.
    + inversion H; subst. exists m. apply lookup_insert_eq.
  - destruct (f !! (done ++ [c])%list) as [[x y|y]|] eqn:E.
    + discriminate.
    + apply IH in H; [|discriminate]. rewrite <- app_assoc in H. exact H.
    + apply IH in H; [|discriminate]. rewrite <- app_assoc in H. exact H.
Qed.

Lemma os_makedirs_returns (p : path) (w w' : World) :
  os_makedirs p w = (Return tt, w') -> p <> [] -> exists m, fs w' !! p = Some (Dir m).
Proof.
  unfold os_makedirs. intros H Hne.
  destruct (makedirs_from [] p (new_mode o777 w) (fs w)) as [e|f] eqn:E; [discriminate|].
  inversion H; subst. simpl. apply (makedirs_from_dir p [] _ _ _ E Hne).
Qed.

Lemma path_not_its_child (p : path) (name : string) : p <> os_path_join p name.
Proof.
  unfold os_path_join. intros E. apply (f_equal (@length string)) in E.
  rewrite length_app in E. simpl in E. lia.
Qed.

Lemma children_differ (p : path) (a b : string) :
  a <> b -> os_path_join p a <> os_path_join p b.
Proof.
  unfold os_path_join. intros Hab E. apply app_inv_head in E. inversion E. contradiction.
Qed.

(** ** The key pair *)

Section Keys.
Context {P : Platform}.

Lemma install_key_files (ssh_path : path) (token : pyval) (w w' : World) :
  ssh_path <> [] ->
  install_key ssh_path token w = (Return tt, w') ->
  fs w' !! ssh_path = Some (Dir o700) /\
  fs w' !! os_path_join ssh_path PRIV_KEY
    = Some (File (private_bytes (fresh_key w) Encoding.PEM PrivateFormat.PKCS8
                    NoEncryption) o600) /\
  fs w' !! os_path_join ssh_path PUB_KEY
    = Some (File (public_bytes (fresh_key w) Encoding.OpenSSH PublicFormat.OpenSSH) o600) /\
  last (sent w') = Some (key_post token
                           (public_bytes (fresh_key w) Encoding.OpenSSH PublicFormat.OpenSSH)).
Proof.
  intros Hne H. unfold install_key in H.
  apply bind_returns in H as (key & w0 & Hk & H).
  unfold rsa_generate_private_key in Hk. inversion Hk; subst key w0; clear Hk.
  fold (fresh_key w) in H.
  apply bind_returns in H as ([] & w1 & H1 & H).
  apply bind_returns in H as ([] & w2 & H2 & H).
  apply bind_returns in H as ([] & w3 & H3 & H).
  apply bind_returns in H as ([] & w4 & H4 & H).
  apply bind_returns in H as ([] & w5 & H5 & H).
  apply bind_returns in H as ([] & w6 & H6 & H).
  apply bind_returns in H as (r & w7 & H7 & H).
  unfold log in H. inversion H; subst w'; clear H. simpl.
  match type of H7 with
  | requests ?q _ = _ => pose proof (requests_local q w6) as L
  end.
  rewrite H7 in L. simpl in L.
  destruct L as (L1 & _ & _ & _ & _ & _ & _ & _ & _ & L10).
  rewrite L1, L10.
  apply os_makedirs_returns in H1 as [m1 D1]; [|exact Hne].
  apply write_text_returns in H2 as [m2 F2].
  apply write_text_returns in H3 as [m3 F3].
  apply os_chmod_returns in H4. apply os_chmod_returns in H5. apply os_chmod_returns in H6.
  pose proof (path_not_its_child ssh_path PRIV_KEY) as N1.
  pose proof (path_not_its_child ssh_path PUB_KEY) as N2.
  assert (N3 : os_path_join ssh_path PRIV_KEY <> os_path_join ssh_path PUB_KEY)
    by (apply children_differ; discriminate).
  rewrite F3, F2 in H4.
  rewrite lookup_insert_ne, lookup_insert_ne, D1 in H4 by congruence.
  rewrite H4 in H5.
  rewrite lookup_insert_ne, lookup_insert_ne, lookup_insert_eq in H5 by congruence.
  rewrite H5 in H6.
  rewrite lookup_insert_ne, lookup_insert_ne, lookup_insert_eq in H6 by congruence.
  rewrite H6.
  split; [|split; [|split]].
  - rewrite lookup_insert_ne, lookup_insert_ne, lookup_insert_eq by congruence. reflexivity.
  - rewrite lookup_insert_ne, lookup_insert_eq by congruence. reflexivity.
  - rewrite lookup_insert_eq. reflexivity.
  - rewrite last_snoc. reflexivity.
Qed.

(** C10: when [install_key] returns, the key it generated is an RSA key
    of 2048 bits with public exponent 65537; the private key file holds
    its PEM encoding in PKCS8 without encryption, the public key file its
    OpenSSH encoding; the key directory has mode 0700 and both files have
    mode 0600. *)
Theorem install_key_writes_a_restricted_rsa_pair (token : pyval) (w w' : World) :
  install_key SSH_PATH token w = (Return tt, w') ->
  exists key : rsa_key,
    key_size key = 2048 /\ public_exponent key = 65537 /\
    fs w' !! SSH_PATH = Some (Dir o700) /\
    fs w' !! os_path_join SSH_PATH PRIV_KEY
      = Some (File (private_bytes key Encoding.PEM PrivateFormat.PKCS8 NoEncryption) o600) /\
    fs w' !! os_path_join SSH_PATH PUB_KEY
      = Some (File (public_bytes key Encoding.OpenSSH PublicFormat.OpenSSH) o600).
Proof.
  intros H. exists (fresh_key w).
  apply install_key_files in H as (A & B & C & _); [|discriminate].
  repeat split; assumption.
Qed.

End Keys.

Lemma install_key_writes_a_restricted_rsa_pair_witness :
  let w' := snd (install_key (P := Demo.demo) (SSH_PATH (P := Demo.demo)) (PStr "5ha1")
                   (Demo.key_state false false)) in
  exists key : rsa_key,
    key_size key = 2048 /\ public_exponent key = 65537 /\
    fs w' !! ["/home/proc"; "gin-proc"; "ssh"] = Some (Dir 448) /\
    fs w' !! ["/home/proc"; "gin-proc"; "ssh"; "gin-proc"]
      = Some (File (private_bytes (Platform := Demo.demo) key Encoding.PEM
                      PrivateFormat.PKCS8 NoEncryption) 384) /\
    fs w' !! ["/home/proc"; "gin-proc"; "ssh"; "gin-proc.pub"]
      = Some (File (public_bytes (Platform := Demo.demo) key Encoding.OpenSSH
                      PublicFormat.OpenSSH) 384).
Proof.
  intros w'.
  apply (install_key_writes_a_restricted_rsa_pair (P := Demo.demo) (PStr "5ha1")
           (Demo.key_state false false) w').
  vm_compute. reflexivity.
Defined.

Section Key_examples.
Import Demo.
#[local] Existing Instance demo.

(** C2 on the code: from each of the four states [ensure_key] ends with
    one key pair in both places, but it returns True only where nothing
    had to be done; after an installation it returns None. *)
Theorem ensure_key_returns_none_after_installing :
  let run l r := ensure_key (PStr "5ha1") (key_state l r) in
  (fst (run true true) = Return (PBool true) /\
   remote_keys (snd (run true true)) = ["ssh-rsa 0"] /\
   local_public_key (snd (run true true)) = Some (File "ssh-rsa 0" 384)) /\
  (fst (run true false) = Return PNone /\
   remote_keys (snd (run true false)) = ["ssh-rsa 41"] /\
   local_public_key (snd (run true false)) = Some (File "ssh-rsa 41" 384)) /\
  (fst (run false true) = Return PNone /\
   remote_keys (snd (run false true)) = ["ssh-rsa 41"] /\
   local_public_key (snd (run false true)) = Some (File "ssh-rsa 41" 384)) /\
  (fst (run false false) = Return PNone /\
   remote_keys (snd (run false false)) = ["ssh-rsa 41"] /\
   local_public_key (snd (run false false)) = Some (File "ssh-rsa 41" 384)).
Proof. vm_compute. repeat split. Qed.

End Key_examples.

(** ** Secrets on the CI host *)

Section Secret_examples.
Import Demo.
#[local] Existing Instance demo.

(** C1 on the code: one active repository holds the secret already and
    the private key file reads "PRIVATE KEY 0".  The secret is updated,
    and then a second secret is posted with what is left to read of the
    key file, which is nothing.  A host that refuses the second one makes
    the run fail; a host that takes it ends with an empty secret, in
    place of the key or next to it. *)
Theorem drone_ensure_secrets_posts_an_empty_secret :
  let run pol := drone_ensure_secrets (PStr "alice") (has_secret_already pol) in
  (fst (run Refuse)
     = Raise (ServerError
                (inl ("Secret could not be installed in `" ++
                      py_str (ci_repo "alice/proj" "proj" true) ++ "`"))
                (Some 500)) /\
   secrets_at "alice/proj" (snd (run Refuse)) = Some [the_secret "PRIVATE KEY 0"]) /\
  (fst (run Replace) = Return (PBool true) /\
   secrets_at "alice/proj" (snd (run Replace)) = Some [the_secret ""]) /\
  (fst (run Append) = Return (PBool true) /\
   secrets_at "alice/proj" (snd (run Append))
     = Some [the_secret "PRIVATE KEY 0"; the_secret ""]) /\
  List.map body (sent (snd (run Append)))
    = [NoBody; NoBody;
       Json (PDict [("data", PStr "PRIVATE KEY 0"); ("pull_request", PBool false)]);
       Json (PDict [("name", PStr "DRONE_PRIVATE_SSH_KEY"); ("data", PStr "");
                    ("pull_request", PBool false)])].
Proof. vm_compute. repeat split. Qed.

End Secret_examples.

(** ** Login *)

Section Login.
Context {P : Platform}.

Lemma requests_user req : preserves user (requests req).
Proof. intros w. apply (requests_local req w). Qed.

Lemma ensure_key_installs (token v : pyval) (w w' : World) :
  fst (keys_in_place token w) = Return false ->
  ensure_key token w = (Return v, w') ->
  v = PNone /\ exists w0, install_key SSH_PATH token w0 = (Return tt, w').
Proof.
  intros Hcond H. unfold ensure_key, try_except in H. fold (keys_in_place token) in H.
  match type of H with
  | (match ?body w with _ => _ end) = _ => destruct (body w) as [[v0|e] wb] eqn:E
  end.
  - inversion H; subst v0 wb; clear H.
    apply bind_returns in E as (both & w1 & Hb & E).
    rewrite Hb in Hcond. simpl in Hcond. inversion Hcond; subst both.
    apply bind_returns in E as ([] & w2 & _ & E).
    apply bind_returns in E as ([] & w3 & Hi & E).
    inversion E; subst. split; [reflexivity|]. exists w2. exact Hi.
  - simpl in H. discriminate.
Qed.

(** C3: the body of the request holds a user name and a password, the
    token is ensured, the first condition of [ensure_key] is false (the
    key pair is not in both places), and [ensure_key] returns, which it
    does after [install_key] has returned.  Then [ensure_key] has
    returned None, and the view answers "login failed" with status 401 in
    the very world [ensure_key] left: nothing ran after it, and
    [drone_ensure_secrets] was not called.  In that world the fresh key
    pair is on this machine and the last request sent is the one that
    posts its public key to the git host. *)
Theorem login_fails_after_a_fresh_install
    (request_json u p t v : pyval) (w w1 w2 : World) :
  getitem request_json "username" = Return u ->
  getitem request_json "password" = Return p ->
  gin_ensure_token u p (with_user {| username := u; gin_token := gin_token (user w) |} w)
    = (Return t, w1) ->
  fst (keys_in_place t (token_ensured t w1)) = Return false ->
  ensure_key t (token_ensured t w1) = (Return v, w2) ->
  v = PNone /\
  login request_json w = (Return (Shown (PStr "login failed"), UNAUTHORIZED), w2) /\
  exists key : rsa_key,
    fs w2 !! os_path_join SSH_PATH PRIV_KEY
      = Some (File (private_bytes key Encoding.PEM PrivateFormat.PKCS8 NoEncryption) o600) /\
    fs w2 !! os_path_join SSH_PATH PUB_KEY
      = Some (File (public_bytes key Encoding.OpenSSH PublicFormat.OpenSSH) o600) /\
    last (sent w2)
      = Some (key_post t (public_bytes key Encoding.OpenSSH PublicFormat.OpenSSH)).
Proof.
  intros Hu Hp Ht Hcond He.
  destruct (ensure_key_installs t v _ w2 Hcond He) as [-> [w0 Hi]].
  split; [reflexivity|]. split.
  - unfold login, User_login, try_except, bind, lift. rewrite Hu. simpl. rewrite Hp. simpl.
    rewrite Ht. simpl. fold (token_ensured t w1).
    unfold and_then, holds, bind. rewrite He. reflexivity.
  - apply install_key_files in Hi as (_ & B & C & D); [|discriminate].
    exists (fresh_key w0). repeat split; assumption.
Qed.

End Login.

(** A first login with good credentials: the token is registered, the
    key pair is installed, and the answer is 401. *)
Lemma login_fails_after_a_fresh_install_witness :
  let run := login (P := Demo.demo) Demo.credentials Demo.first_login in
  fst run = Return (Shown (PStr "login failed"), 401) /\
  tokens (gin (snd run))
    = [{| tok_owner := "alice"; tok_name := "gin-proc"; tok_sha1 := "f1" |}] /\
  List.map key_text (keys (gin (snd run))) = ["ssh-rsa 41"] /\
  secrets (drone (snd run)) = secrets (drone Demo.first_login).
Proof.
  intros run. split.
  - pose (w1 := snd (gin_ensure_token (P := Demo.demo) (PStr "alice") (PStr "secret")
                       (with_user {| username := PStr "alice"; gin_token := PNone |}
                          Demo.first_login))).
    pose (w2 := snd (ensure_key (P := Demo.demo) (PStr "f1")
                       (token_ensured (PStr "f1") w1))).
    destruct (login_fails_after_a_fresh_install (P := Demo.demo) Demo.credentials
                (PStr "alice") (PStr "secret") (PStr "f1") PNone Demo.first_login w1 w2)
      as (_ & L & _).
    + reflexivity.
    + reflexivity.
    + vm_compute. reflexivity.
    + vm_compute. reflexivity.
    + vm_compute. reflexivity.
    + unfold run. rewrite L. reflexivity.
  - vm_compute. repeat split.
Defined.

(** ** Tokens *)

Section Tokens.
Context {P : Platform}.

Lemma tokens_request_answered (m : verb) (username password : pyval) (b : payload) (w : World) :
  script w = [] ->
  let req := tokens_request m username password b in
  let ans := gin_tokens_route (py_str username) req (gin w) in
  requests req w
  = (Return (fst ans),
     with_hosts (snd ans) (drone w) (with_script [] (with_sent (sent w ++ [req])%list w))).
Proof.
  intros Hs req ans. unfold requests, exchange. simpl. rewrite Hs. simpl.
  unfold answer, gin_answer. simpl. rewrite String.eqb_refl. simpl.
  fold req. fold ans. destruct ans as [r g]. reflexivity.
Qed.

Lemma basic_user_name (g : Gin) (req : request) (u p : pyval) (a : string) :
  auth req = Some (u, p) -> basic_user g req = Some a -> py_str u = a.
Proof.
  unfold basic_user. intros ->. destruct u; try discriminate. destruct p; try discriminate.
  destruct (existsb _ _); [|discriminate]. intros H. inversion H. reflexivity.
Qed.

Lemma for_until_tokens (l : list token_entry) (w : World) :
  for_until (List.map token_json l) token_loop w
  = (Return (option_map (fun t => PStr (tok_sha1 t)) (List.find is_gin_proc l)), w).
Proof.
  induction l as [|t l IH]; simpl; [reflexivity|].
  unfold bind at 1. unfold token_loop at 1. unfold bind, lift, is_gin_proc. simpl.
  destruct (String.eqb (tok_name t) "gin-proc"); simpl; [reflexivity|]. exact IH.
Qed.


(** [gin_ensure_token] against the reference host, in closed form. *)
Lemma gin_ensure_token_run (username password : pyval) (w : World) :
  script w = [] ->
  let w1 := answered (token_get username password) (gin w) w in
  gin_ensure_token username password w
  = match basic_user (gin w) (token_get username password) with
    | None => (Raise TypeError, w1)
    | Some _ =>
        match List.find is_gin_proc (owned_tokens (py_str username) (gin w)) with
        | Some t0 => (Return (PStr (tok_sha1 t0)), w1)
        | None =>
            match fresh (gin w) with
            | s :: rest =>
                (Return (PStr s),
                 answered (token_post username password)
                   (with_tokens (tokens (gin w) ++ [new_token username s])%list rest (gin w))
                   w1)
            | [] =>
                (Raise (KeyError "sha1"),
                 answered (token_post username password) (gin w) w1)
            end
        end
    end.
Proof.
  intros Hs w1. unfold gin_ensure_token, try_except.
  fold (tokens_request GET username password NoBody).
  fold (tokens_request POST username password (Form [("name", PStr "gin-proc")])).
  fold token_loop. fold (token_get username password) (token_post username password).
  unfold bind, json_of, lift, ret.
  unfold token_get at 1. rewrite (tokens_request_answered GET username password NoBody w Hs).
  fold (token_get username password).
  unfold gin_tokens_route.
  destruct (basic_user (gin w) (token_get username password)) as [a|] eqn:Ha.
  - pose proof (basic_user_name (gin w) (token_get username password)
                  username password a eq_refl Ha) as Hname.
    rewrite Hname, String.eqb_refl.
    cbn [negb fst snd method token_get tokens_request json_reply body_of py_iter].
    fold (token_get username password).
    fold (answered (token_get username password) (gin w) w). fold w1.
    rewrite for_until_tokens.
    destruct (List.find is_gin_proc (owned_tokens a (gin w))) as [t0|] eqn:Hf.
    + reflexivity.
    + cbn [option_map].
      unfold token_post at 1.
      rewrite (tokens_request_answered POST username password _ w1 eq_refl).
      fold (token_post username password).
      unfold gin_tokens_route.
      change (basic_user (gin w1) (token_post username password))
        with (basic_user (gin w) (token_get username password)).
      rewrite Ha, Hname, String.eqb_refl.
      cbn [negb fst snd method body token_post tokens_request lookup_item String.eqb
           Ascii.eqb Bool.eqb gin w1 answered with_hosts fresh].
      destruct (fresh (gin w)) as [|s rest].
      * reflexivity.
      * unfold new_token. rewrite Hname. reflexivity.
  - reflexivity.
Qed.


Lemma find_last {A} (f : A -> bool) (l : list A) (x : A) :
  List.find f l = None -> f x = true -> List.find f (l ++ [x])%list = Some x.
Proof.
  intros Hl Hx. induction l as [|y l IH]; simpl in *.
  - rewrite Hx. reflexivity.
  - destruct (f y); [discriminate|]. apply IH, Hl.
Qed.

(** C6: on the reference git host, with no reply forced by the script,
    when [gin_ensure_token] returns token [t], calling it again with the
    same user name and password returns [t] again and registers nothing;
    and the first call has either found a token named gin-proc among the
    user's tokens, returned it and registered nothing, or found none and
    registered exactly one. *)
Theorem gin_ensure_token_is_idempotent (username password t : pyval) (w w1 : World) :
  script w = [] ->
  gin_ensure_token username password w = (Return t, w1) ->
  (exists w2, gin_ensure_token username password w1 = (Return t, w2) /\
              tokens (gin w2) = tokens (gin w1)) /\
  ((exists t0, List.find is_gin_proc (owned_tokens (py_str username) (gin w)) = Some t0 /\
               t = PStr (tok_sha1 t0) /\ tokens (gin w1) = tokens (gin w)) \/
   (List.find is_gin_proc (owned_tokens (py_str username) (gin w)) = None /\
    exists s, t = PStr s /\
              tokens (gin w1) = (tokens (gin w) ++ [new_token username s])%list)).
Proof.
  intros Hs H. rewrite (gin_ensure_token_run username password w Hs) in H.
  destruct (basic_user (gin w) (token_get username password)) as [a|] eqn:Ha;
    [|discriminate].
  destruct (List.find is_gin_proc (owned_tokens (py_str username) (gin w))) as [t0|] eqn:Hf.
  - inversion H; subst t w1; clear H. split.
    + match goal with
      | |- context [gin_ensure_token _ _ ?W] =>
          rewrite (gin_ensure_token_run username password W eq_refl)
      end.
      change (basic_user _ (token_get username password))
        with (basic_user (gin w) (token_get username password)).
      rewrite Ha.
      change (gin (answered (token_get username password) (gin w) w)) with (gin w).
      rewrite Hf. eexists. split; reflexivity.
    + left. exists t0. repeat split.
  - destruct (fresh (gin w)) as [|s rest] eqn:Hfresh; [discriminate|].
    inversion H; subst t w1; clear H. split.
    + match goal with
      | |- context [gin_ensure_token _ _ ?W] =>
          rewrite (gin_ensure_token_run username password W eq_refl)
      end.
      change (basic_user _ (token_get username password))
        with (basic_user (gin w) (token_get username password)).
      rewrite Ha.
      assert (Hfind : List.find is_gin_proc
                (owned_tokens (py_str username)
                   (gin (answered (token_post username password)
                           (with_tokens (tokens (gin w) ++ [new_token username s])%list
                              rest (gin w))
                           (answered (token_get username password) (gin w) w))))
              = Some (new_token username s)).
      { unfold owned_tokens. cbn [gin answered with_hosts tokens with_tokens].
        rewrite List.filter_app. cbn [List.filter new_token tok_owner].
        rewrite String.eqb_refl. apply find_last; [exact Hf | reflexivity]. }
      rewrite Hfind. eexists. split; reflexivity.
    + right. split; [reflexivity|]. exists s. split; reflexivity.
Qed.

End Tokens.

Lemma gin_ensure_token_is_idempotent_witness :
  let first := gin_ensure_token (P := Demo.demo) (PStr "alice") (PStr "secret")
                 Demo.first_login in
  fst first = Return (PStr "f1") /\
  exists w2, gin_ensure_token (P := Demo.demo) (PStr "alice") (PStr "secret") (snd first)
               = (Return (PStr "f1"), w2) /\
             tokens (gin w2) = tokens (gin (snd first)).
Proof.
  intros first. split; [vm_compute; reflexivity|].
  apply (gin_ensure_token_is_idempotent (P := Demo.demo) (PStr "alice") (PStr "secret")
           (PStr "f1") Demo.first_login (snd first)).
  - reflexivity.
  - vm_compute. reflexivity.
Defined.

(** ** Propagation of the secret *)

Section Propagation.
Context {P : Platform}.









Lemma bind_eq {A B} (c : M A) (k : A -> M B) (w w' : World) (a : A) :
  c w = (Return a, w') -> bind c k w = k a w'.
Proof. unfold bind. intros ->. reflexivity. Qed.

Lemma bind_raise {A B} (c : M A) (k : A -> M B) (w w' : World) (e : exn) :
  c w = (Raise e, w') -> bind c k w = (Raise e, w').
Proof. unfold bind. intros ->. reflexivity. Qed.




Lemma drone_write_secret_refused (key t msg : string) (repo full : pyval) (r : response)
    (w w' : World) :
  getitem repo "full_name" = Return full ->
  environ w !! "DRONE_TOKEN" = Some t ->
  requests (secret_post t full key) w = (Return r, w') ->
  status_code r <> OK ->
  body_of r = Decodes (PDict [("message", PStr msg)]) ->
  drone_write_secret key repo w
  = (Raise (not_installed repo),
     with_logged (logged w' ++ [("critical", Val (PStr msg))])%list w').
Proof.
  intros Hfull Henv Hreq Hst Hbody.
  unfold drone_write_secret, bind, lift, try_except, environ_get.
  rewrite Hfull, Henv. fold (secret_post t full key). rewrite Hreq.
  apply Z.eqb_neq in Hst. rewrite Hst. unfold json_of. rewrite Hbody. reflexivity.
Qed.




End Propagation.


Section Refusal_examples.
Import Demo Cases.
#[local] Existing Instance demo.


End Refusal_examples.

(** * More of the code *)

Section Ensure_key_errors.
Context {P : Platform}.

(** X1: [ensure_key] lets one exception out and no other: whatever fails
    inside it (the git host, a file, a key of a reply) is caught and raised
    again as the ServerError "Cannot ensure keys." with status 500; and
    when it returns, it returns True or None. *)
Theorem ensure_key_raises_only_cannot_ensure_keys (token : pyval) (w : World) :
  match fst (ensure_key token w) with
  | Return v => v = PBool true \/ v = PNone
  | Raise e => e = cannot_ensure_keys
  end.
Proof.
  unfold ensure_key, try_except.
  match goal with
  | |- context [match ?body w with _ => _ end] => destruct (body w) as [[v|e] w'] eqn:E
  end; simpl; [|reflexivity].
  apply bind_returns in E as ([|] & w1 & _ & E).
  - apply bind_returns in E as ([] & w2 & _ & E). inversion E. left. reflexivity.
  - apply bind_returns in E as ([] & w2 & _ & E).
    apply bind_returns in E as ([] & w3 & _ & E). inversion E. right. reflexivity.
Qed.

End Ensure_key_errors.

Lemma try_except_returns {A} (c : M A) caught (h : exn -> M A) (w w' : World) (a : A) :
  try_except c caught h w = (Return a, w') ->
  c w = (Return a, w') \/
  exists e w1, c w = (Raise e, w1) /\ caught e = true /\ h e w1 = (Return a, w').
Proof.
  unfold try_except. destruct (c w) as [[x|e] w1]; intros H.
  - left. exact H.
  - destruct (caught e) eqn:C; [|discriminate]. right. exists e, w1. repeat split; assumption.
Qed.

Lemma try_except_raises {A} (c : M A) caught (h : exn -> M A) (w w' : World) (e : exn) :
  try_except c caught h w = (Raise e, w') ->
  (c w = (Raise e, w') /\ caught e = false) \/
  exists e0 w1, c w = (Raise e0, w1) /\ caught e0 = true /\ h e0 w1 = (Raise e, w').
Proof.
  unfold try_except. destruct (c w) as [[x|e0] w1]; intros H; [discriminate|].
  destruct (caught e0) eqn:C.
  - right. exists e0, w1. repeat split; assumption.
  - left. inversion H; subst. split; [reflexivity | exact C].
Qed.

Lemma bind_raises {A B} (c : M A) (k : A -> M B) (w w' : World) (e : exn) :
  bind c k w = (Raise e, w') ->
  c w = (Raise e, w') \/ exists a w1, c w = (Return a, w1) /\ k a w1 = (Raise e, w').
Proof.
  unfold bind. destruct (c w) as [[a|e0] w1]; intros H.
  - right. exists a, w1. split; [reflexivity | exact H].
  - left. inversion H; subst. reflexivity.
Qed.

#[export] Hint Resolve requests_user : frames.

Section User_frames.
Context {P : Platform}.

Lemma gin_ensure_token_user u p : preserves user (gin_ensure_token u p).
Proof. unfold gin_ensure_token, token_loop. frame. Qed.

Lemma gin_get_keys_user t : preserves user (gin_get_keys t).
Proof. unfold gin_get_keys. frame. Qed.

Lemma gin_ensure_key_user t : preserves user (gin_ensure_key t).
Proof. pose proof gin_get_keys_user. unfold gin_ensure_key. frame. Qed.

Lemma gin_delete_key_user t : preserves user (gin_delete_key t).
Proof. pose proof gin_get_keys_user. unfold gin_delete_key. frame. Qed.

Lemma install_key_user p t : preserves user (install_key p t).
Proof. unfold install_key. frame. Qed.

Lemma ensure_key_user t : preserves user (ensure_key t).
Proof.
  pose proof gin_ensure_key_user. pose proof gin_delete_key_user. pose proof install_key_user.
  unfold ensure_key, keys_in_place, holds, not_, proc_ensure_key. frame.
Qed.

Lemma drone_update_secret_user s d r : preserves user (drone_update_secret s d r).
Proof. unfold drone_update_secret. frame. Qed.

Lemma drone_write_secret_user k r : preserves user (drone_write_secret k r).
Proof. unfold drone_write_secret. frame. Qed.

Lemma prepare_secret_user r : preserves user (prepare_secret r).
Proof. pose proof drone_update_secret_user. unfold prepare_secret. frame. Qed.

Lemma drone_ensure_secrets_user u : preserves user (drone_ensure_secrets u).
Proof.
  pose proof prepare_secret_user. pose proof drone_write_secret_user.
  unfold drone_ensure_secrets, ensure_repo_secret. frame.
Qed.

Lemma drone_ensure_secrets_returns_true (u v : pyval) (w w' : World) :
  drone_ensure_secrets u w = (Return v, w') -> v = PBool true.
Proof.
  unfold drone_ensure_secrets. intros H.
  apply bind_returns in H as (t & w1 & _ & H).
  apply bind_returns in H as (r & w2 & _ & H).
  apply bind_returns in H as (repos & w3 & _ & H).
  apply bind_returns in H as (items & w4 & _ & H).
  apply bind_returns in H as ([] & w5 & _ & H).
  inversion H. reflexivity.
Qed.

End User_frames.

Section Ensure_key_value.
Context {P : Platform}.

Lemma ensure_key_value (token v : pyval) (w w' : World) :
  ensure_key token w = (Return v, w') -> v = PBool true \/ v = PNone.
Proof.
  intros H. apply try_except_returns in H as [E | (e & w1 & _ & _ & E)].
  - apply bind_returns in E as ([|] & w1 & _ & E).
    + apply bind_returns in E as ([] & w2 & _ & E). inversion E. left. reflexivity.
    + apply bind_returns in E as ([] & w2 & _ & E).
      apply bind_returns in E as ([] & w3 & _ & E). inversion E. right. reflexivity.
  - apply bind_returns in E as ([] & w2 & _ & E). discriminate.
Qed.

End Ensure_key_value.

Section Login_answers.
Context {P : Platform}.

(** X2: the answers of POST /auth/login.  When the view returns, the
    body of the request held a user name and a password, the session
    holds that user name, and either [gin_ensure_token] raised a
    ServerError, which is the body of the answer with status 500, the
    token of the session being as before; or it returned a token, which is
    now the token of the session, and the answer is that token with
    status 200, after [ensure_key] and [drone_ensure_secrets] both
    returned True, or "login failed" with status 401, in the world that
    [ensure_key] left when it returned None.  A 401 is never an answer to
    wrong credentials. *)
Theorem login_answers (request_json : pyval) (w w' : World) (b : view_body) (st : Z) :
  login request_json w = (Return (b, st), w') ->
  exists u p,
    getitem request_json "username" = Return u /\
    getitem request_json "password" = Return p /\
    username (user w') = u /\
    ((exists e w1,
        gin_ensure_token u p (named u w) = (Raise e, w1) /\
        b = ShownError e /\ is_ServerError e = true /\ st = INTERNAL_SERVER_ERROR /\
        gin_token (user w') = gin_token (user w)) \/
     (exists t w1,
        gin_ensure_token u p (named u w) = (Return t, w1) /\
        gin_token (user w') = t /\
        ((b = Shown (PDict [("token", t)]) /\ st = OK /\
          exists w2,
            ensure_key t (token_ensured t w1) = (Return (PBool true), w2) /\
            drone_ensure_secrets u w2 = (Return (PBool true), w')) \/
         (b = Shown (PStr "login failed") /\ st = UNAUTHORIZED /\
          ensure_key t (token_ensured t w1) = (Return PNone, w'))))).
Proof.
  intros H. unfold login in H.
  apply try_except_returns in H as [H | (e & w1 & _ & _ & H)]; [|discriminate].
  unfold User_login in H.
  apply bind_returns in H as (u & w0 & Hu & H).
  unfold lift in Hu. destruct (getitem request_json "username") as [u'|]; [|discriminate].
  inversion Hu; subst u' w0; clear Hu.
  apply bind_returns in H as ([] & w0 & Hs & H). inversion Hs; subst w0; clear Hs.
  fold (named u w) in H.
  apply bind_returns in H as (p & w0 & Hp & H).
  unfold lift in Hp. destruct (getitem request_json "password") as [p'|]; [|discriminate].
  inversion Hp; subst p' w0; clear Hp.
  exists u, p. split; [reflexivity|]. split; [reflexivity|].
  apply bind_returns in H as (failed & w2 & Ht & H).
  apply try_except_returns in Ht as [Ht | (e & w1 & Ht & He & Hh)].
  - (* the token was ensured *)
    apply bind_returns in Ht as (me & w0 & Hme & Ht). inversion Hme; subst me w0; clear Hme.
    simpl in Ht.
    apply bind_returns in Ht as (t & w1 & Htok & Ht).
    apply bind_returns in Ht as ([] & w3 & Hset & Ht). inversion Hset; subst w3; clear Hset.
    apply bind_returns in Ht as ([] & w3 & Hlog & Ht). inversion Hlog; subst w3; clear Hlog.
    inversion Ht; subst failed w2; clear Ht.
    pose proof (gin_ensure_token_user u p (named u w)) as U. rewrite Htok in U. simpl in U.
    apply bind_returns in H as (me & w0 & Hme & H). inversion Hme; subst me w0; clear Hme.
    simpl in H. rewrite U in H. simpl in H.
    apply bind_returns in H as (good & w4 & Hgood & H).
    unfold and_then in Hgood.
    apply bind_returns in Hgood as (x & w5 & Hk & Hgood).
    apply bind_returns in Hk as (v & w6 & Hk & Hr). inversion Hr; subst x w6; clear Hr.
    match type of Hk with
    | ensure_key _ ?W = _ => pose proof (ensure_key_user t W) as U1
    end.
    rewrite Hk in U1. simpl in U1.
    destruct (ensure_key_value _ _ _ _ Hk) as [-> | ->]; simpl in Hgood.
    + apply bind_returns in Hgood as (v' & w6 & Hd & Hr). inversion Hr; subst; clear Hr.
      match type of Hd with
      | drone_ensure_secrets _ ?W = _ => pose proof (drone_ensure_secrets_user u W) as U2
      end.
      rewrite Hd in U2. simpl in U2.
      pose proof (drone_ensure_secrets_returns_true _ _ _ _ Hd) as ->. simpl in H.
      inversion H; subst; clear H. rewrite U2, U1. simpl.
      split; [reflexivity|]. right. exists t, w1. split; [exact Htok|].
      split; [reflexivity|]. left. split; [reflexivity|]. split; [reflexivity|].
      eexists. split; [|exact Hd]. unfold token_ensured. rewrite U. exact Hk.
    + inversion Hgood; subst; clear Hgood. inversion H; subst; clear H.
      rewrite U1. simpl.
      split; [reflexivity|]. right. exists t, w1. split; [exact Htok|].
      split; [reflexivity|]. right. split; [reflexivity|]. split; [reflexivity|].
      unfold token_ensured. rewrite U. exact Hk.
  - (* gin_ensure_token raised a ServerError *)
    apply bind_raises in Ht as [Ht | (me & w0 & Hme & Ht)]; [discriminate|].
    inversion Hme; subst me w0; clear Hme. simpl in Ht.
    assert (Htok : gin_ensure_token u p (named u w) = (Raise e, w1)).
    { apply bind_raises in Ht as [Ht | (t & w3 & Htok & Ht)]; [exact Ht|].
      apply bind_raises in Ht as [Ht | ([] & w4 & _ & Ht)]; [discriminate|].
      apply bind_raises in Ht as [Ht | ([] & w5 & _ & Ht)]; discriminate. }
    pose proof (gin_ensure_token_user u p (named u w)) as U. rewrite Htok in U. simpl in U.
    apply bind_returns in Hh as ([] & w3 & Hlog & Hh). inversion Hlog; subst w3; clear Hlog.
    inversion Hh; subst failed w2; clear Hh.
    inversion H; subst; clear H. simpl. rewrite U. simpl.
    split; [reflexivity|]. left. exists e, w1. repeat split; try reflexivity; assumption.
Qed.

End Login_answers.

Section Login_errors.
Context {P : Platform}.

(** X3: the git host cannot be reached for the list of tokens.
    [gin_ensure_token] raises the ServerError made from the
    ConnectionError, and POST /auth/login returns that error with status
    500; the user name of the request is in the session, the error is in
    the log, and the one request is all that was sent. *)
Theorem login_answers_500_when_the_git_host_is_unreachable
    (request_json u p : pyval) (w : World) (rest : list (option reply)) :
  getitem request_json "username" = Return u ->
  getitem request_json "password" = Return p ->
  script w = Some Unreachable :: rest ->
  login request_json w
  = (Return (ShownError unreachable, INTERNAL_SERVER_ERROR),
     with_logged (logged w ++ [("critical", Exc unreachable)])%list
       (with_script rest (with_sent (sent w ++ [token_get u p])%list (named u w)))).
Proof.
  intros Hu Hp Hs.
  unfold login, User_login, try_except, bind, lift. rewrite Hu. simpl. rewrite Hp. simpl.
  unfold gin_ensure_token, try_except, bind, requests, exchange. simpl. rewrite Hs. simpl.
  reflexivity.
Qed.

Lemma gin_ensure_token_chokes_on_an_error_object
    (username password v : pyval) (key : string) (d : list (string * pyval))
    (r : response) (w w1 : World) :
  requests (token_get username password) w = (Return r, w1) ->
  body_of r = Decodes (PDict ((key, v) :: d)) ->
  gin_ensure_token username password w = (Raise TypeError, w1).
Proof.
  intros Hr Hb. unfold gin_ensure_token, try_except, bind. rewrite Hr.
  unfold json_of. rewrite Hb. reflexivity.
Qed.

(** X4: the git host answers the request for the tokens with a JSON
    object that is not empty, as it does to refuse the credentials.  The
    loop of [gin_ensure_token] runs over the keys of the object, indexing
    a key raises TypeError, no handler is for it, and TypeError leaves
    the view of POST /auth/login. *)
Theorem login_raises_TypeError_on_an_error_object
    (request_json u p v : pyval) (key : string) (d : list (string * pyval))
    (r : response) (w w1 : World) :
  getitem request_json "username" = Return u ->
  getitem request_json "password" = Return p ->
  requests (token_get u p) (named u w) = (Return r, w1) ->
  body_of r = Decodes (PDict ((key, v) :: d)) ->
  login request_json w = (Raise TypeError, w1).
Proof.
  intros Hu Hp Hr Hb.
  pose proof (gin_ensure_token_chokes_on_an_error_object u p v key d r _ w1 Hr Hb) as H.
  unfold named in H.
  unfold login, User_login, try_except, bind, lift. rewrite Hu. simpl. rewrite Hp. simpl.
  rewrite H. reflexivity.
Qed.

End Login_errors.

Section Skipping.
Context {P : Platform}.

Lemma ensure_repo_secret_skips (repo : pyval) (w : World) :
  inactive repo -> ensure_repo_secret repo w = (Return tt, w).
Proof.
  intros (a & Ha & Hf). unfold ensure_repo_secret, prepare_secret, bind, lift.
  rewrite Ha. simpl. rewrite Hf. reflexivity.
Qed.

Lemma for_each_skips (repos : list pyval) (w : World) :
  Forall inactive repos -> for_each repos ensure_repo_secret w = (Return tt, w).
Proof.
  induction 1 as [|repo repos H _ IH]; simpl; [reflexivity|].
  unfold bind. rewrite (ensure_repo_secret_skips repo w H). exact IH.
Qed.

(** X6: where no repository of the CI host's list is active,
    [drone_ensure_secrets] returns True after the one request for the
    list: it asks for no secrets, opens no key file and writes nothing. *)
Theorem inactive_repositories_are_passed_over
    (user : pyval) (repos : list pyval) (tk : string) (r : response) (w w1 : World) :
  environ w !! "DRONE_TOKEN" = Some tk ->
  requests (repos_request tk) w = (Return r, w1) ->
  body_of r = Decodes (PList repos) ->
  Forall inactive repos ->
  drone_ensure_secrets user w = (Return (PBool true), w1).
Proof.
  intros Henv Hr Hb Hall. unfold drone_ensure_secrets.
  erewrite bind_eq by (unfold environ_get; rewrite Henv; reflexivity).
  erewrite bind_eq by exact Hr.
  erewrite bind_eq by (unfold json_of; rewrite Hb; reflexivity).
  erewrite bind_eq by reflexivity.
  erewrite bind_eq by (apply for_each_skips; exact Hall).
  reflexivity.
Qed.

End Skipping.

Ltac run_step tac := erewrite bind_eq by tac; cbv beta.

Section Creation.
Context {P : Platform}.

Lemma requests_served (req : request) (w : World) :
  script w = [] ->
  requests req w
  = (Return (fst (fst (answer req (gin w) (drone w)))),
     served req (snd (fst (answer req (gin w) (drone w))))
       (snd (answer req (gin w) (drone w))) w).
Proof.
  intros Hs. unfold requests, exchange. simpl. rewrite Hs.
  destruct (answer req (gin w) (drone w)) as [[r g] d]. reflexivity.
Qed.




End Creation.

Section Propagation_works.
Context {P : Platform}.




End Propagation_works.

Section Propagation_top.
Context {P : Platform}.



End Propagation_top.

Section Keys_on_the_host.
Context {P : Platform}.

Lemma answer_keys (m : verb) (token : pyval) (b : payload) (g : Gin) (d : Drone) :
  let req := {| method := m; url := [GIN_ADDR; "/api/v1/user/keys"];
                headers := token_header token; auth := None; body := b |} in
  answer req g d = (fst (gin_keys_route req g), snd (gin_keys_route req g), d).
Proof.
  intros req. unfold answer, gin_answer. simpl. rewrite String.eqb_refl. simpl.
  destruct (gin_keys_route req g). reflexivity.
Qed.

Lemma for_until_titles (l : list key_entry) (w : World) :
  for_until (List.map key_json l)
    (fun key =>
       t ← lift (getitem key "title");
       if py_eq_str t PRIV_KEY then ret (Some (PBool true)) else ret None) w
  = (Return (if has_title l then Some (PBool true) else None), w).
Proof.
  induction l as [|k l IH]; simpl; [reflexivity|].
  unfold bind at 1. unfold bind at 1. unfold lift. simpl.
  fold PRIV_KEY. destruct (String.eqb (key_title k) PRIV_KEY); simpl; [reflexivity|].
  exact IH.
Qed.

Lemma gin_get_keys_run (token : pyval) (o : string) (w : World) :
  script w = [] ->
  token_owner (gin w) token = Some o ->
  gin_get_keys token w
  = (Return (PList (List.map key_json (owned_keys o (gin w)))),
     served (keys_get token) (gin w) (drone w) w).
Proof.
  intros Hs Ho. unfold gin_get_keys.
  run_step ltac:(rewrite (requests_served _ w Hs); unfold keys_get; rewrite answer_keys;
                 fold (keys_get token); unfold gin_keys_route;
                 unfold token_owner in Ho; rewrite Ho; simpl; reflexivity).
  reflexivity.
Qed.

Lemma gin_ensure_key_run (token : pyval) (o : string) (w : World) :
  script w = [] ->
  token_owner (gin w) token = Some o ->
  gin_ensure_key token w
  = (Return (if has_title (owned_keys o (gin w)) then PBool true else PNone),
     served (keys_get token) (gin w) (drone w) w).
Proof.
  intros Hs Ho. unfold gin_ensure_key.
  run_step ltac:(apply gin_get_keys_run; eassumption).
  run_step ltac:(reflexivity).
  run_step ltac:(apply for_until_titles).
  destruct (has_title (owned_keys o (gin w))); reflexivity.
Qed.

End Keys_on_the_host.

Lemma for_until_pure {A B} (xs : list A) (body : A -> M (option B)) (w : World) :
  (forall x w0, snd (body x w0) = w0) -> snd (for_until xs body w) = w.
Proof.
  intros Hb. induction xs as [|x xs IH]; simpl; [reflexivity|].
  unfold bind. specialize (Hb x w). destruct (body x w) as [[[b|]|e] w1]; simpl in *; subst;
    try reflexivity. exact IH.
Qed.

Section In_place.
Context {P : Platform}.

Lemma keys_get_reads_only (token : pyval) (w : World) :
  gin (snd (requests (keys_get token) w)) = gin w /\
  drone (snd (requests (keys_get token) w)) = drone w.
Proof.
  unfold requests, exchange. simpl.
  assert (A : forall rest sentw,
    let w0 := (let '(r, g, d) := answer (keys_get token) (gin w) (drone w) in
               (Answer r, with_hosts g d (with_script rest (with_sent sentw w)))) in
    gin (snd (match fst w0 with
              | Unreachable => (@Raise response ConnectionError, snd w0)
              | Answer r => (Return r, snd w0)
              end)) = gin w /\
    drone (snd (match fst w0 with
                | Unreachable => (@Raise response ConnectionError, snd w0)
                | Answer r => (Return r, snd w0)
                end)) = drone w).
  { intros rest sentw. unfold keys_get. rewrite answer_keys. simpl.
    unfold gin_keys_route. simpl. destruct (token_user _ _); split; reflexivity. }
  destruct (script w) as [|[[|r]|] rest]; simpl; try (split; reflexivity).
  - specialize (A [] (sent w ++ [keys_get token])%list). simpl in A.
    destruct (answer (keys_get token) (gin w) (drone w)) as [[r g] d]. exact A.
  - specialize (A rest (sent w ++ [keys_get token])%list). simpl in A.
    destruct (answer (keys_get token) (gin w) (drone w)) as [[r g] d]. exact A.
Qed.

Lemma gin_ensure_key_world (token : pyval) (w : World) :
  snd (gin_ensure_key token w) = snd (requests (keys_get token) w).
Proof.
  unfold gin_ensure_key, gin_get_keys, bind.
  destruct (requests (keys_get token) w) as [[r|e] w1]; [|reflexivity]. simpl.
  unfold json_of. destruct (body_of r) as [v|t]; [|reflexivity]. simpl.
  unfold lift. destruct (py_iter v) as [items|e]; [|reflexivity].
  match goal with
  | |- context [for_until items ?body w1] =>
      pose proof (for_until_pure items body w1) as Hp;
      destruct (for_until items body w1) as [[[x|]|e] w2]
  end; simpl in *; apply Hp; intros x0 w0; unfold bind, lift;
    destruct (getitem x0 "title") as [t|]; try reflexivity;
    destruct (py_eq_str t PRIV_KEY); reflexivity.
Qed.

(** X8: where the first condition of [ensure_key] holds (a key titled
    gin-proc is on the git host and the private key file is on this
    machine), [ensure_key] returns True and has done nothing but list the
    keys once and write to the log: both hosts and the file system are as
    they were. *)
Theorem ensure_key_only_looks_when_keys_are_in_place (token : pyval) (w w1 : World) :
  keys_in_place token w = (Return true, w1) ->
  ensure_key token w
  = (Return (PBool true),
     with_logged (logged w1 ++ [("debug", Text "Keys ensured both on server and locally.")])%list
       w1) /\
  w1 = snd (requests (keys_get token) w) /\
  gin w1 = gin w /\ drone w1 = drone w /\ fs w1 = fs w /\
  sent w1 = (sent w ++ [keys_get token])%list.
Proof.
  intros H. split.
  - unfold ensure_key, try_except. rewrite (bind_eq _ _ _ _ _ H). reflexivity.
  - assert (E : w1 = snd (requests (keys_get token) w)).
    { rewrite <- gin_ensure_key_world. unfold keys_in_place, and_then, holds in H.
      unfold bind in H. destruct (gin_ensure_key token w) as [[v|e] w2]; [|discriminate].
      simpl in *. destruct (truthy v); [|discriminate].
      unfold proc_ensure_key, os_path_exists in H. inversion H. reflexivity. }
    split; [exact E|]. subst w1.
    destruct (keys_get_reads_only token w) as [G D].
    pose proof (requests_local (keys_get token) w) as L. simpl in L.
    destruct L as (L1 & _ & _ & _ & _ & _ & _ & _ & _ & L10).
    repeat split; assumption.
Qed.

End In_place.

(** From [H : c w = (r, w')], for a step [c] on the local machine, the
    observation [f] of the world is the same in [w'] as in [w]. *)
Ltac kept f H K :=
  match type of H with
  | ?c ?w = (_, ?w') =>
      assert (K : f w' = f w)
        by (let Q := fresh in
            assert (Q : preserves f c) by primitive_step;
            specialize (Q w); rewrite H in Q; exact Q)
  end.

Section Installing.
Context {P : Platform}.

Lemma install_key_on_the_host (ssh_path : path) (token : pyval) (o i : string)
    (rest : list string) (w w' : World) :
  install_key ssh_path token w = (Return tt, w') ->
  script w = [] ->
  token_owner (gin w) token = Some o ->
  has_title (owned_keys o (gin w)) = false ->
  fresh (gin w) = i :: rest ->
  keys (gin w') = (keys (gin w) ++ [stored_key o (fresh_public_key w) i])%list /\
  tokens (gin w') = tokens (gin w) /\ script w' = [].
Proof.
  intros H Hs Ho Hno Hfresh. unfold install_key in H.
  apply bind_returns in H as (key & w0 & Hk & H).
  unfold rsa_generate_private_key in Hk. inversion Hk; subst key w0; clear Hk.
  fold (fresh_key w) in H. fold (fresh_public_key w) in H.
  apply bind_returns in H as ([] & w1 & H1 & H).
  apply bind_returns in H as ([] & w2 & H2 & H).
  apply bind_returns in H as ([] & w3 & H3 & H).
  apply bind_returns in H as ([] & w4 & H4 & H).
  apply bind_returns in H as ([] & w5 & H5 & H).
  apply bind_returns in H as ([] & w6 & H6 & H).
  apply bind_returns in H as (r & w7 & H7 & H).
  unfold log in H. inversion H; subst w'; clear H. simpl.
  kept gin H1 G1. kept gin H2 G2. kept gin H3 G3. kept gin H4 G4. kept gin H5 G5.
  kept gin H6 G6.
  kept script H1 S1. kept script H2 S2. kept script H3 S3. kept script H4 S4.
  kept script H5 S5. kept script H6 S6.
  assert (G : gin w6 = gin w) by (rewrite G6, G5, G4, G3, G2, G1; reflexivity).
  assert (S : script w6 = []) by (rewrite S6, S5, S4, S3, S2, S1; exact Hs).
  rewrite (requests_served _ w6 S) in H7. unfold key_post in H7.
  rewrite answer_keys in H7. fold (key_post token (fresh_public_key w)) in H7.
  unfold gin_keys_route in H7.
  change (token_user (gin w6) (key_post token (fresh_public_key w)))
    with (token_owner (gin w6) token) in H7.
  rewrite G, Ho in H7. simpl in H7. rewrite Hfresh in H7.
  change (existsb _ (owned_keys o (gin w))) with (has_title (owned_keys o (gin w))) in H7.
  rewrite Hno in H7.
  inversion H7; subst. split; [reflexivity|]. split; reflexivity.
Qed.

End Installing.

Section Converging.
Context {P : Platform}.

(** The three conditions of [ensure_key] where the git host has no key
    titled gin-proc for the owner of the token: three listings, and the
    answer of [os.path.exists] for the private key file. *)
Lemma conditions_without_remote_key (token : pyval) (o : string) (w : World) :
  script w = [] ->
  token_owner (gin w) token = Some o ->
  has_title (owned_keys o (gin w)) = false ->
  exists w1 w2 w3,
    keys_in_place token w = (Return false, w1) /\
    and_then (holds (gin_ensure_key token)) (not_ (proc_ensure_key SSH_PATH)) w1
      = (Return false, w2) /\
    and_then (not_ (holds (gin_ensure_key token))) (proc_ensure_key SSH_PATH) w2
      = (Return (bool_decide (is_Some (fs w !! os_path_join SSH_PATH PRIV_KEY))), w3) /\
    gin w3 = gin w /\ script w3 = [] /\ fs w3 = fs w /\ entropy w3 = entropy w.
Proof.
  intros Hs Ho Hno.
  pose (w1 := served (keys_get token) (gin w) (drone w) w).
  pose (w2 := served (keys_get token) (gin w1) (drone w1) w1).
  pose (w3 := served (keys_get token) (gin w2) (drone w2) w2).
  exists w1, w2, w3.
  assert (E1 : gin_ensure_key token w = (Return PNone, w1)).
  { rewrite (gin_ensure_key_run token o w Hs Ho), Hno. reflexivity. }
  assert (E2 : gin_ensure_key token w1 = (Return PNone, w2)).
  { rewrite (gin_ensure_key_run token o w1 eq_refl Ho). simpl gin. rewrite Hno. reflexivity. }
  assert (E3 : gin_ensure_key token w2 = (Return PNone, w3)).
  { rewrite (gin_ensure_key_run token o w2 eq_refl Ho). simpl gin. rewrite Hno. reflexivity. }
  repeat split.
  - unfold keys_in_place, and_then, holds. unfold bind. rewrite E1. reflexivity.
  - unfold and_then, holds. unfold bind. rewrite E2. reflexivity.
  - unfold and_then, holds, not_. unfold bind. rewrite E3. reflexivity.
Qed.

Lemma ensure_key_reaches_install (token v : pyval) (o : string) (w w' : World) :
  script w = [] ->
  token_owner (gin w) token = Some o ->
  has_title (owned_keys o (gin w)) = false ->
  ensure_key token w = (Return v, w') ->
  v = PNone /\
  exists w4,
    install_key SSH_PATH token w4 = (Return tt, w') /\
    gin w4 = gin w /\ script w4 = [] /\ fresh_key w4 = fresh_key w.
Proof.
  intros Hs Ho Hno H.
  destruct (conditions_without_remote_key token o w Hs Ho Hno)
    as (w1 & w2 & w3 & C1 & C2 & C3 & G3 & S3 & F3 & N3).
  unfold ensure_key in H.
  apply try_except_returns in H as [H | (e & wx & _ & _ & H)].
  2:{ apply bind_returns in H as ([] & wy & _ & H). discriminate. }
  rewrite (bind_eq _ _ _ _ _ C1) in H.
  apply bind_returns in H as ([] & w4 & Hbranch & H).
  apply bind_returns in H as ([] & w5 & Hinst & H).
  inversion H; subst v w5; clear H.
  rewrite (bind_eq _ _ _ _ _ C2) in Hbranch.
  rewrite (bind_eq _ _ _ _ _ C3) in Hbranch.
  assert (K : gin w4 = gin w3 /\ script w4 = script w3 /\ entropy w4 = entropy w3).
  { match type of Hbranch with
    | ?c w3 = _ =>
        assert (Q1 : preserves gin c) by frame;
        assert (Q2 : preserves script c) by frame;
        assert (Q3 : preserves entropy c) by frame;
        specialize (Q1 w3); specialize (Q2 w3); specialize (Q3 w3);
        rewrite Hbranch in Q1, Q2, Q3
    end. repeat split; assumption. }
  destruct K as (G4 & S4 & N4).
  split; [reflexivity|]. exists w4. split; [exact Hinst|].
  split; [rewrite G4; exact G3|]. split; [rewrite S4; exact S3|].
  unfold fresh_key. rewrite N4, N3. reflexivity.
Qed.

(** X9: on the reference git host, where the owner of the token has
    no key titled gin-proc: a run of [ensure_key] that returns has
    returned None, the git host has got one more key, which is the public
    key of the fresh pair, and that pair is on this machine, both files
    with mode 0600 in a directory with mode 0700.  This is so whether the
    private key file was there before or not. *)
Theorem ensure_key_installs_where_the_host_has_no_key
    (token v : pyval) (o i : string) (rest : list string) (w w' : World) :
  script w = [] ->
  token_owner (gin w) token = Some o ->
  has_title (owned_keys o (gin w)) = false ->
  fresh (gin w) = i :: rest ->
  ensure_key token w = (Return v, w') ->
  v = PNone /\
  keys (gin w') = (keys (gin w) ++ [stored_key o (fresh_public_key w) i])%list /\
  fs w' !! os_path_join SSH_PATH PUB_KEY = Some (File (fresh_public_key w) o600) /\
  fs w' !! os_path_join SSH_PATH PRIV_KEY
    = Some (File (private_bytes (fresh_key w) Encoding.PEM PrivateFormat.PKCS8 NoEncryption)
              o600) /\
  fs w' !! SSH_PATH = Some (Dir o700).
Proof.
  intros Hs Ho Hno Hfresh H.
  destruct (ensure_key_reaches_install token v o w w' Hs Ho Hno H)
    as (Hv & w4 & Hinst & G4 & S4 & Hkey).
  split; [exact Hv|].
  pose proof (install_key_on_the_host SSH_PATH token o i rest w4 w' Hinst) as Hhost.
  rewrite G4 in Hhost. specialize (Hhost S4 Ho Hno Hfresh).
  destruct Hhost as (Hhost & _ & _).
  unfold fresh_public_key in *. rewrite Hkey in Hhost.
  apply install_key_files in Hinst as (A & B & C & _); [|discriminate].
  rewrite Hkey in B, C. repeat split; assumption.
Qed.

End Converging.

Section Half_removed.
Context {P : Platform}.

(** X10: the private key file is on this machine, the public one is
    not, and the git host has no key titled gin-proc.  [ensure_key]
    removes the private key file, fails to remove the public one, and
    raises "Cannot ensure keys.": no fresh pair is installed, and the
    private key is gone. *)
Theorem ensure_key_loses_the_private_key_when_the_public_one_is_missing
    (token : pyval) (o k : string) (m : Z) (w : World) :
  script w = [] ->
  token_owner (gin w) token = Some o ->
  has_title (owned_keys o (gin w)) = false ->
  fs w !! os_path_join SSH_PATH PRIV_KEY = Some (File k m) ->
  fs w !! os_path_join SSH_PATH PUB_KEY = None ->
  fst (ensure_key token w) = Raise cannot_ensure_keys /\
  fs (snd (ensure_key token w)) = delete (os_path_join SSH_PATH PRIV_KEY) (fs w) /\
  gin (snd (ensure_key token w)) = gin w.
Proof.
  intros Hs Ho Hno Hpriv Hpub.
  destruct (conditions_without_remote_key token o w Hs Ho Hno)
    as (w1 & w2 & w3 & C1 & C2 & C3 & G3 & S3 & F3 & N3).
  rewrite Hpriv in C3. simpl in C3.
  assert (Hpub' : delete (os_path_join SSH_PATH PRIV_KEY) (fs w) !! os_path_join SSH_PATH PUB_KEY
                  = None).
  { rewrite lookup_delete_ne; [exact Hpub|]. apply children_differ. discriminate. }
  pose (gone := with_fs (delete (os_path_join SSH_PATH PRIV_KEY) (fs w))
                 (with_logged (logged w3 ++ [("debug",
                    Text "Key is installed locally but not on the server.")])%list w3)).
  assert (Hinner :
    bind (and_then (holds (gin_ensure_key token)) (not_ (proc_ensure_key SSH_PATH)))
      (fun only_server : bool =>
         if only_server
         then
           log "debug" (Text "Key is installed on the server but not locally.");;
           gin_delete_key token;;
           ret tt
         else
           only_local ← and_then (not_ (holds (gin_ensure_key token)))
                                 (proc_ensure_key SSH_PATH);
           if only_local
           then
             log "debug" (Text "Key is installed locally but not on the server.");;
             os_remove (os_path_join SSH_PATH PRIV_KEY);;
             os_remove (os_path_join SSH_PATH PUB_KEY);;
             log "warning" (Text "Removed local keys.")
           else ret tt) w1
    = (Raise (FileNotFoundError (os_path_join SSH_PATH PUB_KEY)), gone)).
  { rewrite (bind_eq _ _ _ _ _ C2). cbv beta iota.
    rewrite (bind_eq _ _ _ _ _ C3). cbv beta iota.
    unfold bind, log, os_remove. simpl. rewrite F3, Hpriv. simpl. rewrite Hpub'.
    reflexivity. }
  unfold ensure_key, try_except.
  rewrite (bind_eq _ _ _ _ _ C1). cbv beta iota.
  rewrite (bind_raise _ _ _ _ _ Hinner). simpl.
  rewrite G3. repeat split.
Qed.

End Half_removed.

(** ** The views besides login *)

Section View_properties.
Context {P : Platform}.

Lemma requests_lost (req : request) (rest : list (option reply)) (w : World) :
  script w = Some Unreachable :: rest ->
  requests req w = (Raise ConnectionError, lost req rest w).
Proof. intros H. unfold requests, exchange. simpl. rewrite H. reflexivity. Qed.

Lemma for_list_entries (u : string) (repos : list pyval) (names : list string) (w : World) :
  username (user w) = PStr u ->
  Forall2 has_name repos names ->
  for_list repos repo_entry w = (Return (List.map (listed u) names), w).
Proof.
  intros Hu H. induction H as [|repo n repos names Hn _ IH]; [reflexivity|].
  assert (E : repo_entry repo w = (Return (listed u n), w)).
  { unfold has_name in Hn. unfold repo_entry, bind, lift, get_user.
    rewrite Hn, Hu. simpl. rewrite ?Hn. reflexivity. }
  cbn [for_list List.map].
  rewrite (bind_eq _ _ _ _ _ E). rewrite (bind_eq _ _ _ _ _ IH). reflexivity.
Qed.

(** X17: GET /api/repos: where the git host's reply decodes to a list
    of repositories that have names, the view answers 200 with one entry
    for each, in the order of the reply: the name as value and user/name
    as text.  The status of the reply is not looked at, and one request
    is all that happens. *)
Theorem repositories_lists_the_names
    (u : string) (repos : list pyval) (names : list string) (r : response) (w w1 : World) :
  username (user w) = PStr u ->
  requests (user_repos_request (PStr u) (gin_token (user w))) w = (Return r, w1) ->
  body_of r = Decodes (PList repos) ->
  Forall2 has_name repos names ->
  Api.repositories w = (Return (Shown (PList (List.map (listed u) names)), OK), w1).
Proof.
  intros Hu Hr Hb Hall.
  assert (Hu1 : username (user w1) = PStr u).
  { pose proof (requests_user (user_repos_request (PStr u) (gin_token (user w))) w) as Q.
    rewrite Hr in Q. simpl in Q. rewrite Q. exact Hu. }
  assert (G : gin_get_repos (PStr u) (gin_token (user w)) w = (Return (PList repos), w1)).
  { unfold gin_get_repos. rewrite (bind_eq _ _ _ _ _ Hr). unfold json_of. rewrite Hb.
    reflexivity. }
  unfold Api.repositories, User_repos.
  rewrite (bind_eq _ _ w w (user w)) by reflexivity. rewrite Hu.
  rewrite (bind_eq _ _ _ _ _ G).
  rewrite (bind_eq _ _ w1 w1 repos) by reflexivity.
  rewrite (bind_eq _ _ _ _ _ (for_list_entries u repos names w1 Hu1 Hall)).
  reflexivity.
Qed.

(** X19: the views other than login have no handler for a lost
    connection: it leaves GET /auth/user and GET /api/repos as the
    ConnectionError of the requests package, after the one request. *)
Theorem views_let_a_lost_connection_through (rest : list (option reply)) (w : World) :
  script w = Some Unreachable :: rest ->
  Auth.get_user w
    = (Raise ConnectionError, lost (user_request (gin_token (user w))) rest w) /\
  Api.repositories w
    = (Raise ConnectionError,
       lost (user_repos_request (username (user w)) (gin_token (user w))) rest w).
Proof.
  intros H. split.
  - unfold Auth.get_user, User_details, gin_get_user_data, bind, get_user.
    rewrite (requests_lost _ rest w H). reflexivity.
  - unfold Api.repositories, User_repos, gin_get_repos, bind, get_user.
    rewrite (requests_lost _ rest w H). reflexivity.
Qed.

(** X18: GET /api/repos where the git host answers with a JSON object
    that is not empty, as it does to report an error: the loop runs over
    the keys of the object and the view raises TypeError. *)
Theorem repositories_raises_TypeError_on_an_error_object
    (key : string) (v : pyval) (d : list (string * pyval)) (r : response) (w w1 : World) :
  requests (user_repos_request (username (user w)) (gin_token (user w))) w = (Return r, w1) ->
  body_of r = Decodes (PDict ((key, v) :: d)) ->
  Api.repositories w = (Raise TypeError, w1).
Proof.
  intros Hr Hb.
  unfold Api.repositories, User_repos, gin_get_repos, bind, get_user. rewrite Hr.
  unfold json_of. rewrite Hb. reflexivity.
Qed.

Lemma get_user_asks (w : World) :
  sent (snd (Auth.get_user w)) = (sent w ++ [user_request (gin_token (user w))])%list /\
  user (snd (Auth.get_user w)) = user w.
Proof.
  assert (D : User_details w = requests (user_request (gin_token (user w))) w)
    by reflexivity.
  pose proof (requests_local (user_request (gin_token (user w))) w) as L.
  unfold Auth.get_user, bind. rewrite D.
  destruct (requests (user_request (gin_token (user w))) w) as [[res|e] w1]; simpl in L;
    destruct L as (_ & _ & _ & _ & _ & _ & Lu & _ & _ & Ls).
  - unfold json_of, ret, raise.
    destruct (ok res); [destruct (body_of res)|]; split; first [exact Ls | exact Lu].
  - split; [exact Ls | exact Lu].
Qed.

(** X20: logging out does not stop the next view on this machine:
    whatever the session was, GET /auth/user after POST /auth/logout
    sends its request to the git host, with the token None in the
    header, and the session stays empty. *)
Theorem get_user_after_logout_asks_with_the_token_None (w : World) :
  sent (snd ((Auth.logout;; Auth.get_user) w))
  = (sent w ++ [{| method := GET; url := [GIN_ADDR; "/api/v1/user"];
                   headers := [("Authorization", "token None")];
                   auth := None; body := NoBody |}])%list /\
  user (snd ((Auth.logout;; Auth.get_user) w)) = {| username := PNone; gin_token := PNone |}.
Proof.
  pose (w0 := with_user {| username := PNone; gin_token := PNone |} w).
  assert (E : Auth.logout w = (Return (Shown (PStr "logged out"), OK), w0)) by reflexivity.
  rewrite (bind_eq _ _ _ _ _ E).
  destruct (get_user_asks w0) as [A B]. rewrite A, B. split; reflexivity.
Qed.

End View_properties.

(** ** A run of [configure] that returns *)

Lemma lift_returns {A} (r : outcome A) (w w' : World) (a : A) :
  lift r w = (Return a, w') -> r = Return a /\ w' = w.
Proof. unfold lift. intros H. inversion H. split; reflexivity. Qed.

Lemma call_returns (argv : list string) (cwd : option path) (w w' : World) (c : Z) :
  call argv cwd w = (Return c, w') ->
  spawned w' = (spawned w ++ [(argv, cwd)])%list /\ sent w' = sent w.
Proof.
  unfold call. simpl. destruct (procs w) as [|[e|code files] rest]; intros H;
    inversion H; subst; split; reflexivity.
Qed.

Ltac local_step f H K :=
  match type of H with
  | ?c ?w = (_, ?w') =>
      assert (K : f w' = f w)
        by (let Q := fresh in
            assert (Q : preserves f c) by (first [primitive_step | frame]);
            specialize (Q w); rewrite H in Q; exact Q)
  end.

Section Returning_run.
Context {P : Platform}.

Lemma gin_clone_returns (repo author : pyval) (p cp : path) (w w' : World) :
  gin_clone repo author p w = (Return cp, w') ->
  exists a n u,
    author = PStr a /\ getitem repo "name" = Return (PStr n) /\
    getitem repo "clone_url" = Return (PStr u) /\
    cp = os_path_join (os_path_join p a) n /\
    spawned w' = (spawned w ++ [(["git"; "clone"; "--depth=1"; u; path_str cp], None)])%list /\
    sent w' = sent w.
Proof.
  unfold gin_clone. intros H.
  apply bind_returns in H as (name & w1 & H1 & H). apply lift_returns in H1 as [H1 ->].
  apply bind_returns in H as (a & w1 & H2 & H). apply lift_returns in H2 as [H2 ->].
  apply bind_returns in H as (n & w1 & H3 & H). apply lift_returns in H3 as [H3 ->].
  apply bind_returns in H as ([] & w1 & H4 & H).
  apply bind_returns in H as (u0 & w2 & H5 & H). apply lift_returns in H5 as [H5 ->].
  apply bind_returns in H as (u & w2 & H6 & H). apply lift_returns in H6 as [H6 ->].
  apply bind_returns in H as (c & w2 & H7 & H).
  apply bind_returns in H as ([] & w3 & H8 & H).
  inversion H; subst cp w'; clear H.
  destruct author; try discriminate. inversion H2; subst; clear H2.
  destruct name; try discriminate. inversion H3; subst; clear H3.
  destruct u0; try discriminate. inversion H6; subst; clear H6.
  apply call_returns in H7 as [S7 N7].
  local_step spawned H4 S4. local_step sent H4 N4.
  local_step spawned H8 S8. local_step sent H8 N8.
  exists a, n, u. repeat split; try assumption; try reflexivity.
  - rewrite S8, S7, S4. reflexivity.
  - rewrite N8, N7, N4. reflexivity.
Qed.

Lemma push_returns (p : path) (commit_message v : pyval) (w w' : World) :
  push p commit_message w = (Return v, w') ->
  exists m,
    commit_message = PStr m /\
    spawned w' = (spawned w ++ [(["git"; "add"; "."], Some p);
                                (["git"; "commit"; "-m"; m], Some p);
                                (["git"; "push"], Some p)])%list /\
    sent w' = sent w.
Proof.
  unfold push. intros H.
  apply bind_returns in H as (c1 & w1 & H1 & H).
  apply bind_returns in H as (m & w2 & H2 & H). apply lift_returns in H2 as [H2 ->].
  apply bind_returns in H as (c2 & w2 & H3 & H).
  apply bind_returns in H as (c3 & w3 & H4 & H).
  apply bind_returns in H as ([] & w4 & H5 & H).
  inversion H; subst v w'; clear H.
  destruct commit_message; try discriminate. inversion H2; subst; clear H2.
  apply call_returns in H1 as [S1 N1]. apply call_returns in H3 as [S3 N3].
  apply call_returns in H4 as [S4 N4].
  local_step spawned H5 S5. local_step sent H5 N5.
  exists m. split; [reflexivity|]. split.
  - rewrite S5, S4, S3, S1. rewrite <- !app_assoc. reflexivity.
  - rewrite N5, N4, N3, N1. reflexivity.
Qed.

Lemma with_TemporaryDirectory_returns {A} (body : path -> M A) (w w' : World) (a : A) :
  with_TemporaryDirectory body w = (Return a, w') ->
  exists t w1 w2,
    mkdtemp w = (Return t, w1) /\ body t w1 = (Return a, w2) /\
    w' = with_fs (without_tree t (fs w2)) w2.
Proof.
  unfold with_TemporaryDirectory. intros H.
  apply bind_returns in H as (t & w1 & H1 & H).
  destruct (body t w1) as [r w2] eqn:E. inversion H; subst.
  exists t, w1, w2. repeat split; assumption.
Qed.

Lemma drone_enable_repo_returns (repo : pyval) (w w' : World) :
  drone_enable_repo repo w = (Return tt, w') ->
  exists full tk,
    getitem repo "full_name" = Return full /\
    environ w !! "DRONE_TOKEN" = Some tk /\
    sent w' = (sent w ++ [enable_post tk full])%list /\
    spawned w' = spawned w /\ fs w' = fs w.
Proof.
  unfold drone_enable_repo. intros H.
  apply bind_returns in H as (full & w1 & H1 & H). apply lift_returns in H1 as [H1 ->].
  apply bind_returns in H as (tk & w1 & H2 & H).
  unfold environ_get in H2. destruct (environ w !! "DRONE_TOKEN") as [tk'|] eqn:E;
    [|discriminate]. inversion H2; subst tk' w1; clear H2.
  apply bind_returns in H as (res & w2 & H3 & H).
  destruct (negb (status_code res =? OK)); [discriminate|]. inversion H; subst w'; clear H.
  pose proof (requests_local (enable_post tk full) w) as L. rewrite H3 in L. simpl in L.
  destruct L as (L1 & _ & _ & _ & L5 & _ & _ & _ & _ & L10).
  exists full, tk. repeat split; assumption.
Qed.

Lemma drone_write_secret_returns (key : string) (repo v : pyval) (w w' : World) :
  drone_write_secret key repo w = (Return v, w') ->
  exists full tk,
    getitem repo "full_name" = Return full /\
    environ w !! "DRONE_TOKEN" = Some tk /\
    sent w' = (sent w ++ [secret_post tk full key])%list /\
    spawned w' = spawned w /\ fs w' = fs w.
Proof.
  unfold drone_write_secret. intros H.
  apply bind_returns in H as (full & w1 & H1 & H). apply lift_returns in H1 as [H1 ->].
  apply bind_returns in H as (res & w2 & H2 & H).
  apply try_except_returns in H2 as [H2 | (e & w3 & _ & _ & H2)]; [|discriminate].
  apply bind_returns in H2 as (tk & w1 & H2 & H3).
  unfold environ_get in H2. destruct (environ w !! "DRONE_TOKEN") as [tk'|] eqn:E;
    [|discriminate]. inversion H2; subst tk' w1; clear H2.
  pose proof (requests_local (secret_post tk full key) w) as L. rewrite H3 in L. simpl in L.
  destruct L as (L1 & _ & _ & _ & L5 & _ & _ & _ & _ & L10).
  destruct (status_code res =? OK).
  - apply bind_returns in H as ([] & w3 & H4 & H). inversion H; subst v w'; clear H.
    local_step sent H4 N4. local_step spawned H4 S4. local_step fs H4 F4.
    exists full, tk. rewrite N4, S4, F4. repeat split; assumption.
  - apply bind_returns in H as (j & w3 & _ & H).
    apply bind_returns in H as (m & w4 & _ & H).
    apply bind_returns in H as ([] & w5 & _ & H). discriminate.
Qed.

Lemma clone_and_push_returns
    (user_commands output_files input_files commit_message notifications username
       workflow repo : pyval) (w w' : World) :
  clone_and_push user_commands output_files input_files commit_message notifications
    username workflow repo w = (Return tt, w') ->
  exists (t : path) (a n u m : string),
    username = PStr a /\ commit_message = PStr m /\
    spawned w' = (spawned w ++ git_commands u (os_path_join (os_path_join t a) n) m)%list /\
    sent w' = sent w /\ environ w' = environ w.
Proof.
  unfold clone_and_push. intros H3.
  assert (Env : environ w' = environ w).
  { match type of H3 with
    | ?c w = _ => assert (Q : preserves environ c)
                    by (apply with_TemporaryDirectory_environ; intros t; frame);
                  specialize (Q w); rewrite H3 in Q; exact Q
    end. }
  apply with_TemporaryDirectory_returns in H3 as (t & wa & wb & Ht & Hb & ->).
  local_step spawned Ht St. local_step sent Ht Nt.
  apply bind_returns in Hb as (cp & wc & Hc & Hb).
  apply gin_clone_returns in Hc as (a & n & u & -> & _ & _ & -> & Sc & Nc).
  apply bind_returns in Hb as ([] & wd & Hd & Hb).
  assert (Sd : spawned wd = spawned wc).
  { unfold create_drone_file in Hd. local_step spawned Hd K. exact K. }
  assert (Nd : sent wd = sent wc).
  { unfold create_drone_file in Hd. local_step sent Hd K. exact K. }
  apply bind_returns in Hb as (pv & we & He & Hb).
  apply push_returns in He as (m & -> & Se & Ne).
  assert (Sf : spawned wb = spawned we).
  { unfold clean in Hb. local_step spawned Hb K. exact K. }
  assert (Nf : sent wb = sent we).
  { unfold clean in Hb. local_step sent Hb K. exact K. }
  exists t, a, n, u, m. split; [reflexivity|]. split; [reflexivity|]. split; [|split].
  - simpl. rewrite Sf, Se, Sd, Sc, St. unfold git_commands. rewrite <- !app_assoc.
    reflexivity.
  - simpl. rewrite Nf, Ne, Nd, Nc, Nt. reflexivity.
  - exact Env.
Qed.

(** X14: a run of [configure] that returns has started git four times
    and no other program: clone into the path owner/name under a
    temporary directory, then add, commit and push in that path; and it
    has sent three requests: for the metadata to the git host, and to the
    CI host the enabling of the repository and, as the secret, the
    content of the private key file. *)
Theorem configure_starts_git_four_times_and_sends_three_requests
    (repo_name user_commands output_files input_files commit_message notifications
       token username workflow : pyval) (w w' : World) :
  configure repo_name user_commands output_files input_files commit_message
    notifications token username workflow w = (Return tt, w') ->
  exists (t : path) (a n u m tk k : string) (mode : Z) (full : pyval),
    username = PStr a /\ commit_message = PStr m /\
    spawned w' = (spawned w ++ git_commands u (os_path_join (os_path_join t a) n) m)%list /\
    sent w' = (sent w ++ [repo_request username repo_name token;
                          enable_post tk full; secret_post tk full k])%list /\
    fs w' !! os_path_join SSH_PATH PRIV_KEY = Some (File k mode).
Proof.
  unfold configure. intros H.
  apply bind_returns in H as (repo & w1 & H1 & H).
  apply try_except_returns in H1 as [H1 | (e & w0 & _ & _ & H1)].
  2:{ apply bind_returns in H1 as ([] & w2 & _ & H1). discriminate. }
  apply bind_returns in H as ([] & w2 & H2 & H).
  apply bind_returns in H as ([] & w3 & H3 & H).
  apply bind_returns in H as ([] & w4 & H4 & H).
  apply bind_returns in H as (key & w5 & H5 & H).
  apply bind_returns in H as (v & w6 & H6 & H).
  inversion H; subst w'; clear H.
  (* the metadata *)
  pose proof (gin_get_repo_data_world username repo_name token w) as W1.
  rewrite H1 in W1. simpl in W1.
  pose proof (requests_local (repo_request username repo_name token) w) as L.
  rewrite <- W1 in L. simpl in L. destruct L as (_ & _ & _ & _ & S1 & _ & _ & _ & _ & N1).
  (* the environment *)
  local_step spawned H2 S2. local_step sent H2 N2.
  (* the temporary directory *)
  change (clone_and_push user_commands output_files input_files commit_message
            notifications username workflow repo w2 = (Return tt, w3)) in H3.
  apply clone_and_push_returns in H3 as (t & a & n & u & m & -> & -> & S3 & N3 & _).
  (* the CI host *)
  match type of H4 with
  | drone_enable_repo ?r ?W = _ =>
      pose proof (drone_enable_repo_environ r W) as Env4; rewrite H4 in Env4;
      cbn [snd] in Env4
  end.
  apply drone_enable_repo_returns in H4 as (full & tk & F4 & E4 & N4 & S4 & _).
  unfold open_r in H5.
  destruct (fs w4 !! os_path_join SSH_PATH PRIV_KEY) as [[k mode|mode]|] eqn:Ek;
    try discriminate.
  inversion H5; subst key w5; clear H5.
  apply drone_write_secret_returns in H6 as (full' & tk' & F6 & E6 & N6 & S6 & Fs6).
  exists t, a, n, u, m, tk, k, mode, full.
  split; [reflexivity|]. split; [reflexivity|]. split; [|split].
  - rewrite S6, S4, S3, S2, S1. reflexivity.
  - rewrite N6, N4, N3, N2, N1.
    rewrite F4 in F6. inversion F6; subst full'.
    rewrite Env4 in E6. rewrite E4 in E6. inversion E6; subst tk'.
    simpl. rewrite <- !app_assoc. reflexivity.
  - rewrite Fs6. exact Ek.
Qed.

End Returning_run.

(** ** POST /api/execute *)

Section Execute.
Context {P : Platform}.
Variable AttributeError : exn.

Lemma User_run_configures
    (request_json repo_name notifications commit_message workflow : pyval)
    (inputs annex backpush : list (string * pyval)) (w : World) :
  asks_for request_json repo_name notifications commit_message workflow inputs annex
    backpush ->
  User_run AttributeError request_json w
  = try_except
      (configure repo_name
         (PList (List.filter truthy (List.map snd inputs)))
         (PList (List.filter truthy (List.map snd backpush)))
         (PList (List.filter truthy (List.map snd annex)))
         commit_message notifications (gin_token (user w)) (username (user w)) workflow;;
       ret (Shown (PStr ("Success: workflow pushed to " ++ py_str repo_name)), OK))
      is_ServiceError
      (fun e => ret (ShownError e, INTERNAL_SERVER_ERROR)) w.
Proof.
  intros (H1 & H2 & H3 & H4 & H5 & H6 & H7).
  unfold User_run, try_except, bind, lift, get_user, filled, values.
  rewrite H1, H2, H3, H4, H5, H6, H7. reflexivity.
Qed.

(** X15: POST /api/execute where the fetch of the repository's
    metadata raises (no connection, or a reply that is not JSON): the
    view returns the ServiceError made from that exception with status
    500, and nothing has happened but the request and an entry in the
    log. *)
Theorem execute_workflow_reports_a_failed_fetch
    (request_json repo_name notifications commit_message workflow : pyval)
    (inputs annex backpush : list (string * pyval)) (e : exn) (w w1 : World) :
  asks_for request_json repo_name notifications commit_message workflow inputs annex
    backpush ->
  gin_get_repo_data (username (user w)) repo_name (gin_token (user w)) w = (Raise e, w1) ->
  Api.execute_workflow AttributeError request_json w
  = (Return (ShownError (ServiceError e), INTERNAL_SERVER_ERROR),
     with_logged (logged w1 ++ [("error", Exc e)])%list w1) /\
  w1 = snd (requests (repo_request (username (user w)) repo_name (gin_token (user w))) w).
Proof.
  intros Hreq H. split.
  - unfold Api.execute_workflow, try_except.
    rewrite (User_run_configures _ _ _ _ _ _ _ _ _ Hreq).
    unfold try_except, configure, bind, try_except. rewrite H. reflexivity.
  - pose proof (gin_get_repo_data_world (username (user w)) repo_name (gin_token (user w)) w)
      as Q. rewrite H in Q. exact Q.
Qed.

(** X16: POST /api/execute where the CI host answers the enabling of
    the repository with a status other than 200, after the clone, the
    commit and the push have been made: the view aborts with status 500;
    the four git commands have been run and are not undone, and the
    request that was refused is the last one: no secret is sent. *)
Theorem execute_workflow_aborts_after_the_push_when_the_hook_fails
    (request_json repo_name notifications commit_message workflow repo full : pyval)
    (inputs annex backpush : list (string * pyval)) (tk : string) (r : response)
    (w w1 w2 w3 : World) :
  asks_for request_json repo_name notifications commit_message workflow inputs annex
    backpush ->
  gin_get_repo_data (username (user w)) repo_name (gin_token (user w)) w
    = (Return repo, w1) ->
  clone_and_push (PList (List.filter truthy (List.map snd inputs)))
    (PList (List.filter truthy (List.map snd backpush)))
    (PList (List.filter truthy (List.map snd annex)))
    commit_message notifications (username (user w)) workflow repo (git_set_up w1)
    = (Return tt, w2) ->
  getitem repo "full_name" = Return full ->
  environ w !! "DRONE_TOKEN" = Some tk ->
  requests (enable_post tk full) w2 = (Return r, w3) ->
  status_code r <> OK ->
  Api.execute_workflow AttributeError request_json w
    = (Raise (HTTPException (Some INTERNAL_SERVER_ERROR)), w3) /\
  (exists (t : path) (a n u m : string),
     spawned w3
     = (spawned w ++ git_commands u (os_path_join (os_path_join t a) n) m)%list) /\
  sent w3 = (sent w ++ [repo_request (username (user w)) repo_name (gin_token (user w));
                        enable_post tk full])%list.
Proof.
  intros Hreq H1 H2 Hfull Henv H3 Hst.
  pose proof (gin_get_repo_data_world (username (user w)) repo_name (gin_token (user w)) w)
    as W1. rewrite H1 in W1. simpl in W1.
  pose proof (requests_local (repo_request (username (user w)) repo_name
                                (gin_token (user w))) w) as L.
  rewrite <- W1 in L. simpl in L. destruct L as (_ & E1 & _ & _ & S1 & _ & _ & _ & _ & N1).
  destruct (clone_and_push_returns _ _ _ _ _ _ _ _ _ _ H2)
    as (t & a & n & u & m & _ & _ & S2 & N2 & E2).
  pose proof (requests_local (enable_post tk full) w2) as L.
  rewrite H3 in L. simpl in L. destruct L as (_ & _ & _ & _ & S3 & _ & _ & _ & _ & N3).
  assert (Henv2 : environ w2 !! "DRONE_TOKEN" = Some tk).
  { rewrite E2. unfold git_set_up. simpl. rewrite lookup_insert_ne by discriminate.
    rewrite E1. exact Henv. }
  assert (Hhook : drone_enable_repo repo w2
                  = (Raise (ServerError (inl ("Failed to enable hook for " ++ py_str full))
                                        (Some INTERNAL_SERVER_ERROR)), w3)).
  { unfold drone_enable_repo, bind, lift, environ_get. rewrite Hfull, Henv2, H3.
    destruct (status_code r =? OK) eqn:Q; [|reflexivity].
    apply Z.eqb_eq in Q. contradiction. }
  split; [|split].
  - unfold Api.execute_workflow, try_except.
    rewrite (User_run_configures _ _ _ _ _ _ _ _ _ Hreq).
    unfold try_except.
    rewrite (bind_raise _ _ w w3
               (ServerError (inl ("Failed to enable hook for " ++ py_str full))
                            (Some INTERNAL_SERVER_ERROR))); [reflexivity|].
    rewrite (configure_after_step1 _ _ _ _ _ _ _ _ _ w w1 repo H1).
    unfold steps_3_to_8. unfold clone_and_push, git_set_up in H2.
    rewrite (bind_eq _ _ _ _ _ H2). apply bind_raise. exact Hhook.
  - exists t, a, n, u, m. rewrite S3, S2. unfold git_set_up. simpl. rewrite S1. reflexivity.
  - rewrite N3, N2. unfold git_set_up. simpl. rewrite N1. rewrite <- app_assoc. reflexivity.
Qed.

End Execute.

(** ** Deleting the key on the git host *)

Section Deleting.
Context {P : Platform}.

Lemma for_until_skips {B} (pre rest : list pyval) (found : pyval -> M (option B))
    (w : World) :
  Forall other_title pre ->
  for_until (pre ++ rest)
    (fun key =>
       t ← lift (getitem key "title");
       if py_eq_str t PRIV_KEY then found key else ret None) w
  = for_until rest
      (fun key =>
         t ← lift (getitem key "title");
         if py_eq_str t PRIV_KEY then found key else ret None) w.
Proof.
  induction 1 as [|key pre (t & Ht & Hn) _ IH]; [reflexivity|].
  simpl. unfold bind at 1. unfold bind at 1. unfold lift at 1. rewrite Ht, Hn. exact IH.
Qed.

(** X11: where the git host lists no key titled gin-proc,
    [gin_delete_key] returns None, and the listing is the only request
    it sends. *)
Theorem gin_delete_key_sends_nothing_without_such_a_key
    (token : pyval) (l : list pyval) (r : response) (w w1 : World) :
  requests (keys_get token) w = (Return r, w1) ->
  body_of r = Decodes (PList l) ->
  Forall other_title l ->
  gin_delete_key token w = (Return PNone, w1).
Proof.
  intros Hr Hb Hl. rewrite <- (app_nil_r l) in Hb. unfold gin_delete_key, gin_get_keys.
  unfold bind at 1. unfold bind at 1. rewrite Hr. unfold json_of. rewrite Hb.
  unfold ret at 1. unfold bind at 1. unfold lift at 1. cbn [py_iter].
  unfold bind at 1.
  rewrite for_until_skips by exact Hl. reflexivity.
Qed.

(** X12: [gin_delete_key] asks the git host to delete the first key
    titled gin-proc of the listing, at the URL the listing gives for it,
    and no other: it returns True when the answer has status 204, and
    otherwise raises the ServerError with status 503 after logging the
    body of the answer.  The keys listed after that one are not looked
    at. *)
Theorem gin_delete_key_deletes_the_first_key_titled_gin_proc
    (token key u : pyval) (pre post : list pyval) (r r2 : response) (w w1 w2 : World) :
  requests (keys_get token) w = (Return r, w1) ->
  body_of r = Decodes (PList (pre ++ key :: post)) ->
  Forall other_title pre ->
  getitem key "title" = Return (PStr PRIV_KEY) ->
  getitem key "url" = Return u ->
  requests (key_delete token u) w1 = (Return r2, w2) ->
  gin_delete_key token w
  = if status_code r2 =? 204
    then (Return (PBool true),
          with_logged (logged w2 ++ [("warning", Text "Deleted keys from server.")])%list w2)
    else (Raise delete_by_hand,
          with_logged (logged w2 ++ [("error", Body (body_of r2))])%list w2).
Proof.
  intros Hr Hb Hpre Ht Hu Hd. unfold gin_delete_key, gin_get_keys.
  unfold bind at 1. unfold bind at 1. rewrite Hr. unfold json_of. rewrite Hb.
  unfold ret at 1. unfold bind at 1. unfold lift at 1. cbn [py_iter].
  unfold bind at 1.
  rewrite for_until_skips by exact Hpre.
  cbn [for_until]. unfold bind at 1. unfold bind at 1. unfold lift at 1. rewrite Ht.
  cbn [py_eq_str]. rewrite String.eqb_refl.
  unfold bind at 1. unfold lift at 1. rewrite Hu. unfold bind at 1. rewrite Hd.
  destruct (status_code r2 =? 204); reflexivity.
Qed.

End Deleting.

(** ** The answer to the posted key *)

Lemma indifferent_bind {A B} s1 s2 (c : M A) (k : A -> M B) :
  script_blind c -> (forall a, indifferent s1 s2 (k a)) -> indifferent s1 s2 (bind c k).
Proof.
  intros Hc Hk w. unfold bind. rewrite (Hc s1 w), (Hc s2 w).
  destruct (c w) as [[a|e] w']; simpl; [apply Hk|]. split; reflexivity.
Qed.

Ltac blind_step :=
  let s := fresh "s" in
  let w := fresh "w" in
  unfold script_blind, os_makedirs, write_text, os_chmod, rsa_generate_private_key,
    new_mode;
  intros s w; simpl;
  repeat match goal with
         | |- context [match ?x with _ => _ end] => destruct x; simpl
         end;
  reflexivity.

Section Posting.
Context {P : Platform}.

Lemma install_key_indifferent (ssh_path : path) (token : pyval) (r r' : response)
    (rest : list (option reply)) :
  indifferent (Some (Answer r) :: rest) (Some (Answer r') :: rest)
    (install_key ssh_path token).
Proof.
  unfold install_key.
  apply indifferent_bind; [blind_step|]. intros key.
  apply indifferent_bind; [blind_step|]. intros _.
  apply indifferent_bind; [blind_step|]. intros _.
  apply indifferent_bind; [blind_step|]. intros _.
  apply indifferent_bind; [blind_step|]. intros _.
  apply indifferent_bind; [blind_step|]. intros _.
  apply indifferent_bind; [blind_step|]. intros _.
  intros w. split; reflexivity.
Qed.

(** X13: [install_key] does not look at the git host's answer to the
    key it posts: whatever the status and the body of that answer, it
    returns or raises the same, with the same files, the same log and the
    same requests.  A key the host refuses is reported as installed like
    one it accepts. *)
Theorem install_key_does_not_look_at_the_answer
    (ssh_path : path) (token : pyval) (r r' : response) (rest : list (option reply))
    (w : World) :
  let run := install_key ssh_path token (with_script (Some (Answer r) :: rest) w) in
  let run' := install_key ssh_path token (with_script (Some (Answer r') :: rest) w) in
  fst run = fst run' /\ fs (snd run) = fs (snd run') /\ logged (snd run) = logged (snd run') /\
  sent (snd run) = sent (snd run').
Proof.
  intros run run'.
  destruct (install_key_indifferent ssh_path token r r' rest w) as [A B].
  fold run run' in A, B. unfold same_but_script in B.
  split; [exact A|].
  split; [exact (f_equal fs B)|]. split; [exact (f_equal logged B) | exact (f_equal sent B)].
Qed.

End Posting.

(** ** Login when the CI host cannot be reached *)

Section Login_ci.
Context {P : Platform}.

(** X5: the token is ensured and the key pair is in place, and then
    the CI host cannot be reached for the list of repositories.  Nothing
    catches the ConnectionError of [drone_ensure_secrets], and it leaves
    the view of POST /auth/login as it is, where a git host that cannot
    be reached is answered with status 500. *)
Theorem login_raises_ConnectionError_when_the_ci_host_is_unreachable
    (request_json u p t : pyval) (tk : string) (rest : list (option reply))
    (w w1 w2 : World) :
  getitem request_json "username" = Return u ->
  getitem request_json "password" = Return p ->
  gin_ensure_token u p (named u w) = (Return t, w1) ->
  ensure_key t (token_ensured t w1) = (Return (PBool true), w2) ->
  environ w2 !! "DRONE_TOKEN" = Some tk ->
  script w2 = Some Unreachable :: rest ->
  login request_json w = (Raise ConnectionError, lost (repos_request tk) rest w2).
Proof.
  intros Hu Hp Ht Hk Henv Hs.
  pose proof (gin_ensure_token_user u p (named u w)) as U. rewrite Ht in U. simpl in U.
  assert (Hd : drone_ensure_secrets u w2
               = (Raise ConnectionError, lost (repos_request tk) rest w2)).
  { unfold drone_ensure_secrets.
    erewrite bind_eq by (unfold environ_get; rewrite Henv; reflexivity).
    apply bind_raise. apply requests_lost. exact Hs. }
  unfold token_ensured in Hk. rewrite U in Hk. simpl in Hk.
  unfold named in Ht.
  unfold login, User_login, try_except, bind, lift. rewrite Hu. simpl. rewrite Hp. simpl.
  rewrite Ht. simpl. rewrite U. simpl.
  unfold and_then, holds, bind. rewrite Hk. simpl. rewrite Hd. reflexivity.
Qed.

End Login_ci.

(** ** The second call of [ensure_key] *)

Section Second_call.
Context {P : Platform}.

Lemma has_title_app (l1 l2 : list key_entry) :
  has_title (l1 ++ l2) = has_title l1 || has_title l2.
Proof. unfold has_title. apply existsb_app. Qed.

(** X21: on the reference git host, where the owner of the token has
    no key titled gin-proc, a call of [ensure_key] that returns (with
    None, after installing a fresh pair) leaves a state in which the next
    call returns True and installs nothing: the second call leaves both
    hosts and the file system as the first call left them.  It takes two
    calls for [ensure_key] to report the keys as ensured. *)
Theorem ensure_key_returns_True_the_second_time
    (token v : pyval) (o i : string) (rest : list string) (w w' : World) :
  script w = [] ->
  token_owner (gin w) token = Some o ->
  has_title (owned_keys o (gin w)) = false ->
  fresh (gin w) = i :: rest ->
  ensure_key token w = (Return v, w') ->
  v = PNone /\
  exists w'',
    ensure_key token w' = (Return (PBool true), w'') /\
    gin w'' = gin w' /\ drone w'' = drone w' /\ fs w'' = fs w'.
Proof.
  intros Hs Ho Hno Hfresh H.
  destruct (ensure_key_reaches_install token v o w w' Hs Ho Hno H)
    as (Hv & w4 & Hinst & G4 & S4 & Hkey).
  split; [exact Hv|].
  pose proof (install_key_on_the_host SSH_PATH token o i rest w4 w' Hinst) as Hhost.
  rewrite G4 in Hhost. specialize (Hhost S4 Ho Hno Hfresh).
  destruct Hhost as (Hkeys & Htok & Hs').
  apply install_key_files in Hinst as (_ & Hpriv & _ & _); [|discriminate].
  assert (Ho' : token_owner (gin w') token = Some o).
  { unfold token_owner, token_user in *. rewrite Htok. exact Ho. }
  assert (Hyes : has_title (owned_keys o (gin w')) = true).
  { unfold owned_keys. rewrite Hkeys, List.filter_app, has_title_app.
    apply orb_true_iff. right. simpl. rewrite String.eqb_refl. reflexivity. }
  pose (w1 := served (keys_get token) (gin w') (drone w') w').
  assert (E : gin_ensure_key token w' = (Return (PBool true), w1)).
  { rewrite (gin_ensure_key_run token o w' Hs' Ho'), Hyes. reflexivity. }
  assert (K : keys_in_place token w' = (Return true, w1)).
  { unfold keys_in_place, and_then, holds. unfold bind. rewrite E. simpl.
    unfold proc_ensure_key, os_path_exists. simpl. rewrite Hpriv.
    rewrite bool_decide_eq_true_2 by (eexists; reflexivity). reflexivity. }
  eexists. split.
  - unfold ensure_key, try_except. fold (keys_in_place token).
    rewrite (bind_eq _ _ _ _ _ K). reflexivity.
  - split; [|split]; reflexivity.
Qed.

End Second_call.

(** ** The key is on the git host and not on this machine *)

Section Replacing.
Context {P : Platform}.

Lemma remove_key_here (o : string) (a : list key_entry) (k : key_entry) (b : list key_entry) :
  key_owner k = o ->
  Forall (fun k' => key_url k' <> key_url k) a ->
  remove_key o (key_url k) (a ++ k :: b) = Some (a ++ b)%list.
Proof.
  intros Ho Ha. induction Ha as [|k' a Hk' _ IH]; simpl.
  - rewrite Ho, !String.eqb_refl. reflexivity.
  - apply String.eqb_neq in Hk'. rewrite Hk', andb_false_r, IH. reflexivity.
Qed.

Lemma titles_differ (l : list key_entry) :
  has_title l = false -> Forall other_title (List.map key_json l).
Proof.
  induction l as [|k l IH]; intros H; [constructor|].
  unfold has_title in H. simpl in H. apply orb_false_elim in H as [Hk Hl].
  constructor; [|apply IH, Hl].
  exists (PStr (key_title k)). split; [reflexivity|]. exact Hk.
Qed.

Lemma keys_of_split (o : string) (a : list key_entry) (k : key_entry) (b : list key_entry) :
  key_owner k = o ->
  keys_of o (a ++ k :: b) = (keys_of o a ++ k :: keys_of o b)%list.
Proof.
  intros Ho. unfold keys_of. rewrite List.filter_app. simpl.
  rewrite Ho, String.eqb_refl. reflexivity.
Qed.

Lemma answer_key_delete (token : pyval) (u : string) (g : Gin) (d : Drone) :
  existsb (fun k => String.eqb (key_url k) u) (keys g) = true ->
  answer (key_delete token (PStr u)) g d
  = (fst (gin_key_route u (key_delete token (PStr u)) g),
     snd (gin_key_route u (key_delete token (PStr u)) g), d).
Proof.
  intros H. unfold answer, gin_answer. simpl. rewrite H.
  destruct (gin_key_route u _ g). reflexivity.
Qed.

(** [gin_delete_key] on the reference git host. *)
Lemma gin_delete_key_run (token : pyval) (o : string) (a : list key_entry) (k : key_entry)
    (b : list key_entry) (w : World) :
  script w = [] ->
  token_owner (gin w) token = Some o ->
  keys (gin w) = (a ++ k :: b)%list ->
  the_one_key o a k b ->
  exists w',
    gin_delete_key token w = (Return (PBool true), w') /\
    gin w' = with_keys (a ++ b) (fresh (gin w)) (gin w) /\
    script w' = [] /\ fs w' = fs w /\ entropy w' = entropy w.
Proof.
  intros Hs Ho Hk (Hown & Htitle & Ha & _ & Hurl).
  pose (w1 := served (keys_get token) (gin w) (drone w) w).
  assert (Hex : existsb (fun k' => String.eqb (key_url k') (key_url k)) (keys (gin w1)) = true).
  { simpl. rewrite Hk, existsb_app. simpl. rewrite String.eqb_refl.
    rewrite orb_true_r. reflexivity. }
  assert (Hd : requests (key_delete token (PStr (key_url k))) w1
               = (Return {| status_code := 204; body_of := Plain "" |},
                  served (key_delete token (PStr (key_url k)))
                    (with_keys (a ++ b) (fresh (gin w)) (gin w)) (drone w) w1)).
  { rewrite (requests_served _ w1 eq_refl). rewrite (answer_key_delete _ _ _ _ Hex).
    unfold gin_key_route.
    change (token_user (gin w1) (key_delete token (PStr (key_url k))))
      with (token_owner (gin w) token).
    rewrite Ho. simpl. rewrite Hk, (remove_key_here o a k b Hown Hurl). reflexivity. }
  eexists. split.
  - unfold gin_delete_key.
    run_step ltac:(apply gin_get_keys_run; eassumption).
    run_step ltac:(reflexivity).
    change (owned_keys o (gin w)) with (keys_of o (keys (gin w))).
    rewrite Hk, (keys_of_split o a k b Hown), List.map_app.
    fold w1.
    unfold bind at 1.
    rewrite for_until_skips by (apply titles_differ; exact Ha).
    cbn [for_until List.map]. unfold bind at 1. unfold bind at 1. unfold lift at 1.
    cbn [getitem key_json lookup_item String.eqb Ascii.eqb Bool.eqb]. cbn [py_eq_str].
    rewrite Htitle, String.eqb_refl.
    unfold bind at 1. unfold lift at 1.
    cbn [getitem key_json lookup_item String.eqb Ascii.eqb Bool.eqb].
    unfold bind at 1. rewrite Hd. reflexivity.
  - split; [reflexivity|]. split; [reflexivity|]. split; reflexivity.
Qed.

Lemma conditions_with_remote_key (token : pyval) (o : string) (w : World) :
  script w = [] ->
  token_owner (gin w) token = Some o ->
  has_title (owned_keys o (gin w)) = true ->
  fs w !! os_path_join SSH_PATH PRIV_KEY = None ->
  exists w1 w2,
    keys_in_place token w = (Return false, w1) /\
    and_then (holds (gin_ensure_key token)) (not_ (proc_ensure_key SSH_PATH)) w1
      = (Return true, w2) /\
    gin w2 = gin w /\ script w2 = [] /\ fs w2 = fs w /\ entropy w2 = entropy w.
Proof.
  intros Hs Ho Hyes Hpriv.
  pose (w1 := served (keys_get token) (gin w) (drone w) w).
  pose (w2 := served (keys_get token) (gin w1) (drone w1) w1).
  exists w1, w2.
  assert (E1 : gin_ensure_key token w = (Return (PBool true), w1)).
  { rewrite (gin_ensure_key_run token o w Hs Ho), Hyes. reflexivity. }
  assert (E2 : gin_ensure_key token w1 = (Return (PBool true), w2)).
  { rewrite (gin_ensure_key_run token o w1 eq_refl Ho). simpl gin. rewrite Hyes.
    reflexivity. }
  assert (Hno : bool_decide (is_Some (fs w !! os_path_join SSH_PATH PRIV_KEY)) = false).
  { rewrite Hpriv. apply bool_decide_eq_false_2. intros [x Hx]. discriminate Hx. }
  split; [|split; [|repeat split]].
  - unfold keys_in_place, and_then, holds. unfold bind. rewrite E1. simpl.
    unfold proc_ensure_key, os_path_exists. simpl. rewrite Hno. reflexivity.
  - unfold and_then, holds, not_. unfold bind. rewrite E2. simpl.
    unfold proc_ensure_key, os_path_exists. simpl. rewrite Hno. reflexivity.
Qed.

(** X22: on the reference git host, where the owner of the token has
    one key titled gin-proc and the private key file is not on this
    machine: a run of [ensure_key] that returns has returned None; the
    git host's key titled gin-proc is deleted and the public key of the
    fresh pair is stored instead, the other keys being as they were; and
    the fresh pair is on this machine, both files with mode 0600 in a
    directory with mode 0700. *)
Theorem ensure_key_replaces_the_key_on_the_host
    (token v : pyval) (o i : string) (rest : list string) (a b : list key_entry)
    (k : key_entry) (w w' : World) :
  script w = [] ->
  token_owner (gin w) token = Some o ->
  keys (gin w) = (a ++ k :: b)%list ->
  the_one_key o a k b ->
  fs w !! os_path_join SSH_PATH PRIV_KEY = None ->
  fresh (gin w) = i :: rest ->
  ensure_key token w = (Return v, w') ->
  v = PNone /\
  keys (gin w') = (a ++ b ++ [stored_key o (fresh_public_key w) i])%list /\
  fs w' !! os_path_join SSH_PATH PUB_KEY = Some (File (fresh_public_key w) o600) /\
  fs w' !! os_path_join SSH_PATH PRIV_KEY
    = Some (File (private_bytes (fresh_key w) Encoding.PEM PrivateFormat.PKCS8 NoEncryption)
              o600) /\
  fs w' !! SSH_PATH = Some (Dir o700).
Proof.
  intros Hs Ho Hk Hone Hpriv Hfresh H.
  assert (Hyes : has_title (owned_keys o (gin w)) = true).
  { destruct Hone as (Hown & Htitle & _).
    change (owned_keys o (gin w)) with (keys_of o (keys (gin w))).
    rewrite Hk, (keys_of_split o a k b Hown). unfold has_title. rewrite existsb_app.
    simpl. fold PRIV_KEY. rewrite Htitle, String.eqb_refl. simpl. apply orb_true_r. }
  destruct (conditions_with_remote_key token o w Hs Ho Hyes Hpriv)
    as (w1 & w2 & C1 & C2 & G2 & S2 & F2 & N2).
  unfold ensure_key in H.
  apply try_except_returns in H as [H | (e & wx & _ & _ & H)].
  2:{ apply bind_returns in H as ([] & wy & _ & H). discriminate. }
  rewrite (bind_eq _ _ _ _ _ C1) in H.
  apply bind_returns in H as ([] & w4 & Hbranch & H).
  apply bind_returns in H as ([] & w5 & Hinst & H).
  inversion H; subst v w5; clear H.
  rewrite (bind_eq _ _ _ _ _ C2) in Hbranch.
  apply bind_returns in Hbranch as ([] & w3 & Hlog & Hbranch).
  unfold log in Hlog. inversion Hlog; subst w3; clear Hlog.
  apply bind_returns in Hbranch as (x & w3 & Hdel & Hbranch).
  inversion Hbranch; subst w4; clear Hbranch.
  match type of Hdel with
  | gin_delete_key token ?W = _ =>
      destruct (gin_delete_key_run token o a k b W) as (wd & Ed & Gd & Sd & Fd & Nd);
        [exact S2 | simpl; rewrite G2; exact Ho | simpl; rewrite G2; exact Hk | exact Hone |]
  end.
  rewrite Ed in Hdel. inversion Hdel; subst x w3; clear Hdel.
  simpl in Gd, Fd, Nd. rewrite G2 in Gd.
  assert (Hkey : fresh_key wd = fresh_key w).
  { unfold fresh_key. rewrite Nd, N2. reflexivity. }
  assert (Ho' : token_owner (gin wd) token = Some o).
  { rewrite Gd. exact Ho. }
  assert (Hno : has_title (owned_keys o (gin wd)) = false).
  { rewrite Gd. destruct Hone as (_ & _ & Ha & Hb & _).
    change (has_title (keys_of o (a ++ b)) = false). unfold keys_of.
    rewrite List.filter_app. unfold has_title. rewrite existsb_app.
    apply orb_false_iff. split; [exact Ha | exact Hb]. }
  assert (Hfresh' : fresh (gin wd) = i :: rest).
  { rewrite Gd. exact Hfresh. }
  split; [reflexivity|].
  pose proof (install_key_on_the_host SSH_PATH token o i rest wd w' Hinst Sd Ho' Hno Hfresh')
    as (Hhost & _ & _).
  unfold fresh_public_key in *. rewrite Hkey, Gd in Hhost. simpl in Hhost.
  rewrite <- app_assoc in Hhost.
  apply install_key_files in Hinst as (A & B & C & _); [|discriminate].
  rewrite Hkey in B, C. repeat split; assumption.
Qed.

End Replacing.

(** ** Metadata without a name *)

Section Nameless.
Context {P : Platform}.
Variable AttributeError : exn.

Lemma getitem_raises (v : pyval) (k : string) (e : exn) :
  getitem v k = Raise e -> e = KeyError k \/ e = TypeError.
Proof.
  unfold getitem. destruct v; try (intros H; inversion H; right; reflexivity).
  destruct (lookup_item k d); intros H; inversion H. left. reflexivity.
Qed.

(** X23: POST /api/execute where the git host answers the request for
    the metadata with JSON that has no 'name' to give, as an error
    object has none: step 1 of [configure] has not failed, the
    environment is set, a temporary directory is made and removed, and
    the KeyError or TypeError of [gin_clone] leaves the view, which has
    handlers for ServiceError and ServerError only.  No program was
    started and no request was sent after the fetch. *)
Theorem execute_workflow_raises_on_metadata_without_a_name
    (request_json repo_name notifications commit_message workflow repo : pyval)
    (inputs annex backpush : list (string * pyval)) (e : exn) (t : path)
    (rest : list path) (w w1 : World) :
  asks_for request_json repo_name notifications commit_message workflow inputs annex
    backpush ->
  gin_get_repo_data (username (user w)) repo_name (gin_token (user w)) w
    = (Return repo, w1) ->
  getitem repo "name" = Raise e ->
  pick_free (tmp_names w1) (fs w1) = Some (t, rest) ->
  let run := Api.execute_workflow AttributeError request_json w in
  fst run = Raise e /\
  spawned (snd run) = spawned w /\
  sent (snd run)
  = (sent w ++ [repo_request (username (user w)) repo_name (gin_token (user w))])%list /\
  environ (snd run) = <["GIT_SSH_COMMAND" := GIT_SSH_COMMAND]> (environ w) /\
  fs (snd run) !! t = None.
Proof.
  intros Hreq H1 Hname Hpick run.
  pose proof (gin_get_repo_data_world (username (user w)) repo_name (gin_token (user w)) w)
    as W1. rewrite H1 in W1. simpl in W1.
  pose proof (requests_local (repo_request (username (user w)) repo_name
                                (gin_token (user w))) w) as L.
  rewrite <- W1 in L. simpl in L. destruct L as (_ & E1 & _ & _ & S1 & _ & _ & _ & _ & N1).
  pose (w2 := with_tmp_names rest (with_fs (<[t := Dir o700]> (fs w1)) (git_set_up w1))).
  pose (w3 := with_fs (without_tree t (fs w2)) w2).
  assert (Hc : configure repo_name
                 (PList (List.filter truthy (List.map snd inputs)))
                 (PList (List.filter truthy (List.map snd backpush)))
                 (PList (List.filter truthy (List.map snd annex)))
                 commit_message notifications (gin_token (user w)) (username (user w))
                 workflow w
               = (Raise e, w3)).
  { rewrite (configure_after_step1 _ _ _ _ _ _ _ _ _ w w1 repo H1).
    unfold steps_3_to_8. apply bind_raise.
    unfold with_TemporaryDirectory, bind, mkdtemp. simpl. rewrite Hpick.
    unfold gin_clone, bind, lift. rewrite Hname. reflexivity. }
  assert (Hrun : run = (Raise e, w3)).
  { unfold run, Api.execute_workflow, try_except.
    rewrite (User_run_configures _ _ _ _ _ _ _ _ _ _ Hreq).
    unfold try_except. rewrite (bind_raise _ _ _ _ _ Hc).
    destruct (getitem_raises _ _ _ Hname) as [-> | ->]; reflexivity. }
  rewrite Hrun. simpl.
  split; [reflexivity|]. split; [exact S1|]. split; [exact N1|].
  split; [rewrite E1; reflexivity|].
  apply without_tree_gone, under_refl.
Qed.

End Nameless.

(** ** The properties above on the installation of [Demo] *)

Section Cases_at_work.
Import Demo Cases.
#[local] Existing Instance demo.

(** For AttributeError, which the requests of these cases do not raise. *)
Local Abbreviation attribute_error := (OSError "AttributeError").

(** A first login with good credentials is answered with 401. *)
Lemma login_answers_witness :
  exists u p,
    getitem credentials "username" = Return u /\
    getitem credentials "password" = Return p /\
    username (user (snd (login credentials first_login))) = u.
Proof.
  destruct (login_answers credentials first_login (snd (login credentials first_login))
              (Shown (PStr "login failed")) 401) as (u & p & A & B & C & _).
  - vm_compute. reflexivity.
  - exists u, p. split; [exact A|]. split; [exact B | exact C].
Defined.

Lemma login_answers_500_when_the_git_host_is_unreachable_witness :
  fst (login credentials (scripted [Some Unreachable] first_login))
  = Return (ShownError unreachable, 500).
Proof.
  rewrite (login_answers_500_when_the_git_host_is_unreachable credentials
             (PStr "alice") (PStr "secret") (scripted [Some Unreachable] first_login) []
             eq_refl eq_refl eq_refl).
  reflexivity.
Defined.

(** A wrong password: the git host answers 401 with a message. *)
Lemma login_raises_TypeError_on_an_error_object_witness :
  fst (login wrong_password first_login) = Raise TypeError.
Proof.
  pose (w1 := snd (requests (token_get (PStr "alice") (PStr "guess"))
                     (named (PStr "alice") first_login))).
  rewrite (login_raises_TypeError_on_an_error_object wrong_password
             (PStr "alice") (PStr "guess") (PStr "Unauthorized") "message" []
             (message 401 "Unauthorized") first_login w1).
  - reflexivity.
  - reflexivity.
  - reflexivity.
  - vm_compute. reflexivity.
  - reflexivity.
Defined.

Lemma login_raises_ConnectionError_when_the_ci_host_is_unreachable_witness :
  fst (login credentials (scripted [None; None; Some Unreachable] (has_secret_already Refuse)))
  = Raise ConnectionError.
Proof.
  pose (w := scripted [None; None; Some Unreachable] (has_secret_already Refuse)).
  pose (w1 := snd (gin_ensure_token (PStr "alice") (PStr "secret") (named (PStr "alice") w))).
  pose (w2 := snd (ensure_key (PStr "5ha1") (token_ensured (PStr "5ha1") w1))).
  rewrite (login_raises_ConnectionError_when_the_ci_host_is_unreachable credentials
             (PStr "alice") (PStr "secret") (PStr "5ha1") "dr0ne" [] w w1 w2).
  - reflexivity.
  - reflexivity.
  - reflexivity.
  - vm_compute. reflexivity.
  - vm_compute. reflexivity.
  - vm_compute. reflexivity.
  - vm_compute. reflexivity.
Defined.

Lemma inactive_repositories_are_passed_over_witness :
  drone_ensure_secrets (PStr "alice") nothing_active
  = (Return (PBool true), snd (requests (repos_request "dr0ne") nothing_active)).
Proof.
  apply (inactive_repositories_are_passed_over (PStr "alice")
           [ci_repo "alice/proj" "proj" false] "dr0ne"
           (json_reply 200 (PList [ci_repo "alice/proj" "proj" false]))).
  - vm_compute. reflexivity.
  - vm_compute. reflexivity.
  - reflexivity.
  - constructor; [|constructor]. exists (PBool false). split; reflexivity.
Defined.


Lemma ensure_key_only_looks_when_keys_are_in_place_witness :
  fst (ensure_key (PStr "5ha1") (key_state true true)) = Return (PBool true) /\
  gin (snd (keys_in_place (PStr "5ha1") (key_state true true))) = gin (key_state true true).
Proof.
  destruct (ensure_key_only_looks_when_keys_are_in_place (PStr "5ha1") (key_state true true)
              (snd (keys_in_place (PStr "5ha1") (key_state true true))))
    as (A & _ & G & _).
  - vm_compute. reflexivity.
  - split; [rewrite A; reflexivity | exact G].
Defined.

(** The key is on this machine and not on the git host. *)
Lemma ensure_key_installs_where_the_host_has_no_key_witness :
  let w' := snd (ensure_key (PStr "5ha1") (key_state true false)) in
  keys (gin w')
  = [stored_key "alice" (fresh_public_key (key_state true false)) "f1"] /\
  fs w' !! os_path_join SSH_PATH PUB_KEY
  = Some (File (fresh_public_key (key_state true false)) o600).
Proof.
  intros w'.
  destruct (ensure_key_installs_where_the_host_has_no_key (PStr "5ha1") PNone "alice" "f1"
              ["f2"; "f3"] (key_state true false) w') as (_ & A & B & _).
  - reflexivity.
  - vm_compute. reflexivity.
  - vm_compute. reflexivity.
  - reflexivity.
  - vm_compute. reflexivity.
  - split; [exact A | exact B].
Defined.

Lemma ensure_key_loses_the_private_key_when_the_public_one_is_missing_witness :
  fst (ensure_key (PStr "5ha1") half_a_pair) = Raise cannot_ensure_keys /\
  fs (snd (ensure_key (PStr "5ha1") half_a_pair))
  = delete (os_path_join SSH_PATH PRIV_KEY) (fs half_a_pair).
Proof.
  destruct (ensure_key_loses_the_private_key_when_the_public_one_is_missing (PStr "5ha1")
              "alice" "PRIVATE KEY 0" 384 half_a_pair) as (A & B & _).
  - reflexivity.
  - vm_compute. reflexivity.
  - vm_compute. reflexivity.
  - vm_compute. reflexivity.
  - vm_compute. reflexivity.
  - split; [exact A | exact B].
Defined.

Lemma gin_delete_key_sends_nothing_without_such_a_key_witness :
  gin_delete_key (PStr "5ha1") other_keys
  = (Return PNone, snd (requests (keys_get (PStr "5ha1")) other_keys)).
Proof.
  apply (gin_delete_key_sends_nothing_without_such_a_key (PStr "5ha1")
           [key_json laptop_key] (json_reply 200 (PList [key_json laptop_key]))).
  - vm_compute. reflexivity.
  - reflexivity.
  - constructor; [|constructor]. exists (PStr "laptop"). split; reflexivity.
Defined.

Lemma gin_delete_key_deletes_the_first_key_titled_gin_proc_witness :
  fst (gin_delete_key (PStr "5ha1") both_keys) = Return (PBool true).
Proof.
  pose (w1 := snd (requests (keys_get (PStr "5ha1")) both_keys)).
  pose (w2 := snd (requests (key_delete (PStr "5ha1") (PStr (key_url old_key))) w1)).
  rewrite (gin_delete_key_deletes_the_first_key_titled_gin_proc (PStr "5ha1")
             (key_json old_key) (PStr (key_url old_key)) [key_json laptop_key] []
             (json_reply 200 (PList [key_json laptop_key; key_json old_key]))
             {| status_code := 204; body_of := Plain "" |} both_keys w1 w2).
  - reflexivity.
  - vm_compute. reflexivity.
  - reflexivity.
  - constructor; [|constructor]. exists (PStr "laptop"). split; reflexivity.
  - reflexivity.
  - reflexivity.
  - vm_compute. reflexivity.
Defined.

Lemma configure_starts_git_four_times_and_sends_three_requests_witness :
  exists (t : path) (a n u m tk k : string) (mode : Z) (full : pyval),
    PStr "alice" = PStr a /\ PStr "add workflow" = PStr m /\
    spawned (snd (workflow "proj" ready))
    = (spawned ready ++ git_commands u (os_path_join (os_path_join t a) n) m)%list /\
    sent (snd (workflow "proj" ready))
    = (sent ready ++ [repo_request (PStr "alice") (PStr "proj") (PStr "5ha1");
                      enable_post tk full; secret_post tk full k])%list /\
    fs (snd (workflow "proj" ready)) !! os_path_join SSH_PATH PRIV_KEY = Some (File k mode).
Proof.
  apply (configure_starts_git_four_times_and_sends_three_requests
           (PStr "proj") (PList []) (PList []) (PList []) (PStr "add workflow") (PList [])
           (PStr "5ha1") (PStr "alice") (PStr "wf1") ready).
  vm_compute. reflexivity.
Defined.

(** The repository "nope" is unknown to the git host. *)
Lemma execute_workflow_reports_a_failed_fetch_witness :
  fst (Api.execute_workflow attribute_error (execute_request "nope") (logged_in ready))
  = Return (ShownError (ServiceError JSONDecodeError), 500).
Proof.
  destruct (execute_workflow_reports_a_failed_fetch attribute_error
              (execute_request "nope") (PStr "nope") (PList []) (PStr "add workflow")
              (PStr "wf1") [("0", PStr "make"); ("1", PStr "")] []
              [("0", PStr "out.txt")] JSONDecodeError (logged_in ready)
              (snd (gin_get_repo_data (PStr "alice") (PStr "nope") (PStr "5ha1")
                      (logged_in ready)))) as [A _].
  - unfold asks_for. repeat split.
  - vm_compute. reflexivity.
  - rewrite A. reflexivity.
Defined.

(** The CI host answers the enabling of the repository with 500. *)
Lemma execute_workflow_aborts_after_the_push_when_the_hook_fails_witness :
  fst (Api.execute_workflow attribute_error (execute_request "proj")
         (scripted [None; Some (Answer (message 500 "no hook"))] (logged_in ready)))
  = Raise (HTTPException (Some 500)).
Proof.
  pose (w := scripted [None; Some (Answer (message 500 "no hook"))] (logged_in ready)).
  pose (w1 := snd (gin_get_repo_data (PStr "alice") (PStr "proj") (PStr "5ha1") w)).
  pose (w2 := snd (clone_and_push (PList [PStr "make"]) (PList [PStr "out.txt"]) (PList [])
                     (PStr "add workflow") (PList []) (PStr "alice") (PStr "wf1") proj
                     (git_set_up w1))).
  pose (w3 := snd (requests (enable_post "dr0ne" (PStr "alice/proj")) w2)).
  destruct (execute_workflow_aborts_after_the_push_when_the_hook_fails attribute_error
              (execute_request "proj") (PStr "proj") (PList []) (PStr "add workflow")
              (PStr "wf1") proj (PStr "alice/proj") [("0", PStr "make"); ("1", PStr "")] []
              [("0", PStr "out.txt")] "dr0ne" (message 500 "no hook") w w1 w2 w3)
    as [A _].
  - unfold asks_for. repeat split.
  - vm_compute. reflexivity.
  - vm_compute. reflexivity.
  - reflexivity.
  - vm_compute. reflexivity.
  - vm_compute. reflexivity.
  - vm_compute. discriminate.
  - fold w. rewrite A. reflexivity.
Defined.

Lemma repositories_lists_the_names_witness :
  fst (Api.repositories
         (scripted [Some (Answer (json_reply 200 (PList [proj])))] (logged_in ready)))
  = Return (Shown (PList [listed "alice" "proj"]), 200).
Proof.
  pose (w := scripted [Some (Answer (json_reply 200 (PList [proj])))] (logged_in ready)).
  rewrite (repositories_lists_the_names "alice" [proj] ["proj"]
             (json_reply 200 (PList [proj])) w
             (snd (requests (user_repos_request (PStr "alice") (PStr "5ha1")) w))).
  - reflexivity.
  - reflexivity.
  - vm_compute. reflexivity.
  - reflexivity.
  - constructor; [reflexivity | constructor].
Defined.

Lemma repositories_raises_TypeError_on_an_error_object_witness :
  fst (Api.repositories
         (scripted [Some (Answer (message 401 "Unauthorized"))] (logged_in ready)))
  = Raise TypeError.
Proof.
  pose (w := scripted [Some (Answer (message 401 "Unauthorized"))] (logged_in ready)).
  rewrite (repositories_raises_TypeError_on_an_error_object "message" (PStr "Unauthorized") []
             (message 401 "Unauthorized") w
             (snd (requests (user_repos_request (PStr "alice") (PStr "5ha1")) w))).
  - reflexivity.
  - vm_compute. reflexivity.
  - reflexivity.
Defined.

Lemma views_let_a_lost_connection_through_witness :
  fst (Auth.get_user (scripted [Some Unreachable] (logged_in ready)))
  = Raise ConnectionError /\
  fst (Api.repositories (scripted [Some Unreachable] (logged_in ready)))
  = Raise ConnectionError.
Proof.
  destruct (views_let_a_lost_connection_through []
              (scripted [Some Unreachable] (logged_in ready)) eq_refl) as [A B].
  rewrite A, B. split; reflexivity.
Defined.

(** No key anywhere: the first call installs, the second finds. *)
Lemma ensure_key_returns_True_the_second_time_witness :
  exists w'',
    ensure_key (PStr "5ha1") (snd (ensure_key (PStr "5ha1") (key_state false false)))
    = (Return (PBool true), w'').
Proof.
  destruct (ensure_key_returns_True_the_second_time (PStr "5ha1") PNone "alice" "f1"
              ["f2"; "f3"] (key_state false false)
              (snd (ensure_key (PStr "5ha1") (key_state false false))))
    as (_ & w'' & A & _).
  - reflexivity.
  - vm_compute. reflexivity.
  - vm_compute. reflexivity.
  - reflexivity.
  - vm_compute. reflexivity.
  - exists w''. exact A.
Defined.

(** The key of the git host is replaced, the key of the laptop stays. *)
Lemma ensure_key_replaces_the_key_on_the_host_witness :
  keys (gin (snd (ensure_key (PStr "5ha1") both_keys)))
  = [laptop_key; stored_key "alice" (fresh_public_key both_keys) "f1"].
Proof.
  destruct (ensure_key_replaces_the_key_on_the_host (PStr "5ha1") PNone "alice" "f1"
              ["f2"; "f3"] [laptop_key] [] old_key both_keys
              (snd (ensure_key (PStr "5ha1") both_keys))) as (_ & A & _).
  - reflexivity.
  - vm_compute. reflexivity.
  - reflexivity.
  - split; [reflexivity|]. split; [reflexivity|]. split; [reflexivity|].
    split; [reflexivity|]. constructor; [|constructor]. vm_compute. discriminate.
  - vm_compute. reflexivity.
  - reflexivity.
  - vm_compute. reflexivity.
  - exact A.
Defined.

(** The git host answers the request for the metadata with 401. *)
Lemma execute_workflow_raises_on_metadata_without_a_name_witness :
  fst (Api.execute_workflow attribute_error (execute_request "proj")
         (scripted [Some (Answer (message 401 "Unauthorized"))] (logged_in ready)))
  = Raise (KeyError "name").
Proof.
  pose (w := scripted [Some (Answer (message 401 "Unauthorized"))] (logged_in ready)).
  destruct (execute_workflow_raises_on_metadata_without_a_name attribute_error
              (execute_request "proj") (PStr "proj") (PList []) (PStr "add workflow")
              (PStr "wf1") (PDict [("message", PStr "Unauthorized")])
              [("0", PStr "make"); ("1", PStr "")] [] [("0", PStr "out.txt")]
              (KeyError "name") ["/tmp"; "tmpk3x9"] [["/tmp"; "tmpq7wz"]] w
              (snd (gin_get_repo_data (PStr "alice") (PStr "proj") (PStr "5ha1") w)))
    as (A & _).
  - unfold asks_for. repeat split.
  - vm_compute. reflexivity.
  - reflexivity.
  - vm_compute. reflexivity.
  - exact A.
Defined.

End Cases_at_work.
